(* ===== verification/_CoqProject ===== *)
-Q . S2P
Prelude.v
Float64.v
PyModel.v
Sensor.v
Simulator.v
Database.v
Backend.v
Run.v
Main.v
Queries.v
Broker.v
Api.v
System.v
