(* ===== verification/Prelude.v ===== *)
(** * A verification development of the parking IoT system

    The repository has two programs that only meet through an MQTT broker
    and an SQLite file.

    - [src/sensors/sensor_simulator.py]: class [ParkingSensor] (one parking
      place: [sensor_id], [zone], [is_occupied], [topic]; [detect_change]
      flips the place when [random.random() < 0.1]; [get_status] builds the
      JSON status) and class [ParkingSystem] (a list of sensors,
      [create_parking_lot] from a zone configuration, [publish_status],
      [publish_summary], the tick loop [run_simulation] with its
      [finally: cleanup()]).
    - [src/backend/backend_server.py]: class [ParkingDatabase] (two
      append-only SQLite tables [parking_events] and [hourly_stats], their
      inserts and three queries), class [MQTTBackend] (the [on_message]
      callback with the [last_hourly_save] watermark) and the Flask routes
      that answer from the same database.

    The sensor publishes a status dict per changed place and a summary
    dict per tick with changes; the backend stores each status as an event
    row and the first summary of each new hour as a snapshot row; the API
    reads both tables.

    Files, in dependency order:

    - [Prelude]: this header, the scope [parking_scope], the Ltac tactics,
      the hint databases [parking], the step closure [star] with
      [star_invariant], and generic lemmas: [round(x, 2)] as
      round-half-even, string comparison of concatenations, counting rows
      by group ([sum_group_counts]).
    - [Float64] (Module [Float64]): the binary64 rounding [dbl] of an exact
      rational and the float operations [fdiv], [fmul], [fadd], [fsub].
      Lemmas: the exponent puts the significand in [[2^52, 2^53)], the
      relative error is at most [2^-53], a value below an integer
      [c <= 2^52] rounds to at most [c].
    - [PyModel]: the Python runtime as the code uses it: JSON values
      ([PyVal]), exceptions ([PyExc]) and the result type [PyResult] with
      its [let?] notation, [dict.get] and [d[k]], payload decoding, the
      clock ([datetime.now()], [time.time()], [time.sleep]), [datetime]
      fields by Hinnant's [civil_from_days], [isoformat], the random module
      as streams of draws ([random.uniform] in floats), the publish return
      code.
    - [Sensor] (Module [Sensor]): [ParkingSensor], [detect_change],
      [get_status].
    - [Simulator] (Module [Simulator]): [ParkingSystem]: creation, the two
      publishers, one tick as an index-based fold over the fleet (equal to
      a reference list traversal), the loop [sim_loop] with fuel.
    - [Database] (Module [Database]): both tables as lists of rows with
      AUTOINCREMENT ids, the inserts with parameter binding and NOT NULL,
      [get_recent_events] with its limit bound as a 64-bit parameter.
    - [Backend] (Module [Backend]): [on_message] with the watermark and its
      three clock readings, [deliver] by the client's network loop (an
      escaping exception ends it), [deliver_all].
    - [Run] (Module [Run]): [run_simulation] as a step relation [run_step]
      (a [KeyboardInterrupt] between any two steps, [cleanup()] in
      [finally]), refined by [sim_loop].
    - [Main] (Module [Main]): the sensor program's [__main__] block up to
      [run_simulation()]: [ParkingSystem.__init__], the zone table,
      [create_parking_lot], [connect()].
    - [Queries] (Module [Queries]): [get_zone_statistics] (the text
      comparison with [datetime('now', '-1 day')], GROUP BY zone) and
      [get_statistics_by_hour] (GROUP BY / ORDER BY hour, [AVG], [round]).
    - [Broker] (Module [Broker]): the MQTT broker between the programs
      (topic filters, retained messages, forwarding), the backend's
      [on_connect] subscription to [parking/#], and a start of the backend
      process over an existing database.
    - [Api] (Module [Api]): the five Flask views, [request.args.get(...,
      type=int)] over Python's [int()], the URL map [dispatch].
    - [System] (Module [System]): the two processes and the broker
      together. A [World] is the simulator's [ParkingSystem], how many
      messages of its client's outbox the broker has received, the
      [Broker] and the [MQTTBackend]; [sys_step] takes one step of one of
      them in any interleaving (a loop iteration of [run_simulation()],
      the broker receiving the next message, the backend's loop
      delivering one), [sys_step_r] adds restarts of the backend process
      ([start_backend], whose [MQTTBackend.connect] may raise or get any
      return code), and [world_step] runs the same steps as an
      interpreter over actions.

    Theorems, by group:
    - System: without restarts, the events table is exactly the sequence
      of status messages the broker received, in publish order, once the
      backend's inbox is drained (each status stored once, summaries
      never); with restarts and failed connects, every stored row still
      names a place of the fleet with a valid status and every snapshot
      has the fleet's size; [/api/events] only ever lists fleet places.
      The invariants are proved by induction over the steps
      ([star_invariant]).
    - Sensor: [detect_change] flips exactly when the draw is below the
      binary64 constant [0.1] (900719925474100 of the [2^53] draws)
      and keeps the identity; the confidence of
      [get_status] is 85 to 100 hundredths for every draw.
    - Simulator: the fleet of [create_parking_lot]; the summary and its
      [ZeroDivisionError] on an empty fleet; the rate is 0 to 10000
      hundredths, exact for empty and full lots, and follows CPython's
      float rounding (14.37 for 23 of 160); one tick preserves the
      identities, flips exactly the drawn sensors and sends a summary only
      after a successful status publish; the loop with a duration ends,
      and with duration [None] or [0] it never ends by itself.
    - Run: [cleanup()] runs exactly once on every stopped run; every run
      can stop; [sim_loop] is refined by [run_step]; an interrupt inside a
      tick leaves a stale summary; an empty fleet crashes without cleanup.
    - Main: the entry point runs 24 sensors on distinct topics, its
      initial publish raises nothing, and its run has no duration.
    - Database: ids [1..n] in insertion order; [insert_event] succeeds
      exactly when the four NOT NULL fields are present and bindable; the
      events query returns the newest rows first.
    - Backend: a summary in the watermark's hour is dropped; in a new hour
      it appends a snapshot and moves the watermark; snapshots count the
      hour changes; two snapshots with the same hour at a boundary; an
      event appends exactly one row; a non-UTF-8 payload stops ingestion;
      deliveries only append, and keep every snapshot hour in [0 .. 23].
    - Queries: the zone window is a calendar day, not 24 hours (a 47 hour
      old event is counted); zone counts are consistent and add up to the
      window; hourly groups come in increasing hour and count every
      snapshot.
    - System, restarts: a backend started over an existing database while
      the broker retains the simulator's messages stores one new event
      per retained status (none for the retained summary).
    - Api: [/api/events] with its default, negative and overflowing
      limits, and a limit sent as [str(z)] read back as [z]; [/api/stats/hourly] answers 500 exactly when an
      hour has no rate; a sensor status reaches [/api/events] end to end;
      [/api/health] says [connected] after ingestion stopped; every answer
      is 200 with a body, or 404 or 500 without.

    Modelling choices, bounds and fuel.
    - Python [int] is [Z] (64-bit bounds checked where SQLite binds a
      parameter); counts are [nat]. A [float] is the exact rational value
      of a binary64 number; each float operation rounds with [dbl]. [dbl]
      covers the normal range, and the program's floats (rates 0..100,
      confidences 0.85..1, averages of rates) stay far inside it.
      [round(x, 2)] is round-half-even on the exact value, as CPython
      rounds; the float it returns is kept as its decimal, which [repr]
      prints. SQLite's [AVG] is the float nearest the exact mean.
    - [random.random()] is [k / 2^53] for a draw [k] of a stream; streams
      are arbitrary functions [nat -> _], so every theorem holds for every
      outcome of the generator. The clock is a state whose readings advance
      by an arbitrary lag from a stream.
    - [sim_loop] takes fuel, the number of loop iterations; its
      termination theorem gives enough fuel (the duration over the two
      seconds of each sleep) for the loop to end. The calendar bounds of
      [civil_from_days] (month 1..12, day 1..31, four-digit years up to
      the year 9600) are proved by linear arithmetic over the quotients
      of Hinnant's algorithm, for every day of a 400-year era. [int()] has CPython's limit
      of 4300 digits.
    - JSON encoding and decoding between the programs are taken as inverse
      (a payload travels as a [PyVal]); a payload that is not JSON or not
      UTF-8 is a constructor of [Payload].

    Environment assumptions beyond the code: a publish whose return
    code is not success is taken as lost (paho may instead queue a QoS 1
    message while disconnected and send it later); the network loop ends
    when a callback raises (paho re-raises it); [int()] has the 4300-digit
    limit of CPython 3.11 and later; a zone configuration is a list, so
    it may repeat a zone that a Python dict could not; [AVG] is the float
    nearest the exact mean (SQLite sums in doubles); a
    [KeyboardInterrupt] arrives between two sensor steps or phases of
    [run_simulation] (one during the initial publish counts as one
    before it, one inside [finally] is not modelled).

    Not modelled: the printing; the HTTP server, CORS and the threads of
    the backend (a request reads the database state it is given); QoS 1
    redelivery, sessions and several subscribers at the broker; SQLite's column type affinities (values are stored as
    bound, which differs only for a payload field of the wrong JSON type);
    float [repr] and the JSON text; [int()] on non-ASCII digits and
    whitespace; the simulator's [on_connect] and [on_disconnect] (they
    only print); a failing [client.connect] in the simulator's
    [connect()] ([exit(1)]); [app.run], the HTTP server itself, which
    only hands each request to the view [Api.dispatch] selects; the
    broker's other clients and the network between the processes (a
    message the broker received is delivered to the backend in order,
    or dropped with the session on a restart). *)

From stdpp Require Export base list strings pretty.
From Stdlib Require Export ZArith QArith Lia.

Declare Scope parking_scope.
Delimit Scope parking_scope with parking.

Create HintDb parking.
Create Rewrite HintDb parking.

(** ** Tactics *)

Ltac invc H := inversion H; subst; clear H.

(** Split every [let '(x, y) := e in _] of the goal on the pair [e]. *)
Ltac destruct_pairs :=
  repeat match goal with
  | |- context [let '(_, _) := ?e in _] =>
      let x := fresh "x" in let y := fresh "y" in
      destruct e as [x y] eqn:?
  end.

(** Case on the boolean tests [Z.ltb], [Z.eqb], [Nat.eqb] of the goal. *)
Ltac case_tests :=
  repeat match goal with
  | |- context [Z.ltb ?a ?b] => destruct (Z.ltb_spec a b)
  | |- context [Z.leb ?a ?b] => destruct (Z.leb_spec a b)
  | |- context [Z.eqb ?a ?b] => destruct (Z.eqb_spec a b)
  end.

(** ** Python's [round(x, 2)] on an exact rational *)

Open Scope Z_scope.

(** Round [n / d] to the nearest integer, ties to even ([d > 0]). *)
Definition round_half_even (n d : Z) : Z :=
  let q := n / d in
  let r := n mod d in
  if 2 * r <? d then q
  else if d <? 2 * r then q + 1
  else if Z.even q then q else q + 1.

(** [round(x, 2)] in hundredths: round-half-even of [100 * x]. *)
Definition round2_hundredths (x : Q) : Z :=
  round_half_even (100 * Qnum x) (Zpos (Qden x)).

Lemma round_half_even_bounds n d lo hi :
  0 < d -> lo * d <= n <= hi * d -> lo <= round_half_even n d <= hi.
Proof.
  intros Hd [Hl Hh]. unfold round_half_even.
  pose proof (Z.div_mod n d ltac:(lia)). pose proof (Z.mod_pos_bound n d Hd).
  assert (lo <= n / d) by (apply Z.div_le_lower_bound; lia).
  assert (n / d <= hi) by (apply Z.div_le_upper_bound; lia).
  destruct (Z.ltb_spec (2 * (n mod d)) d); [lia|].
  destruct (Z.ltb_spec d (2 * (n mod d))); [|destruct (Z.even (n / d))]; try lia;
    (assert (n / d < hi \/ n mod d = 0) by nia; lia).
Qed.

(** Exact multiples are not moved by rounding. *)
Lemma round_half_even_exact k d : 0 < d -> round_half_even (k * d) d = k.
Proof.
  intros Hd. unfold round_half_even.
  rewrite Z.div_mul, Z.mod_mul by lia.
  case_tests; lia.
Qed.

(** The nearest integer is at most half a unit away. *)
Lemma round_half_even_error n d :
  0 < d -> 2 * n - d <= 2 * round_half_even n d * d <= 2 * n + d.
Proof.
  intros Hd. unfold round_half_even.
  pose proof (Z.div_mod n d ltac:(lia)). pose proof (Z.mod_pos_bound n d Hd).
  destruct (Z.ltb_spec (2 * (n mod d)) d); [nia|].
  destruct (Z.ltb_spec d (2 * (n mod d))); [|destruct (Z.even (n / d))]; nia.
Qed.

(** [round(x, 2)] stays within hundredths bounds that enclose [x]. *)
Lemma round2_hundredths_bounds (x : Q) lo hi :
  (Qmake lo 100 <= x)%Q -> (x <= Qmake hi 100)%Q ->
  lo <= round2_hundredths x <= hi.
Proof.
  destruct x as [n d]. unfold Qle, round2_hundredths. simpl. intros Hl Hh.
  apply round_half_even_bounds; lia.
Qed.

(** Values strictly within half a hundredth of the bounds round within
    them, whatever the ties. *)
Lemma round2_hundredths_strict_bounds (x : Q) lo hi :
  (Qmake (2 * lo - 1) 200 < x)%Q -> (x < Qmake (2 * hi + 1) 200)%Q ->
  lo <= round2_hundredths x <= hi.
Proof.
  destruct x as [n d]. unfold Qlt, round2_hundredths. simpl. intros Hl Hh.
  pose proof (round_half_even_error (100 * n) (Zpos d) ltac:(lia)). nia.
Qed.

#[export] Hint Resolve round_half_even_bounds round2_hundredths_bounds : parking.

(** ** Lists *)

Close Scope Z_scope.
Open Scope nat_scope.

(** ** Sequences of steps of a relation *)

Section Star.
Context {A : Type} (R : A -> A -> Prop).

Inductive star : A -> A -> Prop :=
  | star_refl a : star a a
  | star_step a b c : R a b -> star b c -> star a c.

Lemma star_one a b : R a b -> star a b.
Proof. intros H. by apply (star_step a b b); [|constructor]. Qed.

Lemma star_trans a b c : star a b -> star b c -> star a c.
Proof. induction 1; [done|]. intros Hc. by apply (star_step _ b); [|apply IHstar]. Qed.

(** An invariant of the steps holds on every state reachable from one
    where it holds. *)
Lemma star_invariant (P : A -> Prop) :
  (forall a b, P a -> R a b -> P b) -> forall a b, star a b -> P a -> P b.
Proof. intros Hstep a b Hs. induction Hs; eauto. Qed.

End Star.

#[export] Hint Constructors star : parking.
#[export] Hint Resolve star_one star_trans : parking.

(** ** Lexicographic order of strings (SQLite's BINARY collation) *)

Lemma ascii_compare_refl c : Ascii.compare c c = Eq.
Proof. unfold Ascii.compare. apply N.compare_refl. Qed.

Lemma string_length_append a b :
  String.length (String.append a b) = (String.length a + String.length b)%nat.
Proof. induction a as [|c a IH]; simpl; [done|]. by rewrite IH. Qed.

(** stdpp makes [String.append] opaque to [simpl]: its two equations. *)
Lemma str_app_nil_l s : String.append "" s = s.
Proof. done. Qed.

Lemma str_app_cons c s t : String.append (String c s) t = String c (String.append s t).
Proof. done. Qed.

#[export] Hint Rewrite str_app_nil_l str_app_cons : parking.

Lemma str_app_assoc a b c : String.append (String.append a b) c = String.append a (String.append b c).
Proof. induction a as [|x a IH]; [done|]. by rewrite !str_app_cons, IH. Qed.

Lemma pretty_N_go_app x s : pretty_N_go x s = String.append (pretty_N_go x "") s.
Proof.
  revert s. induction (N.lt_wf_0 x) as [x _ IH]; intros s.
  destruct (decide (x = 0%N)) as [->|Hx]; [done|].
  rewrite (pretty_N_go_step x s), (pretty_N_go_step x "") by lia.
  assert (Hlt : (x `div` 10 < x)%N) by (apply N.div_lt; lia).
  rewrite (IH _ Hlt (String _ s)), (IH _ Hlt (String _ "")).
  by rewrite str_app_assoc, str_app_cons, str_app_nil_l.
Qed.

Lemma pretty_N_pos p : pretty (Npos p) = pretty_N_go (Npos p) "".
Proof. unfold pretty, pretty_N. by rewrite decide_False. Qed.

Lemma pretty_N_go_nonempty x : (0 < x)%N -> pretty_N_go x "" <> "".
Proof.
  intros Hx. rewrite pretty_N_go_step, pretty_N_go_app by done.
  by destruct (pretty_N_go _ "").
Qed.

Lemma pretty_Z_nonempty (z : Z) : pretty z <> "".
Proof.
  destruct z as [|p|p]; [done| |done]. change (pretty (Zpos p)) with (pretty (Npos p)).
  rewrite pretty_N_pos. by apply pretty_N_go_nonempty.
Qed.

(** Comparing two concatenations whose first parts have the same length
    compares the first parts, then the second ones. *)
Lemma string_compare_app a1 a2 b1 b2 :
  String.length a1 = String.length a2 ->
  String.compare (String.append a1 b1) (String.append a2 b2) =
  match String.compare a1 a2 with Eq => String.compare b1 b2 | c => c end.
Proof.
  revert a2. induction a1 as [|c1 a1 IH]; intros [|c2 a2] Hl; simpl in *; try done.
  destruct (Ascii.compare c1 c2); [apply IH|done|done]. lia.
Qed.

(** [take n (reverse l)] is the last [n] elements, newest first. *)
Lemma take_reverse_app {A} (l : list A) (x : A) n :
  take (S n) (reverse (l ++ [x])) = x :: take n (reverse l).
Proof. by rewrite reverse_app. Qed.


(** ** Counting rows by group

    [GROUP BY] with [COUNT( * )]: summed over distinct keys, the group
    sizes count the rows whose key is one of them. *)
Section Counting.
Context {A B : Type} `{EqDecision B} (f : A -> B).
Local Open Scope nat_scope.

Lemma sum_list_map_add (g h : B -> nat) (K : list B) :
  sum_list (map (fun z => g z + h z) K) = sum_list (map g K) + sum_list (map h K).
Proof. induction K as [|z K IH]; simpl; lia. Qed.

Lemma sum_list_indicator (x : B) (K : list B) :
  NoDup K ->
  sum_list (map (fun z => if decide (x = z) then 1 else 0) K) =
  if decide (x ∈ K) then 1 else 0.
Proof.
  induction K as [|z K IH]; intros HK; [done|]. apply NoDup_cons in HK as [Hz HK].
  simpl. rewrite IH by done. repeat case_decide; subst; rewrite ?elem_of_cons in *; naive_solver.
Qed.

Lemma sum_group_counts (K : list B) (rows : list A) :
  NoDup K ->
  sum_list (map (fun z => length (filter (fun r => f r = z) rows)) K) =
  length (filter (fun r => f r ∈ K) rows).
Proof.
  intros HK. induction rows as [|r rows IH].
  - clear HK. induction K; simpl; auto.
  - transitivity (sum_list (map (fun z => (if decide (f r = z) then 1 else 0) +
                                  length (filter (fun r => f r = z) rows)) K)).
    { f_equal. apply map_ext. intros z. rewrite filter_cons. case_decide; simpl; lia. }
    rewrite sum_list_map_add, IH, filter_cons.
    assert (Hi := sum_list_indicator (f r) K HK). simpl in Hi. rewrite Hi.
    case_decide; simpl; lia.
Qed.

End Counting.

Lemma length_filter_disjoint {A} (P Q : A -> Prop) `{forall x, Decision (P x)}
    `{forall x, Decision (Q x)} (l : list A) :
  (forall x, P x -> Q x -> False) -> (length (filter P l) + length (filter Q l) <= length l)%nat.
Proof.
  intros Hd. induction l as [|x l IH]; [done|]. rewrite !filter_cons.
  repeat case_decide; simpl; [exfalso; eauto|lia..].
Qed.

Lemma filter_all {A} (P : A -> Prop) `{forall x, Decision (P x)} (l : list A) :
  (forall x, x ∈ l -> P x) -> filter P l = l.
Proof.
  induction l as [|x l IH]; intros Hl; [done|]. rewrite filter_cons_True by (apply Hl; left).
  f_equal. apply IH. intros y Hy. apply Hl. by right.
Qed.

Lemma length_pos_elem_of {A} (l : list A) x : x ∈ l -> (0 < length l)%nat.
Proof. destruct l; [intros Hx; inversion Hx | simpl; lia]. Qed.

Lemma omap_nil_iff {A B} (f : A -> option B) (l : list A) :
  omap f l = [] <-> forall x, x ∈ l -> f x = None.
Proof.
  split.
  - intros E x Hx. destruct (f x) as [y|] eqn:Fx; [exfalso|done].
    assert (Hy : y ∈ omap f l) by (apply list_elem_of_omap; eauto). rewrite E in Hy. inversion Hy.
  - intros H. destruct (omap f l) as [|y ys] eqn:E; [done|].
    assert (Hy : y ∈ omap f l) by (rewrite E; left).
    apply list_elem_of_omap in Hy as (x & Hx & Fx). by rewrite H in Fx.
Qed.

Lemma NoDup_map_inj {A B} (f : A -> B) `{!Inj eq eq f} (l : list A) : NoDup l -> NoDup (map f l).
Proof.
  induction 1 as [|x l Hx _ IH]; simpl; constructor; [|done].
  rewrite list_elem_of_In, in_map_iff. intros (y & Hy%(inj f) & Hin). subst. by apply Hx, list_elem_of_In.
Qed.

(** What the right elements of a [Forall2] satisfy, from what each
    related pair does. *)
Lemma Forall2_Forall_r {A B} (R : A -> B -> Prop) (Q : B -> Prop) xs ys :
  (forall x y, x ∈ xs -> R x y -> Q y) -> Forall2 R xs ys -> Forall Q ys.
Proof.
  intros H HF. induction HF as [|x y xs ys Hxy _ IH]; constructor.
  - eapply H; [apply elem_of_cons; by left | done].
  - apply IH. intros x' y' Hx'. apply H. apply elem_of_cons. by right.
Qed.

Lemma elem_of_zip_r {A B} (l : list A) (k : list B) x y : (x, y) ∈ zip l k -> y ∈ k.
Proof.
  intros (i & Hi)%list_elem_of_lookup_1. apply lookup_zip_with_Some in Hi as (? & ? & [= -> ->] & _ & Hk).
  by eapply list_elem_of_lookup_2.
Qed.

Lemma elem_of_map_2 {A B} (f : A -> B) (l : list A) x : x ∈ l -> f x ∈ map f l.
Proof. rewrite !list_elem_of_In. apply in_map. Qed.
