(* ===== verification/Float64.v ===== *)
(** * Binary64 arithmetic of the Python runtime

    A Python [float] is an IEEE-754 binary64 number. The program computes
    with floats in two places: [round((occupied / total) * 100, 2)] in
    [publish_summary] and [random.uniform(0.85, 1.0)] ([a + (b - a) *
    random()]) in [get_status]. Each operation rounds its exact rational
    result to the nearest binary64 value, ties to an even significand.
    [dbl] is that rounding for the normal range: a positive [q] is
    [m * 2^e] with [2^52 <= q / 2^e < 2^53] and [m] the nearest integer to
    [q / 2^e]. The values of this program lie between [2^-53] and [100],
    far from overflow and from the subnormals, which [dbl] does not model. *)

From S2P Require Import Prelude.

Open Scope Z_scope.

Module Float64.

(** [2^e] as a rational, for any sign of [e]. *)
Definition pow2_q (e : Z) : Q :=
  if 0 <=? e then inject_Z (2 ^ e) else Qmake 1 (Z.to_pos (2 ^ (- e))).

(** [n / d / 2^e] as a fraction [a / b] of integers. *)
Definition scaled (n d e : Z) : Z * Z := (n * 2 ^ Z.max 0 (- e), d * 2 ^ Z.max 0 e).

(** A first exponent from the bit lengths: [n / d / 2^e0] lies in
    [(2^51, 2^53)]. *)
Definition guess_exp (n d : Z) : Z := Z.log2 n - Z.log2 d - 52.

(** The exponent that puts [n / d / 2^e] in [[2^52, 2^53)]. *)
Definition binade_exp (n d : Z) : Z :=
  let e0 := guess_exp n d in
  let '(a, b) := scaled n d e0 in
  if a <? 2 ^ 52 * b then e0 - 1 else e0.

(** The binary64 value nearest to [n / d], for [n, d > 0]. *)
Definition round_pos (n d : Z) : Q :=
  let e := binade_exp n d in
  let '(a, b) := scaled n d e in
  (inject_Z (round_half_even a b) * pow2_q e)%Q.

(** Rounding a rational to binary64, nearest, ties to even. *)
Definition dbl (q : Q) : Q :=
  match Qnum q with
  | Z0 => 0%Q
  | Zpos p => round_pos (Zpos p) (Zpos (Qden q))
  | Zneg p => (- round_pos (Zpos p) (Zpos (Qden q)))%Q
  end.

(** The float operations: [x / y] (also [int / int], which CPython
    rounds correctly), [x * y], [x + y], [x - y]. *)
Definition fdiv (x y : Q) : Q := dbl (x / y).
Definition fmul (x y : Q) : Q := dbl (x * y).
Definition fadd (x y : Q) : Q := dbl (x + y).
Definition fsub (x y : Q) : Q := dbl (x - y).

(** ** Lemmas *)

Lemma pow2_q_pos e : (0 < pow2_q e)%Q.
Proof.
  unfold pow2_q. case_tests.
  - unfold Qlt. simpl. pose proof (Z.pow_pos_nonneg 2 e ltac:(lia) ltac:(lia)). lia.
  - unfold Qlt. simpl. lia.
Qed.

Lemma scaled_pos n d e : 0 < n -> 0 < d -> 0 < fst (scaled n d e) /\ 0 < snd (scaled n d e).
Proof.
  intros Hn Hd. unfold scaled. simpl.
  pose proof (Z.pow_pos_nonneg 2 (Z.max 0 (- e)) ltac:(lia) ltac:(lia)).
  pose proof (Z.pow_pos_nonneg 2 (Z.max 0 e) ltac:(lia) ltac:(lia)). nia.
Qed.

(** Lowering the exponent by one doubles [n / d / 2^e]. *)
Lemma scaled_pred n d e :
  fst (scaled n d (e - 1)) * snd (scaled n d e) = 2 * fst (scaled n d e) * snd (scaled n d (e - 1)).
Proof.
  unfold scaled. simpl. destruct (Z.leb_spec 1 e).
  - rewrite !(Z.max_l 0 (- _)) by lia. rewrite !Z.max_r by lia.
    assert (E : 2 ^ e = 2 * 2 ^ (e - 1)) by (rewrite <-Z.pow_succ_r by lia; f_equal; lia).
    rewrite E. ring.
  - rewrite !(Z.max_l 0 e), !(Z.max_l 0 (e - 1)) by lia. rewrite !Z.max_r by lia.
    assert (E : 2 ^ (- (e - 1)) = 2 * 2 ^ (- e)) by (rewrite <-Z.pow_succ_r by lia; f_equal; lia).
    rewrite E. ring.
Qed.

(** The first exponent puts the scaled value in [(2^51, 2^53)]. *)
Lemma guess_exp_spec n d :
  0 < n -> 0 < d ->
  let '(a, b) := scaled n d (guess_exp n d) in 2 ^ 51 * b < a < 2 ^ 53 * b.
Proof.
  intros Hn Hd. unfold scaled, guess_exp.
  pose proof (Z.log2_spec n Hn) as [Ln Un]. pose proof (Z.log2_spec d Hd) as [Ld Ud].
  pose proof (Z.log2_nonneg n). pose proof (Z.log2_nonneg d).
  rewrite Z.pow_succ_r in Un, Ud by lia.
  set (ln := Z.log2 n) in *. set (ld := Z.log2 d) in *.
  pose proof (Z.pow_pos_nonneg 2 ld ltac:(lia) ltac:(lia)).
  destruct (Z.leb_spec 0 (ln - ld - 52)) as [He|He].
  - rewrite (Z.max_l 0 (- _)), (Z.max_r 0 (ln - ld - 52)) by lia. rewrite Z.pow_0_r.
    assert (E : 2 ^ ln = 2 ^ (ln - ld - 52) * 2 ^ ld * 2 ^ 52)
      by (rewrite <-!Z.pow_add_r by lia; f_equal; lia).
    pose proof (Z.pow_pos_nonneg 2 (ln - ld - 52) ltac:(lia) He).
    set (P := 2 ^ (ln - ld - 52)) in *. set (L := 2 ^ ld) in *. nia.
  - rewrite (Z.max_r 0 (- _)), (Z.max_l 0 (ln - ld - 52)) by lia. rewrite Z.pow_0_r.
    assert (E : 2 ^ ln * 2 ^ (- (ln - ld - 52)) = 2 ^ ld * 2 ^ 52)
      by (rewrite <-!Z.pow_add_r by lia; f_equal; lia).
    pose proof (Z.pow_pos_nonneg 2 (- (ln - ld - 52)) ltac:(lia) ltac:(lia)).
    set (F := 2 ^ (- (ln - ld - 52))) in *. set (L := 2 ^ ld) in *. nia.
Qed.

(** The chosen exponent puts the scaled value in [[2^52, 2^53)]. *)
Lemma binade_exp_spec n d :
  0 < n -> 0 < d ->
  let '(a, b) := scaled n d (binade_exp n d) in 2 ^ 52 * b <= a < 2 ^ 53 * b.
Proof.
  intros Hn Hd. pose proof (guess_exp_spec n d Hn Hd) as Hg.
  pose proof (scaled_pred n d (guess_exp n d)) as Hp.
  pose proof (scaled_pos n d (guess_exp n d - 1) Hn Hd) as [Pa Pb].
  pose proof (scaled_pos n d (guess_exp n d) Hn Hd) as [Qa Qb].
  unfold binade_exp. destruct (scaled n d (guess_exp n d)) as [a b] eqn:E.
  destruct (scaled n d (guess_exp n d - 1)) as [a' b'] eqn:E'. simpl in Hp, Pa, Pb, Qa, Qb.
  destruct (Z.ltb_spec a (2 ^ 52 * b)); [rewrite E'; cbn iota beta; nia | rewrite E; cbn iota beta; lia].
Qed.

Lemma pow2_q_nonpos e : e <= 0 -> (pow2_q e == Qmake 1 (Z.to_pos (2 ^ (- e))))%Q.
Proof.
  intros He. unfold pow2_q. destruct (Z.leb_spec 0 e); [|reflexivity].
  assert (e = 0) as -> by lia. reflexivity.
Qed.

(** [a / b * 2^e] is [n / d]. *)
Lemma scaled_value n d e :
  0 < n -> 0 < d ->
  let '(a, b) := scaled n d e in (Qmake a (Z.to_pos b) * pow2_q e == Qmake n (Z.to_pos d))%Q.
Proof.
  intros Hn Hd. pose proof (Z.pow_pos_nonneg 2 (Z.max 0 e) ltac:(lia) ltac:(lia)).
  pose proof (Z.pow_pos_nonneg 2 (Z.max 0 (- e)) ltac:(lia) ltac:(lia)).
  unfold scaled, pow2_q, Qeq, Qmult. simpl. destruct (Z.leb_spec 0 e).
  - rewrite (Z.max_r 0 e), (Z.max_l 0 (- e)) by lia. simpl.
    rewrite !Pos2Z.inj_mul, !Z2Pos.id by lia. ring.
  - rewrite (Z.max_l 0 e), (Z.max_r 0 (- e)) in * by lia. simpl.
    rewrite !Pos2Z.inj_mul, !Z2Pos.id by lia. ring.
Qed.

(** Rounding to the nearest binary64 moves a positive value by at most a
    relative [2^-53]. *)
Lemma round_pos_error n d :
  0 < n -> 0 < d ->
  (Qmake n (Z.to_pos d) * Qmake 9007199254740991 9007199254740992 <= round_pos n d <=
   Qmake n (Z.to_pos d) * Qmake 9007199254740993 9007199254740992)%Q.
Proof.
  intros Hn Hd. unfold round_pos.
  pose proof (binade_exp_spec n d Hn Hd) as Hs. pose proof (scaled_value n d (binade_exp n d) Hn Hd) as Hv.
  pose proof (scaled_pos n d (binade_exp n d) Hn Hd) as [Pa Pb]. pose proof (pow2_q_pos (binade_exp n d)).
  destruct (scaled n d (binade_exp n d)) as [a b]. simpl in Pa, Pb. rewrite <-Hv.
  pose proof (round_half_even_error a b Pb). set (m := round_half_even a b) in *.
  assert (L : (Qmake a (Z.to_pos b) * Qmake 9007199254740991 9007199254740992 <= inject_Z m)%Q)
    by (unfold Qle; simpl; rewrite Pos2Z.inj_mul, Z2Pos.id by lia; nia).
  assert (U : (inject_Z m <= Qmake a (Z.to_pos b) * Qmake 9007199254740993 9007199254740992)%Q)
    by (unfold Qle; simpl; rewrite Pos2Z.inj_mul, Z2Pos.id by lia; nia).
  split.
  - setoid_replace (Qmake a (Z.to_pos b) * pow2_q (binade_exp n d) * Qmake 9007199254740991 9007199254740992)%Q
      with (Qmake a (Z.to_pos b) * Qmake 9007199254740991 9007199254740992 * pow2_q (binade_exp n d))%Q using relation Qeq by ring.
    apply Qmult_le_compat_r; [done | by apply Qlt_le_weak].
  - setoid_replace (Qmake a (Z.to_pos b) * pow2_q (binade_exp n d) * Qmake 9007199254740993 9007199254740992)%Q
      with (Qmake a (Z.to_pos b) * Qmake 9007199254740993 9007199254740992 * pow2_q (binade_exp n d))%Q using relation Qeq by ring.
    apply Qmult_le_compat_r; [done | by apply Qlt_le_weak].
Qed.

(** A value below an integer [c <= 2^52] rounds to at most [c]. *)
Lemma round_pos_le_int n d c :
  0 < n -> 0 < d -> n <= c * d -> c <= 2 ^ 52 -> (round_pos n d <= inject_Z c)%Q.
Proof.
  intros Hn Hd Hc Hc52. unfold round_pos.
  pose proof (binade_exp_spec n d Hn Hd) as Hs.
  set (e := binade_exp n d) in *. unfold scaled in *.
  destruct (Z.leb_spec e 0) as [He|He].
  - rewrite (Z.max_l 0 e), (Z.max_r 0 (- e)) in * by lia. rewrite Z.pow_0_r, Z.mul_1_r in *.
    rewrite pow2_q_nonpos by done.
    pose proof (Z.pow_pos_nonneg 2 (- e) ltac:(lia) ltac:(lia)). set (F := 2 ^ (- e)) in *.
    assert (round_half_even (n * F) d <= c * F) by (apply (round_half_even_bounds _ _ 0); nia).
    unfold Qle, Qmult. simpl. rewrite Pos.mul_1_l, Z2Pos.id by lia. lia.
  - rewrite (Z.max_r 0 e), (Z.max_l 0 (- e)) in * by lia.
    assert (2 <= 2 ^ e) by (replace 2 with (2 ^ 1) at 1 by done; apply Z.pow_le_mono_r; lia). nia.
Qed.

Lemma dbl_error q :
  (0 <= q)%Q ->
  (q * Qmake 9007199254740991 9007199254740992 <= dbl q <= q * Qmake 9007199254740993 9007199254740992)%Q.
Proof.
  destruct q as [[|n|n] d]; unfold Qle; simpl; intros Hq; [lia | | lia].
  apply (round_pos_error (Zpos n) (Zpos d)); lia.
Qed.

Lemma dbl_nonneg q : (0 <= q)%Q -> (0 <= dbl q)%Q.
Proof.
  intros Hq. destruct (dbl_error q Hq) as [Hl _]. eapply Qle_trans; [|exact Hl].
  apply Qmult_le_0_compat; [done | discriminate].
Qed.

Lemma dbl_le_int q c : (0 <= q)%Q -> (q <= inject_Z c)%Q -> 0 < c <= 2 ^ 52 -> (dbl q <= inject_Z c)%Q.
Proof.
  destruct q as [[|n|n] d]; unfold Qle at 1 2; simpl; intros Hq Hc Hc'; [unfold Qle; simpl; lia | | lia].
  change (round_pos (Zpos n) (Zpos d) <= inject_Z c)%Q. apply round_pos_le_int; lia.
Qed.

(** [n / n] rounds to [1], as [2^52 / 2^52]. *)
Lemma round_pos_diag n : 0 < n -> round_pos n n = Qmake 4503599627370496 4503599627370496.
Proof.
  intros Hn. unfold round_pos, binade_exp, guess_exp.
  replace (Z.log2 n - Z.log2 n - 52) with (-52) by lia. unfold scaled.
  replace (Z.max 0 (- -52)) with 52 by reflexivity. replace (Z.max 0 (-52)) with 0 by reflexivity.
  rewrite Z.pow_0_r, !Z.mul_1_r.
  assert (E : (n * 2 ^ 52 <? 2 ^ 52 * n) = false) by (apply Z.ltb_ge; lia). rewrite E.
  replace (Z.max 0 (- -52)) with 52 by reflexivity. replace (Z.max 0 (-52)) with 0 by reflexivity.
  rewrite Z.pow_0_r, Z.mul_1_r, (Z.mul_comm n), round_half_even_exact by lia. reflexivity.
Qed.

(** [o / t] for integers [0 <= o <= t], [t > 0]. *)
Lemma fdiv_int_unit o t : 0 <= o <= t -> 0 < t -> (0 <= fdiv (inject_Z o) (inject_Z t) <= 1)%Q.
Proof.
  intros Ho Ht. destruct t as [|p|p]; try lia. unfold fdiv.
  assert (Hq : (0 <= inject_Z o / inject_Z (Zpos p) <= inject_Z 1)%Q)
    by (unfold Qdiv, Qinv, Qle; simpl; lia).
  split; [apply dbl_nonneg, Hq | apply (dbl_le_int _ 1); [apply Hq | apply Hq | lia]].
Qed.

Lemma fdiv_int_diag t : 0 < t -> fdiv (inject_Z t) (inject_Z t) = Qmake 4503599627370496 4503599627370496.
Proof.
  intros Ht. destruct t as [|p|p]; try lia. unfold fdiv, dbl. simpl.
  rewrite Pos.mul_1_r. apply round_pos_diag. lia.
Qed.

Lemma fdiv_int_zero t : fdiv (inject_Z 0) (inject_Z t) = 0%Q.
Proof. reflexivity. Qed.

End Float64.
