(* ===== verification/PyModel.v ===== *)
(** * The Python runtime and libraries as the two programs use them

    Values after [json.loads] ([PyVal]), the exceptions the code can meet
    ([PyExc]) and a result type for fallible code ([PyResult]);
    [dict.get] and [d[k]]; the bytes of an MQTT payload; the wall clock
    ([datetime.now()], [time.time()], [time.sleep], [isoformat]); the
    random module as streams of outcomes; the publish return code of the
    MQTT client. None of this is code of the repository: it is the
    environment the code of [Sensor], [Simulator], [Database] and
    [Backend] runs in. *)

From S2P Require Import Prelude Float64.
Import Float64.

Open Scope Z_scope.

(** ** JSON values and Python exceptions *)

(** A JSON document after [json.loads]: objects become dicts, kept as
    association lists in the order of the text. *)
Inductive PyVal :=
  | VNone
  | VBool (b : bool)
  | VInt (z : Z)
  | VFloat (q : Q)
  | VStr (s : string)
  | VList (l : list PyVal)
  | VDict (kvs : list (string * PyVal)).

Inductive PyExc :=
  | UnicodeDecodeError
  | JSONDecodeError
  | KeyError (k : string)
  | TypeError
  | AttributeError
  | ZeroDivisionError
  | OverflowError
  | ProgrammingError
  | IntegrityError (column : string)
  | KeyboardInterrupt.

#[export] Instance PyExc_eq_dec : EqDecision PyExc.
Proof. solve_decision. Defined.

Inductive PyResult (A : Type) :=
  | Ok (a : A)
  | Raise (e : PyExc).
Arguments Ok {A} a.
Arguments Raise {A} e.

Definition py_bind {A B} (r : PyResult A) (k : A -> PyResult B) : PyResult B :=
  match r with Ok a => k a | Raise e => Raise e end.

Notation "'let?' x ':=' c 'in' k" := (py_bind c (fun x => k))
  (at level 10, x name, c at level 100, k at level 200) : parking_scope.

Open Scope parking_scope.

(** A list comprehension whose element expression may raise: the first
    exception wins. *)
Fixpoint py_map {A B} (f : A -> PyResult B) (l : list A) : PyResult (list B) :=
  match l with
  | [] => Ok []
  | x :: rest => let? y := f x in let? ys := py_map f rest in Ok (y :: ys)
  end.

(** A dict built by [json.loads] keeps the last value of a repeated key. *)
Fixpoint dict_lookup (k : string) (kvs : list (string * PyVal)) : option PyVal :=
  match kvs with
  | [] => None
  | (k', v) :: rest =>
      match dict_lookup k rest with
      | Some v' => Some v'
      | None => if String.eqb k k' then Some v else None
      end
  end.

(** [data.get(k)]: [None] for a missing key, [AttributeError] when [data]
    is not a dict (a list, a string, a number or [None]). *)
Definition py_get (d : PyVal) (k : string) : PyResult PyVal :=
  match d with
  | VDict kvs => Ok (default VNone (dict_lookup k kvs))
  | _ => Raise AttributeError
  end.

(** [data[k]] with a string key: [KeyError] for a missing key,
    [TypeError] when [data] is not a dict. *)
Definition py_getitem (d : PyVal) (k : string) : PyResult PyVal :=
  match d with
  | VDict kvs =>
      match dict_lookup k kvs with
      | Some v => Ok v
      | None => Raise (KeyError k)
      end
  | _ => Raise TypeError
  end.

(** ** MQTT payload bytes *)

(** The bytes of a message: the UTF-8 text of a JSON document, UTF-8 text
    that is not JSON, or bytes that are not UTF-8. *)
Inductive Payload :=
  | Utf8Json (v : PyVal)
  | Utf8Text
  | NonUtf8.

Inductive Text := JsonText (v : PyVal) | OtherText.

(** [payload.decode()] *)
Definition bytes_decode (p : Payload) : PyResult Text :=
  match p with
  | Utf8Json v => Ok (JsonText v)
  | Utf8Text => Ok OtherText
  | NonUtf8 => Raise UnicodeDecodeError
  end.

(** [json.loads(text)] *)
Definition json_loads (t : Text) : PyResult PyVal :=
  match t with
  | JsonText v => Ok v
  | OtherText => Raise JSONDecodeError
  end.

(** ** The clock *)

(** POSIX time in microseconds, the local offset, and a stream of lags:
    the [n]-th reading sees the time advanced by [clk_lag n]. *)
Record Clock := mkClock {
  clk_us : Z;
  clk_tz_us : Z;
  clk_lag : nat -> N;
  clk_reads : nat
}.

(** One reading of the clock, in microseconds (what [time.time()] returns,
    scaled). *)
Definition clock_read (c : Clock) : Z * Clock :=
  let t := clk_us c + Z.of_N (clk_lag c (clk_reads c)) in
  (t, mkClock t (clk_tz_us c) (clk_lag c) (S (clk_reads c))).

(** [time.sleep(s)] *)
Definition time_sleep (s : Z) (c : Clock) : Clock :=
  mkClock (clk_us c + s * 1000000) (clk_tz_us c) (clk_lag c) (clk_reads c).

Record DateTime := mkDateTime {
  dt_year : Z; dt_month : Z; dt_day : Z;
  dt_hour : Z; dt_minute : Z; dt_second : Z; dt_microsecond : Z
}.

Definition us_per_day : Z := 86400000000.
Definition us_per_hour : Z := 3600000000.

(** Proleptic Gregorian date of a day count from 1970-01-01. *)
Definition civil_from_days (days : Z) : Z * Z * Z :=
  let z := days + 719468 in
  let era := z / 146097 in
  let doe := z - era * 146097 in
  let yoe := (doe - doe / 1460 + doe / 36524 - doe / 146096) / 365 in
  let doy := doe - (365 * yoe + yoe / 4 - yoe / 100) in
  let mp := (5 * doy + 2) / 153 in
  let d := doy - (153 * mp + 2) / 5 + 1 in
  let m := if mp <? 10 then mp + 3 else mp - 9 in
  let y := yoe + era * 400 in
  (if m <=? 2 then y + 1 else y, m, d).

(** The year of era, month and day of a day of era [doe] (0 to 146096),
    the part of [civil_from_days] that does not depend on the era. *)
Definition civil_of_doe (doe : Z) : Z * Z * Z :=
  let yoe := (doe - doe / 1460 + doe / 36524 - doe / 146096) / 365 in
  let doy := doe - (365 * yoe + yoe / 4 - yoe / 100) in
  let mp := (5 * doy + 2) / 153 in
  (yoe, if mp <? 10 then mp + 3 else mp - 9, doy - (153 * mp + 2) / 5 + 1).

(** The broken-down time of [t] microseconds after the epoch. *)
Definition datetime_of_us (t : Z) : DateTime :=
  let days := t / us_per_day in
  let r := t mod us_per_day in
  let '(y, m, d) := civil_from_days days in
  mkDateTime y m d (r / us_per_hour) (r mod us_per_hour / 60000000)
    (r mod 60000000 / 1000000) (r mod 1000000).

(** The fields of a date print with their width. *)
Definition date_fields_ok (d : DateTime) : Prop :=
  0 <= dt_year d < 10000 /\ 0 <= dt_month d < 100 /\ 0 <= dt_day d < 100.

(** [datetime.now()]: the local time of one clock reading. *)
Definition datetime_now (c : Clock) : DateTime * Clock :=
  let '(t, c') := clock_read c in (datetime_of_us (t + clk_tz_us c), c').

(** The decimal digit of [d] in [0..9]. *)
Definition digit_char (d : Z) : Ascii.ascii := Ascii.ascii_of_nat (48 + Z.to_nat d).
Arguments digit_char : simpl never.

(** The [w] last decimal digits of [n]. *)
Fixpoint digits (w : nat) (n : Z) : string :=
  match w with
  | O => ""
  | S w' => String.append (digits w' (n / 10)) (String (digit_char (n mod 10)) "")
  end.

(** [%0wd]: [w] digits with leading zeros when [0 <= n < 10^w], the plain
    decimal otherwise. *)
Definition zpad (w : nat) (n : Z) : string :=
  if (0 <=? n) && (n <? 10 ^ Z.of_nat w) then digits w n else pretty n.

(** [datetime.isoformat()]: the microseconds appear only when non-zero. *)
Definition isoformat (d : DateTime) : string :=
  String.concat "" [zpad 4 (dt_year d); "-"; zpad 2 (dt_month d); "-";
    zpad 2 (dt_day d); "T"; zpad 2 (dt_hour d); ":"; zpad 2 (dt_minute d);
    ":"; zpad 2 (dt_second d);
    if dt_microsecond d =? 0 then "" else String.append "." (zpad 6 (dt_microsecond d))].

(** ** The random module *)

(** [random.random()] returns [k / 2^53]; [random.choice([True, False])]
    returns a boolean. Each is a stream with its cursor. *)
Record Rng := mkRng {
  rng_random : nat -> Z;
  rng_n_random : nat;
  rng_choice : nat -> bool;
  rng_n_choice : nat
}.

Definition two_p53 : Z := 9007199254740992.

(** The generator's outputs are 53-bit numerators. *)
Definition rng_ok (g : Rng) : Prop := forall i, 0 <= rng_random g i < two_p53.

(** [random.random()], as the numerator [k] of [k / 2^53]. *)
Definition random_random (g : Rng) : Z * Rng :=
  (rng_random g (rng_n_random g),
   mkRng (rng_random g) (S (rng_n_random g)) (rng_choice g) (rng_n_choice g)).

(** [random.choice([True, False])] *)
Definition random_choice_bool (g : Rng) : bool * Rng :=
  (rng_choice g (rng_n_choice g),
   mkRng (rng_random g) (rng_n_random g) (rng_choice g) (S (rng_n_choice g))).

(** [random.uniform(a, b)] is [a + (b - a) * random()], in floats. *)
Definition random_uniform (a b : Q) (g : Rng) : Q * Rng :=
  let '(k, g') := random_random g in
  (fadd a (fmul (fsub b a) (Qmake k 9007199254740992)), g').

(** [round(x, 2)]: the nearest number of hundredths to the exact value of
    the float [x], half to even (CPython rounds on the exact binary value).
    The float returned is the one nearest that decimal, which [repr] and
    [json.dumps] print as the decimal; the model keeps the decimal. *)
Definition py_round2 (x : Q) : Q := Qmake (round2_hundredths x) 100.

(** ** The MQTT client's publish return code *)

(** [client.publish(...).rc == MQTT_ERR_SUCCESS], one outcome per call. *)
Record Link := mkLink { link_ok : nat -> bool; link_n : nat }.

Definition link_publish (l : Link) : bool * Link :=
  (link_ok l (link_n l), mkLink (link_ok l) (S (link_n l))).

(** ** Lemmas *)

Lemma clock_read_mono c : clk_us c <= fst (clock_read c).
Proof. simpl. lia. Qed.

Lemma clock_read_tz c : clk_tz_us (snd (clock_read c)) = clk_tz_us c.
Proof. reflexivity. Qed.

(** The hour of [datetime.now()] depends only on the local time of day. *)
Lemma datetime_of_us_hour t :
  dt_hour (datetime_of_us t) = t mod us_per_day / us_per_hour.
Proof. unfold datetime_of_us. by destruct (civil_from_days _) as [[y m] d]. Qed.

Lemma datetime_of_us_hour_range t : 0 <= dt_hour (datetime_of_us t) < 24.
Proof.
  rewrite datetime_of_us_hour. unfold us_per_day, us_per_hour.
  pose proof (Z.mod_pos_bound t 86400000000 ltac:(lia)).
  split; [apply Z.div_pos | apply Z.div_lt_upper_bound]; lia.
Qed.

Lemma rng_ok_random g : rng_ok g ->
  rng_ok (snd (random_random g)) /\ 0 <= fst (random_random g) < two_p53.
Proof. intros H. split; [exact H | apply H]. Qed.

Lemma rng_ok_choice g : rng_ok g -> rng_ok (snd (random_choice_bool g)).
Proof. intros H. exact H. Qed.

Lemma length_digits w n : String.length (digits w n) = w.
Proof.
  revert n. induction w as [|w IH]; intros n; [done|]. simpl.
  rewrite string_length_append, IH. simpl. lia.
Qed.

Lemma digit_char_compare x y :
  0 <= x < 10 -> 0 <= y < 10 -> Ascii.compare (digit_char x) (digit_char y) = Z.compare x y.
Proof.
  intros Hx Hy.
  assert (x = 0 \/ x = 1 \/ x = 2 \/ x = 3 \/ x = 4 \/ x = 5 \/ x = 6 \/ x = 7 \/ x = 8 \/ x = 9)
    as Ex by lia.
  assert (y = 0 \/ y = 1 \/ y = 2 \/ y = 3 \/ y = 4 \/ y = 5 \/ y = 6 \/ y = 7 \/ y = 8 \/ y = 9)
    as Ey by lia.
  destruct_or! Ex; destruct_or! Ey; subst; reflexivity.
Qed.

(** Fixed-width digit strings compare as the numbers they write. *)
Lemma digits_compare w a b :
  0 <= a < 10 ^ Z.of_nat w -> 0 <= b < 10 ^ Z.of_nat w ->
  String.compare (digits w a) (digits w b) = Z.compare a b.
Proof.
  revert a b. induction w as [|w IH]; intros a b Ha Hb; [simpl in *; assert (a = 0) by lia; assert (b = 0) by lia; by subst|].
  rewrite Nat2Z.inj_succ, Z.pow_succ_r in Ha, Hb by lia. simpl.
  rewrite string_compare_app by (by rewrite !length_digits).
  pose proof (Z.div_mod a 10 ltac:(lia)). pose proof (Z.div_mod b 10 ltac:(lia)).
  pose proof (Z.mod_pos_bound a 10 ltac:(lia)). pose proof (Z.mod_pos_bound b 10 ltac:(lia)).
  rewrite IH by (split; [apply Z.div_pos | apply Z.div_lt_upper_bound]; lia).
  cbn [String.compare]. rewrite digit_char_compare by lia.
  destruct (Z.compare_spec (a / 10) (b / 10)) as [E|L|G].
  - destruct (Z.compare_spec (a mod 10) (b mod 10)); symmetry;
      [apply Z.compare_eq_iff | apply Z.compare_lt_iff | apply Z.compare_gt_iff]; lia.
  - symmetry. apply Z.compare_lt_iff. lia.
  - symmetry. apply Z.compare_gt_iff. lia.
Qed.

Lemma zpad_digits w n : 0 <= n < 10 ^ Z.of_nat w -> zpad w n = digits w n.
Proof. intros Hn. unfold zpad. by case_tests; [|lia..]. Qed.

Lemma civil_from_days_doe days :
  civil_from_days days =
  let '(yoe, m, d) := civil_of_doe ((days + 719468) mod 146097) in
  let y := yoe + (days + 719468) / 146097 * 400 in
  (if m <=? 2 then y + 1 else y, m, d).
Proof.
  unfold civil_from_days, civil_of_doe.
  replace ((days + 719468) mod 146097)
    with (days + 719468 - (days + 719468) / 146097 * 146097) by (rewrite Z.mod_eq; lia).
  reflexivity.
Qed.

(** Hinnant's algorithm on a day of era: the year of era, month and day
    are in range (linear arithmetic over the quotients). *)
Lemma civil_of_doe_ranges doe :
  0 <= doe < 146097 ->
  let '(yoe, m, d) := civil_of_doe doe in 0 <= yoe < 400 /\ 1 <= m <= 12 /\ 1 <= d <= 31.
Proof.
  intros Hd. unfold civil_of_doe.
  set (yoe := (doe - doe / 1460 + doe / 36524 - doe / 146096) / 365).
  set (doy := doe - (365 * yoe + yoe / 4 - yoe / 100)).
  assert (Hy : 0 <= yoe < 400 /\ 0 <= doy <= 365) by (subst yoe doy; Z.div_mod_to_equations; lia).
  set (mp := (5 * doy + 2) / 153).
  assert (Hm : 0 <= mp <= 11 /\ 1 <= doy - (153 * mp + 2) / 5 + 1 <= 31)
    by (subst mp; clearbody doy; Z.div_mod_to_equations; lia).
  case_tests; lia.
Qed.

(** [civil_from_days] gives a month in 1..12 and a day in 1..31, and a
    four-digit year for the days from 1970 to the year 9600. *)
Lemma civil_from_days_ranges days :
  0 <= days < 2786860 ->
  let '(y, m, d) := civil_from_days days in 0 <= y < 10000 /\ 1 <= m <= 12 /\ 1 <= d <= 31.
Proof.
  intros Hd. rewrite civil_from_days_doe.
  pose proof (civil_of_doe_ranges ((days + 719468) mod 146097) (Z.mod_pos_bound _ 146097 ltac:(lia))) as Hok.
  destruct (civil_of_doe _) as [[yoe m] d].
  assert (0 <= (days + 719468) / 146097 < 24) by (split; [apply Z.div_pos | apply Z.div_lt_upper_bound]; lia).
  case_tests; split; lia.
Qed.

Lemma datetime_of_us_date_ok t :
  0 <= t < 2786860 * us_per_day -> date_fields_ok (datetime_of_us t).
Proof.
  intros Ht. unfold datetime_of_us, us_per_day in *.
  pose proof (civil_from_days_ranges (t / 86400000000)) as Hr.
  destruct (civil_from_days _) as [[y m] d]. unfold date_fields_ok; simpl.
  destruct Hr as (?&?&?); [split; [apply Z.div_pos | apply Z.div_lt_upper_bound]; lia|]. lia.
Qed.

Lemma py_map_ok {A B} (f : A -> PyResult B) l ys :
  py_map f l = Ok ys <-> Forall2 (fun x y => f x = Ok y) l ys.
Proof.
  revert ys. induction l as [|x l IH]; intros ys; simpl.
  - split; [intros [= <-]; constructor | by inversion 1].
  - destruct (f x) as [y|e] eqn:Ex; simpl; [|split; [done | inversion 1; congruence]].
    destruct (py_map f l) as [zs|e] eqn:E; simpl.
    + split; [intros [= <-]; constructor; [done | by apply IH] |].
      inversion 1 as [|? ? ? ? Hy Hl]; subst. apply IH in Hl. congruence.
    + split; [done|]. inversion 1 as [|? ? ? ? _ Hl]; subst. apply IH in Hl. congruence.
Qed.

Lemma py_map_raise {A B} (f : A -> PyResult B) l e :
  py_map f l = Raise e -> exists x, x ∈ l /\ f x = Raise e.
Proof.
  induction l as [|x l IH]; simpl; [done|].
  destruct (f x) as [y|e'] eqn:Ex; simpl; [|intros [= ->]; exists x; split; [left | done]].
  destruct (py_map f l); simpl; [done|]. intros [= ->]. destruct IH as (z & ? & ?); [done|].
  exists z. split; [by right | done].
Qed.

Lemma py_map_raise_2 {A B} (f : A -> PyResult B) l x e :
  x ∈ l -> f x = Raise e -> exists e', py_map f l = Raise e'.
Proof.
  induction l as [|y l IH]; intros Hx Hf; [inversion Hx|]. simpl.
  apply elem_of_cons in Hx as [->|Hx]; [rewrite Hf; eauto|].
  destruct (f y); simpl; [|eauto]. destruct IH as [e' ->]; [done..|]. eauto.
Qed.

Lemma datetime_now_hour_range c : 0 <= dt_hour (fst (datetime_now c)) < 24.
Proof. unfold datetime_now. destruct (clock_read c). apply datetime_of_us_hour_range. Qed.

#[export] Hint Resolve rng_ok_choice datetime_of_us_hour_range : parking.
