(* ===== verification/Sensor.v ===== *)
(** * [ParkingSensor] of [src/sensors/sensor_simulator.py]

    One parking place: its identity ([sensor_id], [zone], [topic]) and its
    state [is_occupied]. [detect_change] draws [random.random()] and flips
    the state when the draw is below the double [0.1]; [get_status] builds
    the status dict from a clock reading and a [random.uniform] draw. *)

From Stdlib Require Import Lqa.
From S2P Require Import Prelude Float64 PyModel.

Open Scope Z_scope.
Open Scope parking_scope.

Module Sensor.

Record ParkingSensor := mkParkingSensor {
  sensor_id : Z;
  zone : string;
  is_occupied : bool;
  topic : string
}.

(** [ParkingSensor.__init__]: free, with topic [parking/{zone}/place_{id}]. *)
Definition ParkingSensor_init (sensor_id : Z) (zone : string) : ParkingSensor :=
  mkParkingSensor sensor_id zone false
    (String.concat "" ["parking/"; zone; "/place_"; pretty sensor_id]).

(** Assignment to [self.is_occupied]. *)
Definition set_occupied (s : ParkingSensor) (b : bool) : ParkingSensor :=
  mkParkingSensor (sensor_id s) (zone s) b (topic s).

(** The literal [0.1] is the double [3602879701896397 / 2^55] and
    [random.random()] is [k / 2^53], so [random.random() < 0.1] holds
    exactly when [4 k < 3602879701896397]. *)
Definition tenth_num : Z := 3602879701896397.

Definition random_lt_tenth (k : Z) : bool := 4 * k <? tenth_num.

(** [detect_change]: returns whether the place flipped. *)
Definition detect_change (s : ParkingSensor) (g : Rng) : bool * ParkingSensor * Rng :=
  let '(k, g') := random_random g in
  if random_lt_tenth k
  then (true, set_occupied s (negb (is_occupied s)), g')
  else (false, s, g').

Definition status_str (occupied : bool) : string :=
  if occupied then "occupied" else "free".

(** [random.uniform(0.85, 1.0)]: the literal [0.85] is the float nearest
    to [85/100]. *)
Definition confidence_draw (g : Rng) : Q * Rng := random_uniform (Float64.dbl (85 # 100)) 1 g.

(** [get_status]: the dict literal evaluates [datetime.now()] before
    [random.uniform]. *)
Definition get_status (s : ParkingSensor) (c : Clock) (g : Rng) : PyVal * Clock * Rng :=
  let '(now, c') := datetime_now c in
  let '(conf, g') := confidence_draw g in
  (VDict [("sensor_id", VInt (sensor_id s));
          ("zone", VStr (zone s));
          ("status", VStr (status_str (is_occupied s)));
          ("timestamp", VStr (isoformat now));
          ("confidence", VFloat (py_round2 conf))], c', g').

(** ** Lemmas *)

Lemma detect_change_unfold s g :
  detect_change s g =
  let k := fst (random_random g) in
  (random_lt_tenth k, set_occupied s (xorb (random_lt_tenth k) (is_occupied s)),
   snd (random_random g)).
Proof.
  unfold detect_change. simpl.
  destruct (random_lt_tenth _); [done|]. by destruct s.
Qed.

Lemma confidence_draw_bounds g :
  0 <= fst (random_random g) < two_p53 ->
  85 <= round2_hundredths (fst (confidence_draw g)) <= 100.
Proof.
  unfold confidence_draw, random_uniform. destruct (random_random g) as [k g']. simpl fst. intros Hk.
  assert (Ea : Float64.dbl (85 # 100) = 7656119366529843 # 9007199254740992) by (vm_compute; reflexivity).
  assert (Eu : Float64.fsub 1 (7656119366529843 # 9007199254740992) = 5404319552844596 # 36028797018963968)
    by (vm_compute; reflexivity).
  rewrite Ea, Eu. unfold Float64.fadd, Float64.fmul.
  set (r := Qmake k 9007199254740992).
  assert (Hr : (0 <= r <= 1)%Q) by (unfold r, Qle; simpl; unfold two_p53 in Hk; lia).
  assert (Hur : (0 <= (5404319552844596 # 36028797018963968) * r)%Q) by (apply Qmult_le_0_compat; [discriminate | apply Hr]).
  pose proof (Float64.dbl_error _ Hur) as [_ Hy1]. pose proof (Float64.dbl_nonneg _ Hur) as Hy0.
  set (y := Float64.dbl ((5404319552844596 # 36028797018963968) * r)) in *.
  assert (Hay : (0 <= (7656119366529843 # 9007199254740992) + y)%Q) by lra.
  pose proof (Float64.dbl_error _ Hay) as [Hc0 Hc1].
  apply round2_hundredths_strict_bounds; [change (2 * 85 - 1) with 169 | change (2 * 100 + 1) with 201]; lra.
Qed.

(** ** Properties *)

(** C9. [detect_change] returns [True] exactly when the draw is below [0.1];
    the sensor's state is then negated, and otherwise left as it was; the
    identity ([sensor_id], [zone], [topic]) never changes; one draw of the
    generator is consumed. *)
Theorem detect_change_spec s g :
  let '(changed, s', g') := detect_change s g in
  changed = random_lt_tenth (fst (random_random g)) /\
  is_occupied s' = (if changed then negb (is_occupied s) else is_occupied s) /\
  sensor_id s' = sensor_id s /\ zone s' = zone s /\ topic s' = topic s /\
  g' = snd (random_random g).
Proof.
  rewrite detect_change_unfold. simpl.
  by destruct (random_lt_tenth _), (is_occupied s).
Qed.

(** The flip test [random.random() < 0.1] holds for exactly the draws
    [k < 900719925474100]: [900719925474100] of the [2^53] outcomes, a
    probability of [0.1] up to [6e-18]. *)
Theorem random_lt_tenth_iff k : random_lt_tenth k = true <-> k < 900719925474100.
Proof. unfold random_lt_tenth, tenth_num. rewrite Z.ltb_lt. lia. Qed.

(** C21. The [confidence] of a status is [round(uniform(0.85, 1.0), 2)],
    a number of hundredths between 85 and 100, whatever the draw. *)
Theorem get_status_confidence s c g :
  rng_ok g ->
  exists r, dict_lookup "confidence" (match fst (fst (get_status s c g)) with
                                      | VDict kvs => kvs | _ => [] end)
            = Some (VFloat (Qmake r 100)) /\ 85 <= r <= 100.
Proof.
  intros Hg. unfold get_status. destruct_pairs. simpl.
  eexists; split; [reflexivity|].
  pose proof (confidence_draw_bounds g (Hg _)) as Hb.
  match goal with H : confidence_draw g = _ |- _ => rewrite H in Hb end. exact Hb.
Qed.

(** ** Witnesses *)

Lemma get_status_confidence_witness :
  rng_ok (mkRng (fun _ => 1234567) 0 (fun _ => true) 0) /\
  exists r, dict_lookup "confidence"
              (match fst (fst (get_status (ParkingSensor_init 1 "Zone_A") (mkClock 0 0 (fun _ => 0%N) 0)
                                  (mkRng (fun _ => 1234567) 0 (fun _ => true) 0))) with
               | VDict kvs => kvs | _ => [] end) = Some (VFloat (Qmake r 100)) /\ 85 <= r <= 100.
Proof.
  split; [intros i; unfold two_p53; simpl; lia|].
  apply get_status_confidence. intros i. unfold two_p53. simpl. lia.
Defined.

End Sensor.
