(* ===== verification/Simulator.v ===== *)
(** * [ParkingSystem] of [src/sensors/sensor_simulator.py]

    The fleet [self.sensors], the MQTT client (its publish return codes and
    the messages it accepted, in order), and the process-wide clock and
    random generator. [create_parking_lot] builds the fleet from a zone
    configuration; [publish_status] and [publish_summary] are the two
    publishers; one iteration of the [while True] loop of [run_simulation]
    is [tick] (the sensors are updated in place, by index, as the Python
    loop mutates the sensor objects); the loop itself is [sim_loop], with
    fuel for the number of iterations. *)

From S2P Require Import Prelude Float64 PyModel Sensor.

Open Scope Z_scope.
Open Scope parking_scope.

Module Simulator.
Import Sensor.

(** A message the client accepted: topic, payload, QoS and retain flag. *)
Record Message := mkMessage {
  msg_topic : string;
  msg_payload : PyVal;
  msg_qos : Z;
  msg_retain : bool
}.

Record ParkingSystem := mkParkingSystem {
  sensors : list ParkingSensor;
  outbox : list Message;
  clock : Clock;
  rng : Rng;
  link : Link
}.

Definition set_sensors (sys : ParkingSystem) (l : list ParkingSensor) : ParkingSystem :=
  mkParkingSystem l (outbox sys) (clock sys) (rng sys) (link sys).
Definition set_clock (sys : ParkingSystem) (c : Clock) : ParkingSystem :=
  mkParkingSystem (sensors sys) (outbox sys) c (rng sys) (link sys).
Definition set_rng (sys : ParkingSystem) (g : Rng) : ParkingSystem :=
  mkParkingSystem (sensors sys) (outbox sys) (clock sys) g (link sys).

(** [range(a, b)] *)
Definition py_range (a b : Z) : list Z :=
  map (fun i => a + Z.of_nat i) (seq 0 (Z.to_nat (b - a))).

(** The inner loop of [create_parking_lot] for one zone: a sensor per id,
    its initial state from [random.choice([True, False])], appended. *)
Fixpoint create_zone (zone : string) (ids : list Z) (sys : ParkingSystem) : ParkingSystem :=
  match ids with
  | [] => sys
  | i :: rest =>
      let sensor := ParkingSensor_init i zone in
      let '(b, g') := random_choice_bool (rng sys) in
      create_zone zone rest
        (set_rng (set_sensors sys (sensors sys ++ [set_occupied sensor b])) g')
  end.

(** [create_parking_lot(zones_config)]: the dict is iterated in insertion
    order; a zone with [n] places gets the ids [1..n]. *)
Definition create_parking_lot (zones_config : list (string * Z)) (sys : ParkingSystem)
  : ParkingSystem :=
  fold_left (fun sys '(zone, num_places) => create_zone zone (py_range 1 (num_places + 1)) sys)
    zones_config sys.

(** [self.client.publish(topic, payload, qos, retain)]: the message is
    handed to the broker only when the return code is success. *)
Definition mqtt_publish (topic : string) (payload : PyVal) (qos : Z) (retain : bool)
    (sys : ParkingSystem) : bool * ParkingSystem :=
  let '(ok, l') := link_publish (link sys) in
  (ok, mkParkingSystem (sensors sys)
         (if ok then outbox sys ++ [mkMessage topic payload qos retain] else outbox sys)
         (clock sys) (rng sys) l').

(** [publish_status(sensor)] *)
Definition publish_status (s : ParkingSensor) (sys : ParkingSystem) : bool * ParkingSystem :=
  let '(payload, c', g') := get_status s (clock sys) (rng sys) in
  mqtt_publish (topic s) payload 1 true (set_rng (set_clock sys c') g').

Definition count_occupied (l : list ParkingSensor) : nat :=
  length (filter (fun s => is_occupied s = true) l).

(** The dict of [publish_summary]; the rate is [round((occupied / total) * 100, 2)]. *)
Definition summary_payload (total occupied : nat) (now : DateTime) : PyVal :=
  VDict [("total_places", VInt (Z.of_nat total));
         ("occupied", VInt (Z.of_nat occupied));
         ("free", VInt (Z.of_nat (total - occupied)));
         ("occupancy_rate", VFloat (py_round2 (Float64.fmul
            (Float64.fdiv (inject_Z (Z.of_nat occupied)) (inject_Z (Z.of_nat total))) 100)));
         ("timestamp", VStr (isoformat now))].

(** [publish_summary()]: the division raises [ZeroDivisionError] on an
    empty fleet, before the clock is read; the publish return code is
    ignored. *)
Definition publish_summary (sys : ParkingSystem) : PyResult ParkingSystem :=
  let total := length (sensors sys) in
  let occupied := count_occupied (sensors sys) in
  if (total =? 0)%nat then Raise ZeroDivisionError
  else
    let '(now, c') := datetime_now (clock sys) in
    Ok (snd (mqtt_publish "parking/summary" (summary_payload total occupied now) 1 true
               (set_clock sys c'))).

(** [display_initial_state()] calls [get_status] on every sensor: one
    clock reading and one random draw each, the dicts are only printed. *)
Definition display_initial_state (sys : ParkingSystem) : ParkingSystem :=
  fold_left (fun sys s =>
      let '(_, c', g') := get_status s (clock sys) (rng sys) in set_rng (set_clock sys c') g')
    (sensors sys) sys.

(** The body of [for sensor in self.sensors] for the sensor at index [i]:
    [detect_change] mutates the sensor; on a change the status is
    published, and a successful publish counts as a change and prints a
    line that reads [datetime.now()]. *)
Definition tick_step (st : nat * ParkingSystem) (i : nat) : nat * ParkingSystem :=
  let '(changes, sys) := st in
  match sensors sys !! i with
  | None => st
  | Some s =>
      let '(changed, s', g') := detect_change s (rng sys) in
      let sys1 := set_rng (set_sensors sys (<[i := s']> (sensors sys))) g' in
      if changed then
        let '(ok, sys2) := publish_status s' sys1 in
        if ok then (S changes, set_clock sys2 (snd (datetime_now (clock sys2))))
        else (changes, sys2)
      else (changes, sys1)
  end.

(** The loop over the fleet, in fleet order. *)
Definition tick_sensors (sys : ParkingSystem) : nat * ParkingSystem :=
  fold_left tick_step (seq 0 (length (sensors sys))) (0%nat, sys).

(** One iteration of [while True] before the sleep: the sensor loop, then
    [publish_summary()] when [changes > 0]. *)
Definition tick (sys : ParkingSystem) : PyResult (nat * ParkingSystem) :=
  let '(changes, sys1) := tick_sensors sys in
  if (0 <? changes)%nat then
    let? sys2 := publish_summary sys1 in Ok (changes, sys2)
  else Ok (changes, sys1).

(** [duration_seconds and ...]: [None] and [0] are false. *)
Definition duration_truthy (d : option Z) : option Z :=
  match d with Some d => if d =? 0 then None else Some d | None => None end.

Inductive LoopOutcome := LoopDone | LoopOutOfFuel | LoopRaised (e : PyExc).

(** After the sensor loop: [time.sleep(2)], then the duration test, which
    reads [time.time()] only for a true duration; [true] means [break]. *)
Definition after_sleep (duration : option Z) (start_time : Z) (sys : ParkingSystem)
  : bool * ParkingSystem :=
  let sys2 := set_clock sys (time_sleep 2 (clock sys)) in
  match duration_truthy duration with
  | None => (false, sys2)
  | Some d =>
      let '(now, c') := clock_read (clock sys2) in
      (d * 1000000 <=? now - start_time, set_clock sys2 c')
  end.

(** The [while True] loop without interruption, with fuel for the number
    of iterations. *)
Fixpoint sim_loop (fuel : nat) (duration : option Z) (start_time : Z) (sys : ParkingSystem)
  : LoopOutcome * ParkingSystem :=
  match fuel with
  | O => (LoopOutOfFuel, sys)
  | S fuel' =>
      match tick sys with
      | Raise e => (LoopRaised e, sys)
      | Ok (_, sys1) =>
          let '(stop, sys2) := after_sleep duration start_time sys1 in
          if stop then (LoopDone, sys2) else sim_loop fuel' duration start_time sys2
      end
  end.

(** The places of a configuration, [(zone, id)] in creation order: the
    reference that [create_parking_lot] is compared with. *)
Definition lot_places (zones_config : list (string * Z)) : list (string * Z) :=
  zones_config ≫= (fun '(zone, n) => map (fun i => (zone, i)) (py_range 1 (n + 1))).

(** The sensor loop as a traversal of the list: each sensor is replaced
    by its new value. It never reads [sensors sys]; [tick_sensors_list]
    shows that the in-place loop [tick_sensors] computes it. *)
Fixpoint tick_list (l : list ParkingSensor) (sys : ParkingSystem)
  : list ParkingSensor * nat * ParkingSystem :=
  match l with
  | [] => ([], 0%nat, sys)
  | s :: rest =>
      let '(changed, s', g') := detect_change s (rng sys) in
      let sys1 := set_rng sys g' in
      let '(c, sys2) :=
        if changed then
          let '(ok, sys2) := publish_status s' sys1 in
          if ok then (1%nat, set_clock sys2 (snd (datetime_now (clock sys2)))) else (0%nat, sys2)
        else (0%nat, sys1) in
      let '(l', c', sys3) := tick_list rest sys2 in
      (s' :: l', (c + c')%nat, sys3)
  end.

(** The status message of sensor [s] as [publish_status] sends it: the
    sensor's topic, QoS 1, retained, and the [get_status] dict. *)
Definition status_msg_of (s : ParkingSensor) (m : Message) : Prop :=
  msg_topic m = topic s /\ msg_qos m = 1 /\ msg_retain m = true /\
  exists ts conf, msg_payload m =
    VDict [("sensor_id", VInt (sensor_id s)); ("zone", VStr (zone s));
           ("status", VStr (status_str (is_occupied s))); ("timestamp", VStr ts);
           ("confidence", VFloat conf)].

(** Two values of the same sensor object: identity unchanged. *)
Definition same_place (s s' : ParkingSensor) : Prop :=
  sensor_id s' = sensor_id s /\ zone s' = zone s /\ topic s' = topic s.

(** The value of a sensor after one tick: unchanged, or the same place
    with the state negated. *)
Definition ticked (s s' : ParkingSensor) : Prop :=
  same_place s s' /\ (s' = s \/ is_occupied s' = negb (is_occupied s)).

(** ** Lemmas *)

(** The frame of the setters and of a publish. *)
Lemma mqtt_publish_frame topic payload qos retain sys :
  let sys' := snd (mqtt_publish topic payload qos retain sys) in
  sensors sys' = sensors sys /\ clock sys' = clock sys /\ rng sys' = rng sys.
Proof. unfold mqtt_publish. by destruct (link_publish _). Qed.

Lemma publish_status_sensors s sys : sensors (snd (publish_status s sys)) = sensors sys.
Proof.
  unfold publish_status. destruct (get_status _ _ _) as [[p c'] g'].
  by destruct (mqtt_publish_frame (topic s) p 1 true (set_rng (set_clock sys c') g')) as [-> _].
Qed.

Lemma create_zone_spec zone ids sys :
  let g := rng sys in
  sensors (create_zone zone ids sys) =
    sensors sys ++ imap (fun j i => set_occupied (ParkingSensor_init i zone)
                                      (rng_choice g (rng_n_choice g + j))) ids /\
  rng (create_zone zone ids sys) =
    mkRng (rng_random g) (rng_n_random g) (rng_choice g) (rng_n_choice g + length ids) /\
  outbox (create_zone zone ids sys) = outbox sys.
Proof.
  revert sys. induction ids as [|i ids IH]; intros sys; simpl.
  - rewrite app_nil_r, Nat.add_0_r. by destruct (rng sys).
  - match goal with |- context [create_zone zone ids ?s] => destruct (IH s) as (H1 & H2 & H3) end.
    rewrite H1, H2, H3. simpl. rewrite <-app_assoc. split_and!; [|f_equal; lia|done].
    do 2 f_equal. rewrite Nat.add_0_r. f_equal. apply imap_ext. intros j x _.
    unfold compose. by rewrite Nat.add_succ_r.
Qed.

Lemma publish_status_set_sensors s sys l :
  publish_status s (set_sensors sys l) =
  let '(ok, sys') := publish_status s sys in (ok, set_sensors sys' l).
Proof.
  unfold publish_status, mqtt_publish. simpl.
  destruct (get_status s (clock sys) (rng sys)) as [[p c'] g']. simpl. by destruct (link_publish (link sys)).
Qed.

Lemma tick_list_set_sensors l sys x :
  tick_list l (set_sensors sys x) =
  let '(l', c, sys') := tick_list l sys in (l', c, set_sensors sys' x).
Proof.
  revert sys. induction l as [|s l IH]; intros sys; [done|]. cbn [tick_list].
  change (rng (set_sensors sys x)) with (rng sys).
  destruct (detect_change s (rng sys)) as [[[|] s'] g'];
    change (set_rng (set_sensors sys x) g') with (set_sensors (set_rng sys g') x).
  - rewrite publish_status_set_sensors.
    destruct (publish_status s' (set_rng sys g')) as [[|] sys2].
    + change (set_clock (set_sensors sys2 x) (snd (datetime_now (clock (set_sensors sys2 x)))))
        with (set_sensors (set_clock sys2 (snd (datetime_now (clock sys2)))) x).
      rewrite IH. by destruct (tick_list l _) as [[l' c'] sys3].
    + rewrite IH. by destruct (tick_list l _) as [[l' c'] sys3].
  - rewrite IH. by destruct (tick_list l _) as [[l' c'] sys3].
Qed.

(** One in-place step at index [length pre] is one step of the traversal. *)
Lemma tick_fold pre post changes sys :
  sensors sys = pre ++ post ->
  fold_left tick_step (seq (length pre) (length post)) (changes, sys) =
  let '(l', c, sys') := tick_list post sys in ((changes + c)%nat, set_sensors sys' (pre ++ l')).
Proof.
  revert pre changes sys. induction post as [|s post IH]; intros pre changes sys Hs.
  - simpl. rewrite Nat.add_0_r, app_nil_r in *. rewrite <-Hs. by destruct sys.
  - assert (Hl : sensors sys !! length pre = Some s)
      by (rewrite Hs, lookup_app_r, Nat.sub_diag by lia; done).
    cbn [seq fold_left length tick_list]. unfold tick_step at 2. rewrite Hl.
    destruct (detect_change s (rng sys)) as [[changed s'] g'].
    assert (Hins : <[length pre := s']> (sensors sys) = (pre ++ [s']) ++ post)
      by (rewrite Hs, insert_app_r_alt, Nat.sub_diag by lia; by rewrite <-app_assoc).
    replace (S (length pre)) with (length (pre ++ [s'])) by (rewrite length_app; simpl; lia).
    change (set_rng (set_sensors sys ?l) g') with (set_sensors (set_rng sys g') l).
    destruct changed.
    + rewrite publish_status_set_sensors.
      destruct (publish_status s' (set_rng sys g')) as [[|] sys2].
      * change (clock (set_sensors sys2 ?l)) with (clock sys2).
        change (set_clock (set_sensors sys2 ?l) ?c) with (set_sensors (set_clock sys2 c) l).
        rewrite IH by exact Hins. rewrite tick_list_set_sensors.
        destruct (tick_list post _) as [[l' c'] sys3]. rewrite <-app_assoc. simpl. f_equal. lia.
      * rewrite IH by exact Hins. rewrite tick_list_set_sensors.
        destruct (tick_list post _) as [[l' c'] sys3]. by rewrite <-app_assoc.
    + rewrite IH by exact Hins. rewrite tick_list_set_sensors.
      destruct (tick_list post _) as [[l' c'] sys3]. by rewrite <-app_assoc.
Qed.

(** The in-place loop computes the traversal. *)
Lemma tick_sensors_list sys :
  tick_sensors sys =
  let '(l', c, sys') := tick_list (sensors sys) sys in (c, set_sensors sys' l').
Proof.
  exact (tick_fold [] (sensors sys) 0 sys eq_refl).
Qed.

Lemma publish_status_spec s sys :
  let '(ok, sys') := publish_status s sys in
  sensors sys' = sensors sys /\
  exists m, status_msg_of s m /\ outbox sys' = outbox sys ++ (if ok then [m] else []).
Proof.
  unfold publish_status, get_status.
  destruct (datetime_now (clock sys)) as [now c'].
  destruct (confidence_draw (rng sys)) as [conf g'].
  unfold mqtt_publish, link_publish. simpl.
  split; [done|]. eexists (mkMessage (topic s) _ 1 true). split.
  - unfold status_msg_of. simpl. split_and!; [done..|]. by do 2 eexists.
  - destruct (link_ok _ _); by rewrite ?app_nil_r.
Qed.

Lemma tick_list_spec l sys :
  let '(l', c, sys') := tick_list l sys in
  Forall2 ticked l l' /\ sensors sys' = sensors sys /\
  exists pub msgs,
    pub `sublist_of` zip l l' /\
    Forall (fun '(s, s') => is_occupied s' = negb (is_occupied s)) pub /\
    Forall2 (fun '(_, s') m => status_msg_of s' m) pub msgs /\
    length msgs = c /\ outbox sys' = outbox sys ++ msgs.
Proof.
  revert sys. induction l as [|s l IH]; intros sys; cbn [tick_list zip].
  - split_and!; [constructor|done|]. exists [], []. split_and!; try constructor; by rewrite ?app_nil_r.
  - rewrite detect_change_unfold. cbv zeta.
    generalize (snd (random_random (rng sys))) as g'.
    generalize (random_lt_tenth (fst (random_random (rng sys)))) as changed. intros changed g'.
    set (s' := set_occupied s (xorb changed (is_occupied s))).
    assert (Hocc : is_occupied s' = if changed then negb (is_occupied s) else is_occupied s)
      by (simpl; by destruct changed, (is_occupied s)).
    assert (Htk : ticked s s') by (split; [repeat split|]; destruct changed;
      [right; simpl; by destruct (is_occupied s) | left; unfold s', set_occupied; by destruct s]).
    clearbody s'. destruct changed.
    + pose proof (publish_status_spec s' (set_rng sys g')) as Hp.
      destruct (publish_status s' (set_rng sys g')) as [ok sys2].
      destruct Hp as (Hs2 & m & Hm & Ho2).
      destruct ok.
      * specialize (IH (set_clock sys2 (snd (datetime_now (clock sys2))))).
        destruct (tick_list l _) as [[l' c'] sys3].
        destruct IH as (HF & Hs3 & pub & msgs & Hsub & Hflip & Hmsgs & Hlen & Ho3).
        split_and!; [by constructor | by rewrite Hs3 |].
        exists ((s, s') :: pub), (m :: msgs). split_and!.
        -- by apply sublist_skip.
        -- by constructor.
        -- by constructor.
        -- simpl. lia.
        -- rewrite Ho3. simpl. rewrite Ho2. by rewrite <-app_assoc.
      * specialize (IH sys2).
        destruct (tick_list l _) as [[l' c'] sys3].
        destruct IH as (HF & Hs3 & pub & msgs & Hsub & Hflip & Hmsgs & Hlen & Ho3).
        split_and!; [by constructor | by rewrite Hs3 |].
        exists pub, msgs. split_and!; try done.
        -- by apply sublist_cons.
        -- rewrite Ho3, Ho2. by rewrite app_nil_r.
    + specialize (IH (set_rng sys g')).
      destruct (tick_list l _) as [[l' c'] sys3].
      destruct IH as (HF & Hs3 & pub & msgs & Hsub & Hflip & Hmsgs & Hlen & Ho3).
      split_and!; [by constructor | by rewrite Hs3 |].
      exists pub, msgs. split_and!; try done. by apply sublist_cons.
Qed.

Lemma count_occupied_le l : (count_occupied l <= length l)%nat.
Proof. unfold count_occupied. apply length_filter. Qed.

Lemma datetime_now_mono c : clk_us c <= clk_us (snd (datetime_now c)).
Proof. unfold datetime_now, clock_read. simpl. lia. Qed.

Lemma publish_status_clock s sys : clk_us (clock sys) <= clk_us (clock (snd (publish_status s sys))).
Proof.
  unfold publish_status, get_status.
  pose proof (datetime_now_mono (clock sys)) as H.
  destruct (datetime_now (clock sys)) as [now c']. destruct (confidence_draw (rng sys)).
  unfold mqtt_publish. by destruct (link_publish _).
Qed.

Lemma tick_list_clock l sys :
  let '(_, _, sys') := tick_list l sys in clk_us (clock sys) <= clk_us (clock sys').
Proof.
  revert sys. induction l as [|s l IH]; intros sys; cbn [tick_list]; [lia|].
  destruct (detect_change s (rng sys)) as [[[|] s'] g'].
  - pose proof (publish_status_clock s' (set_rng sys g')) as Hp.
    destruct (publish_status s' (set_rng sys g')) as [[|] sys2]; simpl in Hp.
    + pose proof (datetime_now_mono (clock sys2)).
      specialize (IH (set_clock sys2 (snd (datetime_now (clock sys2))))).
      destruct (tick_list l _) as [[l' c'] sys3]. simpl in *. lia.
    + specialize (IH sys2). destruct (tick_list l _) as [[l' c'] sys3]. lia.
  - specialize (IH (set_rng sys g')). destruct (tick_list l _) as [[l' c'] sys3]. done.
Qed.

Lemma publish_summary_clock sys sys' :
  publish_summary sys = Ok sys' -> clk_us (clock sys) <= clk_us (clock sys').
Proof.
  unfold publish_summary. destruct (_ =? _)%nat; [done|].
  pose proof (datetime_now_mono (clock sys)).
  destruct (datetime_now (clock sys)) as [now c']. unfold mqtt_publish.
  destruct (link_publish _). intros [= <-]. done.
Qed.

Lemma tick_clock sys changes sys' :
  tick sys = Ok (changes, sys') -> clk_us (clock sys) <= clk_us (clock sys').
Proof.
  unfold tick. rewrite tick_sensors_list.
  pose proof (tick_list_clock (sensors sys) sys) as H.
  destruct (tick_list _ _) as [[l' c] sys1]. simpl.
  destruct (0 <? c)%nat.
  - destruct (publish_summary _) as [sys2|] eqn:Hs; [|done]. intros [= _ <-].
    apply publish_summary_clock in Hs. simpl in *. lia.
  - intros [= _ <-]. done.
Qed.

Lemma publish_summary_raise sys e : publish_summary sys = Raise e -> sensors sys = [].
Proof.
  unfold publish_summary. destruct (Nat.eqb_spec (length (sensors sys)) 0) as [H|_].
  - intros _. by apply length_zero_iff_nil.
  - by destruct (datetime_now (clock sys)).
Qed.

Lemma publish_summary_ok_frame sys sys' :
  publish_summary sys = Ok sys' ->
  sensors sys' = sensors sys /\
  outbox sys' = outbox sys ++
    (if fst (link_publish (link sys))
     then [mkMessage "parking/summary"
             (summary_payload (length (sensors sys)) (count_occupied (sensors sys))
                (fst (datetime_now (clock sys)))) 1 true]
     else []).
Proof.
  unfold publish_summary. destruct (_ =? _)%nat; [done|].
  destruct (datetime_now (clock sys)) as [now c']. unfold mqtt_publish, link_publish. simpl.
  intros [= <-]. split; [done|]. simpl. destruct (link_ok _ _); by rewrite ?app_nil_r.
Qed.

(** A tick that counted a change left a non-empty fleet. *)
Lemma tick_list_changes_nonempty l sys :
  let '(l', c, _) := tick_list l sys in (0 < c)%nat -> l' <> [].
Proof.
  pose proof (tick_list_spec l sys) as Hl. destruct (tick_list l sys) as [[l' c] sys'].
  destruct Hl as (_ & _ & pub & msgs & Hsub & _ & Hmsgs & Hlen & _). intros Hc ->.
  destruct l; simpl in Hsub; inversion Hsub; subst; inversion Hmsgs; subst; simpl in Hc; lia.
Qed.

Lemma tick_ok sys : exists changes sys', tick sys = Ok (changes, sys').
Proof.
  unfold tick. rewrite tick_sensors_list.
  pose proof (tick_list_changes_nonempty (sensors sys) sys) as Hne.
  destruct (tick_list _ _) as [[l' c] sys1]. simpl.
  destruct (Nat.ltb_spec 0 c) as [Hc|Hc]; [|eauto].
  destruct (publish_summary _) as [sys2|e] eqn:Hps; [eauto|].
  apply publish_summary_raise in Hps. by destruct (Hne Hc).
Qed.

(** ** Properties *)

(** C17. [create_parking_lot] appends to the fleet one sensor per place of
    the configuration, zone by zone in the dict's order with ids [1..n],
    the [j]-th one free or occupied by the [j]-th [random.choice] outcome;
    nothing is published. *)
Theorem create_parking_lot_spec cfg sys :
  let g := rng sys in
  let sys' := create_parking_lot cfg sys in
  sensors sys' =
    sensors sys ++ imap (fun j '(zone, i) => set_occupied (ParkingSensor_init i zone)
                                               (rng_choice g (rng_n_choice g + j)))
                        (lot_places cfg) /\
  rng sys' = mkRng (rng_random g) (rng_n_random g) (rng_choice g)
                   (rng_n_choice g + length (lot_places cfg)) /\
  outbox sys' = outbox sys.
Proof.
  unfold create_parking_lot. revert sys. induction cfg as [|[zone n] cfg IH]; intros sys; simpl.
  - rewrite app_nil_r, Nat.add_0_r. by destruct (rng sys).
  - destruct (create_zone_spec zone (py_range 1 (n + 1)) sys) as (H1 & H2 & H3).
    destruct (IH (create_zone zone (py_range 1 (n + 1)) sys)) as (I1 & I2 & I3).
    rewrite I1, I2, I3, H1, H2, H3. simpl.
    rewrite imap_app, length_app, length_map, <-app_assoc, imap_fmap. split_and!; [|f_equal; lia|done].
    f_equal. apply (f_equal2 app); [reflexivity|]. apply imap_ext. intros j [z i] _. by rewrite Nat.add_assoc.
Qed.

(** C11. [publish_summary] raises [ZeroDivisionError] exactly on an empty
    fleet, before anything else happens; otherwise it reads the clock once
    and hands the broker one retained QoS-1 message on [parking/summary]
    (when the return code is success) whose counts are recomputed from the
    current fleet; the fleet and the generator are untouched. *)
Theorem publish_summary_spec sys :
  match publish_summary sys with
  | Raise e => e = ZeroDivisionError /\ sensors sys = []
  | Ok sys' =>
      sensors sys <> [] /\ sensors sys' = sensors sys /\ rng sys' = rng sys /\
      clock sys' = snd (datetime_now (clock sys)) /\
      outbox sys' = outbox sys ++
        (if fst (link_publish (link sys))
         then [mkMessage "parking/summary"
                 (summary_payload (length (sensors sys)) (count_occupied (sensors sys))
                    (fst (datetime_now (clock sys)))) 1 true]
         else [])
  end.
Proof.
  unfold publish_summary. destruct (Nat.eqb_spec (length (sensors sys)) 0) as [H|H].
  - split; [done|]. by apply length_zero_iff_nil.
  - destruct (datetime_now (clock sys)) as [now c']. unfold mqtt_publish, link_publish. simpl.
    split_and!; try done.
    + intros Hs. apply H. by rewrite Hs.
    + destruct (link_ok _ _); by rewrite ?app_nil_r.
Qed.

(** The rate is computed in binary64, not exactly: with 23 of 160
    places occupied the exact rate 14.375 would round half to even to
    14.38, but [23 / 160] is a float below 0.14375 and the summary says
    14.37, as CPython does. *)
Theorem summary_rate_float_rounding now :
  py_getitem (summary_payload 160 23 now) "occupancy_rate" = Ok (VFloat (1437 # 100)) /\
  round_half_even (23 * 10000) 160 = 1438.
Proof. split; vm_compute; reflexivity. Qed.

(** C20. The [occupancy_rate] of a summary, [round((occupied / total) *
    100, 2)] computed in binary64, is a number of hundredths in
    [0 .. 10000]; a full lot gives exactly [100.00], an empty one [0.00]. *)
Theorem summary_rate_bounds (total occupied : nat) now :
  (0 < total)%nat -> (occupied <= total)%nat ->
  exists r, py_getitem (summary_payload total occupied now) "occupancy_rate" = Ok (VFloat (Qmake r 100)) /\
  0 <= r <= 10000 /\ (occupied = total -> r = 10000) /\ (occupied = 0%nat -> r = 0).
Proof.
  intros Ht Ho. eexists; split; [reflexivity|].
  set (x := Float64.fdiv (inject_Z (Z.of_nat occupied)) (inject_Z (Z.of_nat total))).
  assert (Hx : (0 <= x <= 1)%Q) by (apply Float64.fdiv_int_unit; lia).
  split; [|split].
  - assert (H0 : (0 <= x * 100)%Q) by (apply Qmult_le_0_compat; [apply Hx | discriminate]).
    assert (H1 : (x * 100 <= inject_Z 100)%Q)
      by (destruct Hx as [_ Hx]; unfold Qle in *; simpl in *; rewrite Pos.mul_1_r; nia).
    pose proof (Float64.dbl_nonneg _ H0). pose proof (Float64.dbl_le_int _ 100 H0 H1 ltac:(lia)).
    apply round2_hundredths_bounds; unfold Float64.fmul;
      [eapply Qle_trans; [|eassumption] | eapply Qle_trans; [eassumption|]]; unfold Qle; simpl; lia.
  - intros ->. unfold x. rewrite Float64.fdiv_int_diag by lia. vm_compute. reflexivity.
  - intros ->. unfold x. rewrite Float64.fdiv_int_zero. vm_compute. reflexivity.
Qed.

(** C8. One iteration of the loop never raises. Every sensor keeps its
    place and is either unchanged or negated; the status messages handed
    to the broker are, in fleet order, the new statuses of distinct flipped
    sensors, one per counted change; a summary follows exactly when the
    count of successful status publishes is positive, and its counts are
    those of the fleet after the tick. *)
Theorem tick_spec sys :
  exists changes sys', tick sys = Ok (changes, sys') /\
  Forall2 ticked (sensors sys) (sensors sys') /\
  exists pub msgs,
    pub `sublist_of` zip (sensors sys) (sensors sys') /\
    Forall (fun '(s, s') => is_occupied s' = negb (is_occupied s)) pub /\
    Forall2 (fun '(_, s') m => status_msg_of s' m) pub msgs /\
    length msgs = changes /\
    (changes = 0%nat -> outbox sys' = outbox sys ++ msgs) /\
    ((0 < changes)%nat -> exists (ok : bool) now,
       outbox sys' = outbox sys ++ msgs ++
         (if ok then [mkMessage "parking/summary"
                        (summary_payload (length (sensors sys')) (count_occupied (sensors sys')) now)
                        1 true] else [])).
Proof.
  unfold tick. rewrite tick_sensors_list.
  pose proof (tick_list_spec (sensors sys) sys) as Hl.
  pose proof (tick_list_changes_nonempty (sensors sys) sys) as Hne.
  destruct (tick_list _ _) as [[l' c] sys1]. simpl.
  destruct Hl as (HF & _ & pub & msgs & Hsub & Hflip & Hmsgs & Hlen & Ho).
  destruct (Nat.ltb_spec 0 c) as [Hc|Hc].
  - destruct (publish_summary _) as [sys2|e] eqn:Hps.
    + apply publish_summary_ok_frame in Hps as [Hs2 Ho2].
      exists c, sys2. split; [done|]. rewrite Hs2. split; [done|].
      exists pub, msgs. split_and!; try done; [lia|].
      intros _. exists (fst (link_publish (link sys1))), (fst (datetime_now (clock sys1))).
      rewrite Ho2. simpl. rewrite Ho. by rewrite <-app_assoc.
    + apply publish_summary_raise in Hps. by destruct (Hne Hc).
  - exists c, (set_sensors sys1 l'). split; [done|]. split; [done|].
    exists pub, msgs. split_and!; try done; lia.
Qed.

(** C18. The loop with a true duration [d > 0] ends: started at a time no
    later than the clock, after at most [d / 2] rounded up iterations
    ([time.sleep(2)] each) the test [time.time() - start_time >= d]
    holds. *)
Theorem sim_loop_terminates fuel d start_time sys :
  0 < d -> start_time <= clk_us (clock sys) -> d <= 2 * Z.of_nat fuel ->
  fst (sim_loop fuel (Some d) start_time sys) = LoopDone.
Proof.
  intros Hd Hs Hf.
  assert (Inv : (1 <= fuel)%nat /\ d * 1000000 <= clk_us (clock sys) - start_time + 2000000 * Z.of_nat fuel)
    by lia.
  clear Hs Hf. revert sys Inv. induction fuel as [|fuel IH]; intros sys [H1 H2]; [lia|].
  simpl. destruct (tick_ok sys) as (changes & sys1 & Ht). rewrite Ht.
  pose proof (tick_clock _ _ _ Ht) as Hc.
  unfold after_sleep, duration_truthy. destruct (Z.eqb_spec d 0); [lia|].
  unfold clock_read. simpl.
  case_tests; [done|]. apply IH. simpl. lia.
Qed.

(** C32. With a false duration ([None], as the [__main__] block calls
    [run_simulation()], or [0]) the duration test never breaks: whatever
    the fuel, the uninterrupted loop never ends by [LoopDone] and only
    stops when the fuel runs out; such a run ends only by an interrupt. *)
Theorem sim_loop_falsy_duration fuel d start_time sys :
  duration_truthy d = None -> fst (sim_loop fuel d start_time sys) = LoopOutOfFuel.
Proof.
  intros Hd. revert sys. induction fuel as [|fuel IH]; intros sys; [done|].
  simpl. destruct (tick_ok sys) as (changes & sys1 & Ht). rewrite Ht.
  unfold after_sleep. rewrite Hd. apply IH.
Qed.

(** ** Witnesses *)

Lemma summary_rate_bounds_witness :
  (0 < 160)%nat /\ (23 <= 160)%nat /\
  exists r, py_getitem (summary_payload 160 23 (datetime_of_us 0)) "occupancy_rate" = Ok (VFloat (Qmake r 100)) /\
  0 <= r <= 10000 /\ (23%nat = 160%nat -> r = 10000) /\ (23%nat = 0%nat -> r = 0).
Proof. split_and!; [lia | lia | apply summary_rate_bounds; lia]. Defined.

Lemma sim_loop_terminates_witness :
  0 < 10 /\ 0 <= clk_us (mkClock 0 0 (fun _ => 0%N) 0) /\ 10 <= 2 * Z.of_nat 5 /\
  fst (sim_loop 5 (Some 10) 0
         (mkParkingSystem [ParkingSensor_init 1 "Zone_A"] [] (mkClock 0 0 (fun _ => 0%N) 0)
            (mkRng (fun _ => 0) 0 (fun _ => true) 0) (mkLink (fun _ => true) 0))) = LoopDone.
Proof. split_and!; [lia | simpl; lia | simpl; lia | apply sim_loop_terminates; simpl; lia]. Defined.

Lemma sim_loop_falsy_duration_witness :
  duration_truthy (Some 0) = None /\
  fst (sim_loop 5 (Some 0) 0
         (mkParkingSystem [ParkingSensor_init 1 "Zone_A"] [] (mkClock 0 0 (fun _ => 0%N) 0)
            (mkRng (fun _ => 0) 0 (fun _ => true) 0) (mkLink (fun _ => true) 0))) = LoopOutOfFuel.
Proof. split; [reflexivity | apply sim_loop_falsy_duration; reflexivity]. Defined.

End Simulator.
