(* ===== verification/Database.v ===== *)
(** * [ParkingDatabase] of [src/backend/backend_server.py]

    The two tables created by [init_database], as lists of rows in rowid
    order with the AUTOINCREMENT counter of each table. [insert_event] and
    [insert_hourly_stat] bind their Python arguments as SQLite parameters
    (a dict or a list cannot be bound, an [int] beyond 64 bits overflows)
    and enforce the NOT NULL constraints of the schema, column by column;
    a failed statement leaves the table as it was. [get_recent_events] is
    [ORDER BY id DESC LIMIT ?], where a negative limit means no limit. *)

From S2P Require Import Prelude PyModel.

Open Scope Z_scope.
Open Scope parking_scope.

Module Database.

(** A stored SQLite value. *)
Inductive SqlValue :=
  | SNull
  | SInt (z : Z)
  | SReal (q : Q)
  | SText (s : string).

(** A row of [parking_events (id, timestamp, zone, place_id, status,
    confidence)]. *)
Record EventRow := mkEventRow {
  ev_id : Z;
  ev_timestamp : SqlValue;
  ev_zone : SqlValue;
  ev_place_id : SqlValue;
  ev_status : SqlValue;
  ev_confidence : SqlValue
}.

(** A row of [hourly_stats (id, timestamp, hour, total_places, occupied,
    free, occupancy_rate)]. *)
Record HourlyRow := mkHourlyRow {
  hs_id : Z;
  hs_timestamp : SqlValue;
  hs_hour : SqlValue;
  hs_total_places : SqlValue;
  hs_occupied : SqlValue;
  hs_free : SqlValue;
  hs_occupancy_rate : SqlValue
}.

(** The database file: both tables and their [sqlite_sequence] entries. *)
Record ParkingDatabase := mkParkingDatabase {
  parking_events : list EventRow;
  events_seq : Z;
  hourly_stats : list HourlyRow;
  hourly_seq : Z
}.

(** [init_database] on a new file: both tables empty. *)
Definition init_database : ParkingDatabase := mkParkingDatabase [] 0 [] 0.

Definition int64_min : Z := -9223372036854775808.
Definition int64_max : Z := 9223372036854775807.

(** Binding one Python value as a statement parameter. *)
Definition bind_param (v : PyVal) : PyResult SqlValue :=
  match v with
  | VNone => Ok SNull
  | VBool b => Ok (SInt (if b then 1 else 0))
  | VInt z => if (int64_min <=? z) && (z <=? int64_max) then Ok (SInt z) else Raise OverflowError
  | VFloat q => Ok (SReal q)
  | VStr s => Ok (SText s)
  | VList _ | VDict _ => Raise ProgrammingError
  end.

(** [NOT NULL] on a column. *)
Definition not_null (column : string) (v : SqlValue) : PyResult unit :=
  match v with SNull => Raise (IntegrityError column) | _ => Ok tt end.

(** [insert_event(zone, place_id, status, confidence, timestamp)]: the
    parameters are bound in the order of the statement, then the NOT NULL
    columns are checked in the order of the table. *)
Definition insert_event (db : ParkingDatabase) (zone place_id status confidence timestamp : PyVal)
  : PyResult ParkingDatabase :=
  let? ts := bind_param timestamp in
  let? z := bind_param zone in
  let? p := bind_param place_id in
  let? st := bind_param status in
  let? cf := bind_param confidence in
  let? _ := not_null "parking_events.timestamp" ts in
  let? _ := not_null "parking_events.zone" z in
  let? _ := not_null "parking_events.place_id" p in
  let? _ := not_null "parking_events.status" st in
  let id := events_seq db + 1 in
  Ok (mkParkingDatabase (parking_events db ++ [mkEventRow id ts z p st cf]) id
        (hourly_stats db) (hourly_seq db)).

(** [insert_hourly_stat(data)] given the two clock readings [hour] and
    [timestamp] it makes: [data['total_places']], [data['occupied']],
    [data['free']] and [data['occupancy_rate']] are read in that order. *)
Definition insert_hourly_stat (db : ParkingDatabase) (hour : Z) (timestamp : string) (data : PyVal)
  : PyResult ParkingDatabase :=
  let? total := py_getitem data "total_places" in
  let? occupied := py_getitem data "occupied" in
  let? free := py_getitem data "free" in
  let? rate := py_getitem data "occupancy_rate" in
  let? t := bind_param total in
  let? o := bind_param occupied in
  let? f := bind_param free in
  let? r := bind_param rate in
  let id := hourly_seq db + 1 in
  Ok (mkParkingDatabase (parking_events db) (events_seq db)
        (hourly_stats db ++ [mkHourlyRow id (SText timestamp) (SInt hour) t o f r]) id).

(** A row of [get_recent_events]: [(timestamp, zone, place_id, status)]. *)
Definition event_view (r : EventRow) : SqlValue * SqlValue * SqlValue * SqlValue :=
  (ev_timestamp r, ev_zone r, ev_place_id r, ev_status r).

(** The rows of [SELECT ... ORDER BY id DESC LIMIT ?] for a bound integer
    limit: a negative limit is no limit. *)
Definition select_recent (db : ParkingDatabase) (limit : Z)
  : list (SqlValue * SqlValue * SqlValue * SqlValue) :=
  let rows := reverse (parking_events db) in
  map event_view (if limit <? 0 then rows else take (Z.to_nat limit) rows).

(** [get_recent_events(limit)]: the limit is bound as a statement parameter
    first, which raises [OverflowError] beyond 64 bits. *)
Definition get_recent_events (db : ParkingDatabase) (limit : Z)
  : PyResult (list (SqlValue * SqlValue * SqlValue * SqlValue)) :=
  let? _ := bind_param (VInt limit) in Ok (select_recent db limit).

(** The well-formedness of the tables: ids [1..n] in rowid order, the
    counter at [n]. *)
Definition ids_from_one {R} (id : R -> Z) (rows : list R) (counter : Z) : Prop :=
  map id rows = map (fun i => Z.of_nat i + 1) (seq 0 (length rows)) /\
  counter = Z.of_nat (length rows).

Definition db_wf (db : ParkingDatabase) : Prop :=
  ids_from_one ev_id (parking_events db) (events_seq db) /\
  ids_from_one hs_id (hourly_stats db) (hourly_seq db).

(** ** Lemmas *)

Lemma ids_from_one_snoc {R} (id : R -> Z) rows counter r :
  ids_from_one id rows counter -> id r = counter + 1 ->
  ids_from_one id (rows ++ [r]) (counter + 1).
Proof.
  intros [Hm Hc] Hr. split.
  - rewrite length_app, seq_app, !map_app, Hm. simpl. rewrite Hr, Hc. f_equal.
  - rewrite length_app. simpl. lia.
Qed.

Lemma not_null_ok column v : not_null column v = Ok tt <-> v <> SNull.
Proof. destruct v; simpl; split; congruence. Qed.

Lemma select_recent_snoc db r limit :
  0 <= limit ->
  select_recent (mkParkingDatabase (parking_events db ++ [r]) (events_seq db + 1)
                       (hourly_stats db) (hourly_seq db)) (limit + 1) =
  event_view r :: select_recent db limit.
Proof.
  intros Hl. unfold select_recent. simpl.
  case_tests; try lia. rewrite Z2Nat.inj_add, Nat.add_1_r by lia.
  by rewrite take_reverse_app.
Qed.

#[export] Hint Resolve ids_from_one_snoc : parking.

(** What a successful [insert_event] did: all five parameters bound, the
    four NOT NULL ones present, one row appended. *)
Lemma insert_event_inv db zone place_id status confidence timestamp db' :
  insert_event db zone place_id status confidence timestamp = Ok db' ->
  exists ts z p st cf,
    bind_param timestamp = Ok ts /\ bind_param zone = Ok z /\ bind_param place_id = Ok p /\
    bind_param status = Ok st /\ bind_param confidence = Ok cf /\
    ts <> SNull /\ z <> SNull /\ p <> SNull /\ st <> SNull /\
    db' = mkParkingDatabase (parking_events db ++ [mkEventRow (events_seq db + 1) ts z p st cf])
            (events_seq db + 1) (hourly_stats db) (hourly_seq db).
Proof.
  unfold insert_event, py_bind.
  destruct (bind_param timestamp) as [ts|]; [|done]. destruct (bind_param zone) as [z|]; [|done].
  destruct (bind_param place_id) as [p|]; [|done]. destruct (bind_param status) as [st|]; [|done].
  destruct (bind_param confidence) as [cf|]; [|done].
  destruct ts, z, p, st; simpl; intros [= <-]; do 5 eexists; split_and!; done.
Qed.

Lemma insert_event_wf db zone place_id status confidence timestamp db' :
  db_wf db -> insert_event db zone place_id status confidence timestamp = Ok db' -> db_wf db'.
Proof.
  intros [He Hh] (ts & z & p & st & cf & _ & _ & _ & _ & _ & _ & _ & _ & _ & ->)%insert_event_inv.
  split; simpl; [by apply ids_from_one_snoc | done].
Qed.

Lemma insert_hourly_stat_wf db hour timestamp data db' :
  db_wf db -> insert_hourly_stat db hour timestamp data = Ok db' -> db_wf db'.
Proof.
  intros [He Hh]. unfold insert_hourly_stat, py_bind.
  repeat match goal with |- context [match ?e with Ok _ => _ | Raise _ => _ end] => destruct e end;
    try done.
  intros [= <-]. split; simpl; [done | by apply ids_from_one_snoc].
Qed.

(** ** Properties *)

(** C15. [insert_event] succeeds exactly when the five parameters bind and
    [timestamp], [zone], [place_id] and [status] are not NULL; it then
    appends one row with id [sqlite_sequence + 1] holding the bound values
    and leaves [hourly_stats] as it was. *)
Theorem insert_event_ok db zone place_id status confidence timestamp db' :
  insert_event db zone place_id status confidence timestamp = Ok db' <->
  exists ts z p st cf,
    bind_param timestamp = Ok ts /\ bind_param zone = Ok z /\ bind_param place_id = Ok p /\
    bind_param status = Ok st /\ bind_param confidence = Ok cf /\
    ts <> SNull /\ z <> SNull /\ p <> SNull /\ st <> SNull /\
    db' = mkParkingDatabase (parking_events db ++ [mkEventRow (events_seq db + 1) ts z p st cf])
            (events_seq db + 1) (hourly_stats db) (hourly_seq db).
Proof.
  split; [apply insert_event_inv|].
  intros (ts & z & p & st & cf & Hb1 & Hb2 & Hb3 & Hb4 & Hb5 & Hts & Hz & Hp & Hst & ->).
  unfold insert_event, py_bind. rewrite Hb1, Hb2, Hb3, Hb4, Hb5. simpl.
  destruct ts, z, p, st; done.
Qed.

(** C22. The store stays well formed: after any successful insert into
    either table the ids are still [1..n] in rowid order. *)
Theorem inserts_preserve_wf db :
  db_wf db ->
  (forall zone place_id status confidence timestamp db',
     insert_event db zone place_id status confidence timestamp = Ok db' -> db_wf db') /\
  (forall hour timestamp data db',
     insert_hourly_stat db hour timestamp data = Ok db' -> db_wf db').
Proof.
  intros Hwf. split; intros *; [apply insert_event_wf | apply insert_hourly_stat_wf]; done.
Qed.

(** C16. After a successful [insert_event], the rows the [SELECT] of
    [get_recent_events] returns are the new event first, then the previous
    answer: with a limit one larger, the newest rows in decreasing id
    order. *)
Theorem get_recent_events_insert db zone place_id status confidence timestamp db' limit :
  insert_event db zone place_id status confidence timestamp = Ok db' -> 0 <= limit ->
  exists ts z p st,
    bind_param timestamp = Ok ts /\ bind_param zone = Ok z /\ bind_param place_id = Ok p /\
    bind_param status = Ok st /\
    select_recent db' (limit + 1) = (ts, z, p, st) :: select_recent db limit.
Proof.
  intros (ts & z & p & st & cf & Hts & Hz & Hp & Hst & _ & _ & _ & _ & _ & ->)%insert_event_inv Hl.
  exists ts, z, p, st. split_and!; try done. by apply select_recent_snoc.
Qed.

(** [get_recent_events(limit)] raises [OverflowError] exactly when the
    limit does not fit in 64 bits; otherwise it returns [min(limit, n)]
    rows for a non-negative limit and all [n] rows for a negative one. *)
Lemma get_recent_events_spec db limit :
  match get_recent_events db limit with
  | Ok rows =>
      int64_min <= limit <= int64_max /\
      length rows = if limit <? 0 then length (parking_events db)
                    else Nat.min (Z.to_nat limit) (length (parking_events db))
  | Raise e => e = OverflowError /\ ~ (int64_min <= limit <= int64_max)
  end.
Proof.
  unfold get_recent_events, bind_param, py_bind.
  destruct (Z.leb_spec int64_min limit), (Z.leb_spec limit int64_max); simpl; try (split; [done | lia]).
  split; [lia|]. unfold select_recent. rewrite length_map.
  destruct (limit <? 0); [by rewrite length_reverse|]. by rewrite length_take, length_reverse.
Qed.

(** ** Witnesses *)

Lemma inserts_preserve_wf_witness :
  db_wf init_database /\
  (forall zone place_id status confidence timestamp db',
     insert_event init_database zone place_id status confidence timestamp = Ok db' -> db_wf db') /\
  (forall hour timestamp data db',
     insert_hourly_stat init_database hour timestamp data = Ok db' -> db_wf db').
Proof.
  assert (H : db_wf init_database) by (split; split; reflexivity).
  split; [exact H | apply inserts_preserve_wf; exact H].
Defined.

Lemma get_recent_events_insert_witness :
  insert_event init_database (VStr "Zone_A") (VInt 1) (VStr "occupied") VNone (VStr "T") =
    Ok (mkParkingDatabase [mkEventRow 1 (SText "T") (SText "Zone_A") (SInt 1) (SText "occupied") SNull]
          1 [] 0) /\ 0 <= 0 /\
  exists ts z p st,
    bind_param (VStr "T") = Ok ts /\ bind_param (VStr "Zone_A") = Ok z /\ bind_param (VInt 1) = Ok p /\
    bind_param (VStr "occupied") = Ok st /\
    select_recent (mkParkingDatabase [mkEventRow 1 (SText "T") (SText "Zone_A") (SInt 1)
                                            (SText "occupied") SNull] 1 [] 0) (0 + 1)
    = (ts, z, p, st) :: select_recent init_database 0.
Proof.
  split_and!; [reflexivity | lia |].
  apply (get_recent_events_insert init_database (VStr "Zone_A") (VInt 1) (VStr "occupied") VNone (VStr "T"));
    [reflexivity | lia].
Defined.

End Database.
