(* ===== verification/Backend.v ===== *)
(** * [MQTTBackend] of [src/backend/backend_server.py]

    The backend's state: the database, the watermark [last_hourly_save],
    its own clock, and whether the client's network loop still runs.
    [on_message] is the callback: the payload is decoded outside the
    [try], parsed inside it; a message on [parking/summary] is stored as a
    snapshot only when the hour of [datetime.now()] differs from the
    watermark; any other topic is an event for [insert_event]. An
    exception inside the [try] is logged; one outside escapes the callback
    and, as the paho client re-raises it, ends the network loop that
    [loop_start] began ([deliver]). *)

From S2P Require Import Prelude PyModel Database.

Open Scope Z_scope.
Open Scope parking_scope.

Module Backend.
Import Database.

Record MQTTBackend := mkMQTTBackend {
  database : ParkingDatabase;
  last_hourly_save : Z;
  clock : Clock;
  loop_running : bool
}.

Definition set_clock (b : MQTTBackend) (c : Clock) : MQTTBackend :=
  mkMQTTBackend (database b) (last_hourly_save b) c (loop_running b).

(** [MQTTBackend.__init__]: the watermark is the hour at start-up; the
    loop runs once [connect] has called [loop_start]. *)
Definition MQTTBackend_init (db : ParkingDatabase) (c : Clock) : MQTTBackend :=
  let '(now, c') := datetime_now c in mkMQTTBackend db (dt_hour now) c' true.

(** How a callback ended: normally, with an exception caught and logged by
    the [except] clause, or with an exception that escapes it. *)
Inductive Outcome := Handled | Logged (e : PyExc) | Escaped (e : PyExc).

Definition summary_topic : string := "parking/summary".

(** The [else] branch: an individual event. *)
Definition store_event (db : ParkingDatabase) (data : PyVal) : PyResult ParkingDatabase :=
  let? zone := py_get data "zone" in
  let? place_id := py_get data "sensor_id" in
  let? status := py_get data "status" in
  let? confidence := py_get data "confidence" in
  let? timestamp := py_get data "timestamp" in
  insert_event db zone place_id status confidence timestamp.

(** [on_message(client, userdata, msg)]. [insert_hourly_stat] reads the
    clock twice more, for its [hour] and its [timestamp]. *)
Definition on_message (b : MQTTBackend) (topic : string) (payload : Payload)
  : Outcome * MQTTBackend :=
  match bytes_decode payload with
  | Raise e => (Escaped e, b)
  | Ok text =>
      match json_loads text with
      | Raise e => (Logged e, b)
      | Ok data =>
          if String.eqb topic summary_topic then
            let '(now, c1) := datetime_now (clock b) in
            let current_hour := dt_hour now in
            if current_hour =? last_hourly_save b then (Handled, set_clock b c1)
            else
              let '(now2, c2) := datetime_now c1 in
              let '(now3, c3) := datetime_now c2 in
              match insert_hourly_stat (database b) (dt_hour now2) (isoformat now3) data with
              | Raise e => (Logged e, set_clock b c3)
              | Ok db' => (Handled, mkMQTTBackend db' current_hour c3 (loop_running b))
              end
          else
            match store_event (database b) data with
            | Raise e => (Logged e, b)
            | Ok db' => (Handled, mkMQTTBackend db' (last_hourly_save b) (clock b) (loop_running b))
            end
      end
  end.

(** The client's network loop delivering one message: nothing once the
    loop has ended; an escaping exception ends it. *)
Definition deliver (b : MQTTBackend) (m : string * Payload) : MQTTBackend :=
  if loop_running b then
    let '(o, b') := on_message b (fst m) (snd m) in
    match o with
    | Escaped _ => mkMQTTBackend (database b') (last_hourly_save b') (clock b') false
    | _ => b'
    end
  else b.

(** Messages delivered in arrival order. *)
Definition deliver_all (b : MQTTBackend) (msgs : list (string * Payload)) : MQTTBackend :=
  fold_left deliver msgs b.

(** The watermark after each delivery, for counting its changes. *)
Fixpoint watermarks (b : MQTTBackend) (msgs : list (string * Payload)) : list Z :=
  match msgs with
  | [] => []
  | m :: rest => let b' := deliver b m in last_hourly_save b' :: watermarks b' rest
  end.

(** The number of changes along a sequence that starts at [w]. *)
Fixpoint changes_from (w : Z) (l : list Z) : nat :=
  match l with
  | [] => 0
  | x :: rest => (if x =? w then 0 else 1) + changes_from x rest
  end.

(** A run across an hour boundary: the watermark is 9; the first summary
    arrives at 10:59:59.999999 and [insert_hourly_stat]'s own reading is
    one microsecond later, at 11:00:00; the second arrives at 11:30. *)
Definition boundary_summary : PyVal :=
  VDict [("total_places", VInt 24); ("occupied", VInt 12); ("free", VInt 12);
         ("occupancy_rate", VFloat (Qmake 5000 100)); ("timestamp", VStr "")].

Definition boundary_lag (n : nat) : N :=
  match n with 1%nat => 1%N | 3%nat => 1800000000%N | _ => 0%N end.

Definition boundary_backend : MQTTBackend :=
  mkMQTTBackend init_database 9 (mkClock 39599999999 0 boundary_lag 0) true.

(** Every snapshot has an hour of the day, as the schema means. *)
Definition hours_valid (db : ParkingDatabase) : Prop :=
  forall r, r ∈ hourly_stats db -> exists h, hs_hour r = SInt h /\ 0 <= h < 24.

(** ** Lemmas *)

Lemma store_event_inv db data db' :
  store_event db data = Ok db' ->
  exists zone place_id status confidence timestamp,
    insert_event db zone place_id status confidence timestamp = Ok db'.
Proof.
  unfold store_event, py_bind.
  destruct (py_get data "zone"); [|done]. destruct (py_get data "sensor_id"); [|done].
  destruct (py_get data "status"); [|done]. destruct (py_get data "confidence"); [|done].
  destruct (py_get data "timestamp"); [|done]. intros H. by do 5 eexists.
Qed.

Lemma insert_event_tables db zone place_id status confidence timestamp db' :
  insert_event db zone place_id status confidence timestamp = Ok db' ->
  hourly_stats db' = hourly_stats db /\ exists r, parking_events db' = parking_events db ++ [r].
Proof. intros (? & ? & ? & ? & ? & _ & _ & _ & _ & _ & _ & _ & _ & _ & ->)%insert_event_inv. eauto. Qed.

Lemma insert_hourly_stat_tables db h ts data db' :
  insert_hourly_stat db h ts data = Ok db' ->
  parking_events db' = parking_events db /\
  exists r, hourly_stats db' = hourly_stats db ++ [r] /\ hs_hour r = SInt h.
Proof.
  unfold insert_hourly_stat, py_bind.
  repeat match goal with |- context [match ?e with Ok _ => _ | Raise _ => _ end] => destruct e end;
    try done.
  intros [= <-]. simpl. eauto.
Qed.

(** What one callback can do to the database and the watermark. *)
Lemma on_message_effect b t p :
  let b' := snd (on_message b t p) in
  loop_running b' = loop_running b /\
  ((database b' = database b /\ last_hourly_save b' = last_hourly_save b) \/
   (exists zone place_id status confidence timestamp,
      insert_event (database b) zone place_id status confidence timestamp = Ok (database b') /\
      last_hourly_save b' = last_hourly_save b) \/
   (exists h ts data, insert_hourly_stat (database b) h ts data = Ok (database b') /\
      last_hourly_save b' <> last_hourly_save b)).
Proof.
  unfold on_message. destruct (bytes_decode p) as [text|e]; [|simpl; auto].
  destruct (json_loads text) as [data|e]; [|simpl; auto].
  destruct (String.eqb t summary_topic).
  - destruct (datetime_now (clock b)) as [now c1].
    destruct (Z.eqb_spec (dt_hour now) (last_hourly_save b)); [simpl; auto|].
    destruct (datetime_now c1) as [now2 c2]. destruct (datetime_now c2) as [now3 c3].
    destruct (insert_hourly_stat _ _ _ _) as [db'|e] eqn:Hi; simpl; [|auto].
    split; [done|]. right; right. do 3 eexists. split; [exact Hi|done].
  - destruct (store_event _ _) as [db'|e] eqn:Hs; simpl; [|auto].
    apply store_event_inv in Hs as (? & ? & ? & ? & ? & Hs). split; [done|]. right; left. do 5 eexists. split; [exact Hs|done].
Qed.

(** The same for a delivery: the database grows by at most one row, in
    the events table with the watermark fixed, or in the snapshots table
    with the watermark moved. *)
Lemma deliver_effect b m :
  let b' := deliver b m in
  (database b' = database b /\ last_hourly_save b' = last_hourly_save b) \/
  (hourly_stats (database b') = hourly_stats (database b) /\
   (exists r, parking_events (database b') = parking_events (database b) ++ [r]) /\
   last_hourly_save b' = last_hourly_save b /\
   (exists zone place_id status confidence timestamp,
      insert_event (database b) zone place_id status confidence timestamp = Ok (database b'))) \/
  (parking_events (database b') = parking_events (database b) /\
   (exists r, hourly_stats (database b') = hourly_stats (database b) ++ [r]) /\
   last_hourly_save b' <> last_hourly_save b /\
   (exists h ts data, insert_hourly_stat (database b) h ts data = Ok (database b'))).
Proof.
  unfold deliver. destruct (loop_running b); [|auto].
  pose proof (on_message_effect b (fst m) (snd m)) as [_ He].
  destruct (on_message b (fst m) (snd m)) as [o b'].
  assert (Hdb : database (match o with Escaped _ => mkMQTTBackend (database b') (last_hourly_save b') (clock b') false | _ => b' end) = database b' /\
                last_hourly_save (match o with Escaped _ => mkMQTTBackend (database b') (last_hourly_save b') (clock b') false | _ => b' end) = last_hourly_save b')
    by (destruct o; done).
  destruct Hdb as [-> ->]. simpl in He.
  destruct He as [He | [(? & ? & ? & ? & ? & Hi & Hw) | (? & ? & ? & Hi & Hw)]]; [auto| |].
  - right; left. pose proof (insert_event_tables _ _ _ _ _ _ _ Hi) as [? ?].
    split_and!; [done..|]. do 5 eexists. exact Hi.
  - right; right. pose proof (insert_hourly_stat_tables _ _ _ _ _ Hi) as [? (r & ? & _)].
    split_and!; [done | by exists r | done |]. do 3 eexists. exact Hi.
Qed.

Lemma deliver_all_stopped b msgs : loop_running b = false -> deliver_all b msgs = b.
Proof.
  intros H. unfold deliver_all. induction msgs as [|m msgs IH]; [done|]. simpl.
  unfold deliver at 2. by rewrite H.
Qed.

Lemma on_message_hours b t p :
  hours_valid (database b) -> hours_valid (database (snd (on_message b t p))).
Proof.
  intros Hv. unfold on_message.
  destruct (bytes_decode p) as [text|]; [|done]. destruct (json_loads text) as [data|]; [|done].
  destruct (String.eqb t summary_topic).
  - destruct (datetime_now (clock b)) as [now c1]. destruct (_ =? _); [done|].
    pose proof (datetime_now_hour_range c1) as Hh.
    destruct (datetime_now c1) as [now2 c2]. destruct (datetime_now c2) as [now3 c3].
    destruct (insert_hourly_stat _ _ _ _) as [db'|] eqn:Ei; [|done]. simpl in *.
    apply insert_hourly_stat_tables in Ei as (_ & r & Hr & Hr').
    intros x. rewrite Hr, elem_of_app, list_elem_of_singleton. intros [Hx | ->]; [by apply Hv|eauto].
  - destruct (store_event _ _) as [db'|] eqn:Es; [|done]. simpl.
    apply store_event_inv in Es as (? & ? & ? & ? & ? & Hi). apply insert_event_tables in Hi as [Hh _].
    intros y. rewrite Hh. apply Hv.
Qed.

(** The state after a complete sensor event: one row appended, nothing
    else changed. *)
Lemma on_message_event b topic kvs zone sid status ts conf cf :
  topic <> summary_topic ->
  dict_lookup "zone" kvs = Some (VStr zone) -> dict_lookup "sensor_id" kvs = Some (VInt sid) ->
  dict_lookup "status" kvs = Some (VStr status) -> dict_lookup "timestamp" kvs = Some (VStr ts) ->
  dict_lookup "confidence" kvs = Some conf -> bind_param conf = Ok cf ->
  int64_min <= sid <= int64_max ->
  on_message b topic (Utf8Json (VDict kvs)) =
  (Handled, mkMQTTBackend
     (mkParkingDatabase (parking_events (database b) ++
         [mkEventRow (events_seq (database b) + 1) (SText ts) (SText zone) (SInt sid) (SText status) cf])
        (events_seq (database b) + 1) (hourly_stats (database b)) (hourly_seq (database b)))
     (last_hourly_save b) (clock b) (loop_running b)).
Proof.
  intros Ht Hz Hs Hst Hts Hc Hcf Hsid. unfold on_message. simpl.
  apply String.eqb_neq in Ht. rewrite Ht.
  unfold store_event, py_get, py_bind. rewrite Hz, Hs, Hst, Hc, Hts. simpl.
  unfold insert_event, bind_param at 1 2 3 4, py_bind. simpl.
  destruct (Z.leb_spec int64_min sid); [|lia]. destruct (Z.leb_spec sid int64_max); [|lia].
  simpl. by rewrite Hcf.
Qed.

(** ** Properties *)

(** C4. A summary received while the hour of [datetime.now()] equals the
    watermark is dropped: nothing is stored and the watermark stays, only
    the clock reading happened. *)
Theorem summary_same_hour_dropped b data :
  dt_hour (fst (datetime_now (clock b))) = last_hourly_save b ->
  on_message b summary_topic (Utf8Json data) = (Handled, set_clock b (snd (datetime_now (clock b)))).
Proof.
  intros H. unfold on_message. cbn [bytes_decode json_loads]. rewrite String.eqb_refl.
  destruct (datetime_now (clock b)) as [now c1]. simpl in H. by rewrite H, Z.eqb_refl.
Qed.

(** C5. A well-formed summary received in a new hour appends exactly one
    snapshot holding its four counts, with the hour and timestamp of the
    two later clock readings, and moves the watermark to the hour of the
    first reading; the events table is untouched. *)
Theorem summary_new_hour_stored b kvs vt vo vf vr t o f r :
  dt_hour (fst (datetime_now (clock b))) <> last_hourly_save b ->
  dict_lookup "total_places" kvs = Some vt -> dict_lookup "occupied" kvs = Some vo ->
  dict_lookup "free" kvs = Some vf -> dict_lookup "occupancy_rate" kvs = Some vr ->
  bind_param vt = Ok t -> bind_param vo = Ok o -> bind_param vf = Ok f -> bind_param vr = Ok r ->
  let '(now, c1) := datetime_now (clock b) in
  let '(now2, c2) := datetime_now c1 in
  let '(now3, c3) := datetime_now c2 in
  on_message b summary_topic (Utf8Json (VDict kvs)) =
    (Handled, mkMQTTBackend
                (mkParkingDatabase (parking_events (database b)) (events_seq (database b))
                   (hourly_stats (database b) ++
                      [mkHourlyRow (hourly_seq (database b) + 1) (SText (isoformat now3))
                         (SInt (dt_hour now2)) t o f r])
                   (hourly_seq (database b) + 1))
                (dt_hour now) c3 (loop_running b)).
Proof.
  intros Hh Ht Ho Hf Hr Hbt Hbo Hbf Hbr. unfold on_message. cbn [bytes_decode json_loads].
  rewrite String.eqb_refl.
  destruct (datetime_now (clock b)) as [now c1]. simpl in Hh.
  destruct (Z.eqb_spec (dt_hour now) (last_hourly_save b)); [done|].
  destruct (datetime_now c1) as [now2 c2]. destruct (datetime_now c2) as [now3 c3].
  unfold insert_hourly_stat, py_getitem, py_bind. by rewrite Ht, Ho, Hf, Hr, Hbt, Hbo, Hbf, Hbr.
Qed.

(** C6. Over any sequence of deliveries, the number of snapshots
    appended is the number of times the watermark changed: at most one
    snapshot per change of the observed hour. *)
Theorem snapshots_count b msgs :
  length (hourly_stats (database (deliver_all b msgs))) =
  (length (hourly_stats (database b)) + changes_from (last_hourly_save b) (watermarks b msgs))%nat.
Proof.
  unfold deliver_all. revert b. induction msgs as [|m msgs IH]; intros b; simpl; [lia|].
  rewrite IH.
  destruct (deliver_effect b m) as [(-> & ->) | [(-> & _ & -> & _) | (_ & [r ->] & Hw & _)]].
  - rewrite Z.eqb_refl. lia.
  - rewrite Z.eqb_refl. lia.
  - rewrite length_app. simpl. destruct (Z.eqb_spec (last_hourly_save (deliver b m)) (last_hourly_save b));
      [done|lia].
Qed.

(** The hour of a snapshot is read after the watermark test: across
    an hour boundary two snapshots carry the same hour 11. *)
Theorem boundary_two_snapshots :
  map hs_hour (hourly_stats (database (deliver_all boundary_backend
    [(summary_topic, Utf8Json boundary_summary); (summary_topic, Utf8Json boundary_summary)])))
  = [SInt 11; SInt 11].
Proof. vm_compute. reflexivity. Qed.

(** C7. A status message on a sensor topic whose zone, id, status and
    timestamp are present adds exactly one event row, which the events
    query returns first with [place_id = sensor_id], [zone] and [status]. *)
Theorem event_stored b topic kvs zone sid status ts conf cf :
  topic <> summary_topic ->
  dict_lookup "zone" kvs = Some (VStr zone) -> dict_lookup "sensor_id" kvs = Some (VInt sid) ->
  dict_lookup "status" kvs = Some (VStr status) -> dict_lookup "timestamp" kvs = Some (VStr ts) ->
  dict_lookup "confidence" kvs = Some conf -> bind_param conf = Ok cf ->
  int64_min <= sid <= int64_max ->
  let '(o, b') := on_message b topic (Utf8Json (VDict kvs)) in
  o = Handled /\ last_hourly_save b' = last_hourly_save b /\
  hourly_stats (database b') = hourly_stats (database b) /\
  length (parking_events (database b')) = S (length (parking_events (database b))) /\
  get_recent_events (database b') 1 = Ok [(SText ts, SText zone, SInt sid, SText status)].
Proof.
  intros Ht Hz Hs Hst Hts Hc Hcf Hsid. rewrite (on_message_event _ _ _ zone sid status ts conf cf) by done.
  cbn [database parking_events hourly_stats last_hourly_save]. split_and!; try done.
  - rewrite length_app. simpl. lia.
  - unfold get_recent_events, select_recent. simpl. by rewrite reverse_snoc.
Qed.

(** C13. An event whose payload lacks [zone] is not stored with a NULL
    zone: the NOT NULL constraint raises [IntegrityError], the callback
    logs it and the backend is unchanged. *)
Theorem event_missing_zone_rejected b topic kvs ts p st cf :
  topic <> summary_topic ->
  dict_lookup "zone" kvs = None -> dict_lookup "timestamp" kvs = Some (VStr ts) ->
  bind_param (default VNone (dict_lookup "sensor_id" kvs)) = Ok p ->
  bind_param (default VNone (dict_lookup "status" kvs)) = Ok st ->
  bind_param (default VNone (dict_lookup "confidence" kvs)) = Ok cf ->
  on_message b topic (Utf8Json (VDict kvs)) = (Logged (IntegrityError "parking_events.zone"), b).
Proof.
  intros Ht Hz Hts Hp Hst Hcf. unfold on_message. simpl.
  apply String.eqb_neq in Ht. rewrite Ht.
  unfold store_event, py_get, py_bind. rewrite Hz, Hts. simpl.
  unfold insert_event, py_bind. simpl. by rewrite Hp, Hst, Hcf.
Qed.

(** C14. A payload that is not UTF-8 raises [UnicodeDecodeError] outside
    the [try]: the exception escapes the callback, the network loop ends,
    and no later message is stored. *)
Theorem non_utf8_stops_ingestion b topic msgs :
  loop_running b = true ->
  deliver_all b ((topic, NonUtf8) :: msgs) =
  mkMQTTBackend (database b) (last_hourly_save b) (clock b) false.
Proof.
  intros H. unfold deliver_all. simpl. unfold deliver at 2. rewrite H. simpl.
  by apply deliver_all_stopped.
Qed.

(** C12. The store is append-only and stays well formed: after any
    sequence of deliveries both tables extend the tables before it and
    keep their ids [1..n]. *)
Theorem deliver_all_append_only b msgs :
  db_wf (database b) ->
  let db' := database (deliver_all b msgs) in
  db_wf db' /\
  (exists new_events, parking_events db' = parking_events (database b) ++ new_events) /\
  (exists new_stats, hourly_stats db' = hourly_stats (database b) ++ new_stats).
Proof.
  unfold deliver_all. revert b. induction msgs as [|m msgs IH]; intros b Hwf; simpl.
  - split_and!; [done | exists [] | exists []]; by rewrite app_nil_r.
  - destruct (deliver_effect b m) as [(He & _) | [(Hh & [r Hr] & _ & (? & ? & ? & ? & ? & Hi)) |
                                                   (He & [r Hr] & _ & (? & ? & ? & Hi))]].
    + rewrite <-He. apply IH. by rewrite He.
    + destruct (IH (deliver b m) (insert_event_wf _ _ _ _ _ _ _ Hwf Hi)) as (W & [e1 E1] & [h1 H1]).
      split_and!; [done | exists (r :: e1) | exists h1]; rewrite ?E1, ?H1, ?Hr, ?Hh; by rewrite <-?app_assoc.
    + destruct (IH (deliver b m) (insert_hourly_stat_wf _ _ _ _ _ Hwf Hi)) as (W & [e1 E1] & [h1 H1]).
      split_and!; [done | exists e1 | exists (r :: h1)]; rewrite ?E1, ?H1, ?Hr, ?He; by rewrite <-?app_assoc.
Qed.

(** C30. Whatever the broker delivers, every hourly snapshot the backend
    stores has an integer hour of the day in [0 .. 23], read from its own
    clock: the hypothesis under which [get_statistics_by_hour] sorts its
    hours and counts every snapshot. *)
Theorem deliver_all_hours_valid b msgs :
  hours_valid (database b) -> hours_valid (database (deliver_all b msgs)).
Proof.
  unfold deliver_all. revert b. induction msgs as [|m msgs IH]; intros b Hv; [done|]. simpl.
  apply IH. unfold deliver. destruct (loop_running b); [|done].
  pose proof (on_message_hours b (fst m) (snd m) Hv) as Hm.
  destruct (on_message b (fst m) (snd m)) as [[| |] b']; done.
Qed.

(** ** Witnesses *)

Lemma summary_same_hour_dropped_witness :
  dt_hour (fst (datetime_now (clock (mkMQTTBackend init_database 10 (mkClock 36000000000 0 (fun _ => 0%N) 0) true))))
    = last_hourly_save (mkMQTTBackend init_database 10 (mkClock 36000000000 0 (fun _ => 0%N) 0) true) /\
  on_message (mkMQTTBackend init_database 10 (mkClock 36000000000 0 (fun _ => 0%N) 0) true)
    summary_topic (Utf8Json boundary_summary) =
  (Handled, set_clock (mkMQTTBackend init_database 10 (mkClock 36000000000 0 (fun _ => 0%N) 0) true)
              (snd (datetime_now (mkClock 36000000000 0 (fun _ => 0%N) 0)))).
Proof. split; [reflexivity | apply summary_same_hour_dropped; reflexivity]. Defined.

Lemma summary_new_hour_stored_witness :
  dt_hour (fst (datetime_now (clock boundary_backend))) <> last_hourly_save boundary_backend /\
  let '(now, c1) := datetime_now (clock boundary_backend) in
  let '(now2, c2) := datetime_now c1 in
  let '(now3, c3) := datetime_now c2 in
  on_message boundary_backend summary_topic
    (Utf8Json (VDict [("total_places", VInt 24); ("occupied", VInt 12); ("free", VInt 12);
                      ("occupancy_rate", VFloat (Qmake 5000 100)); ("timestamp", VStr "")])) =
    (Handled, mkMQTTBackend
                (mkParkingDatabase (parking_events (database boundary_backend))
                   (events_seq (database boundary_backend))
                   (hourly_stats (database boundary_backend) ++
                      [mkHourlyRow (hourly_seq (database boundary_backend) + 1) (SText (isoformat now3))
                         (SInt (dt_hour now2)) (SInt 24) (SInt 12) (SInt 12) (SReal (Qmake 5000 100))])
                   (hourly_seq (database boundary_backend) + 1))
                (dt_hour now) c3 (loop_running boundary_backend)).
Proof.
  split; [vm_compute; congruence|].
  apply (summary_new_hour_stored boundary_backend _ (VInt 24) (VInt 12) (VInt 12) (VFloat (Qmake 5000 100)));
    first [vm_compute; congruence | reflexivity].
Defined.

Lemma event_stored_witness :
  "parking/Zone_A/place_1" <> summary_topic /\
  let '(o, b') := on_message boundary_backend "parking/Zone_A/place_1"
                    (Utf8Json (VDict [("sensor_id", VInt 1); ("zone", VStr "Zone_A"); ("status", VStr "occupied");
                                      ("timestamp", VStr "T"); ("confidence", VFloat (Qmake 90 100))])) in
  o = Handled /\ last_hourly_save b' = last_hourly_save boundary_backend /\
  hourly_stats (database b') = hourly_stats (database boundary_backend) /\
  length (parking_events (database b')) = S (length (parking_events (database boundary_backend))) /\
  get_recent_events (database b') 1 = Ok [(SText "T", SText "Zone_A", SInt 1, SText "occupied")].
Proof.
  split; [discriminate|].
  apply (event_stored _ _ _ "Zone_A" 1 "occupied" "T" (VFloat (Qmake 90 100)) (SReal (Qmake 90 100)));
    first [discriminate | reflexivity | unfold int64_min, int64_max; lia].
Defined.

Lemma event_missing_zone_rejected_witness :
  "parking/Zone_A/place_1" <> summary_topic /\
  on_message boundary_backend "parking/Zone_A/place_1"
    (Utf8Json (VDict [("sensor_id", VInt 1); ("status", VStr "occupied"); ("timestamp", VStr "T")])) =
  (Logged (IntegrityError "parking_events.zone"), boundary_backend).
Proof.
  split; [discriminate|].
  apply (event_missing_zone_rejected _ _ _ "T" (SInt 1) (SText "occupied") SNull);
    first [discriminate | reflexivity].
Defined.

Lemma non_utf8_stops_ingestion_witness :
  loop_running boundary_backend = true /\
  deliver_all boundary_backend [("parking/Zone_A/place_1", NonUtf8); (summary_topic, Utf8Json boundary_summary)] =
  mkMQTTBackend (database boundary_backend) (last_hourly_save boundary_backend) (clock boundary_backend) false.
Proof. split; [reflexivity | apply non_utf8_stops_ingestion; reflexivity]. Defined.

Lemma deliver_all_append_only_witness :
  db_wf (database boundary_backend) /\
  let db' := database (deliver_all boundary_backend [(summary_topic, Utf8Json boundary_summary)]) in
  db_wf db' /\
  (exists new_events, parking_events db' = parking_events (database boundary_backend) ++ new_events) /\
  (exists new_stats, hourly_stats db' = hourly_stats (database boundary_backend) ++ new_stats).
Proof.
  assert (H : db_wf (database boundary_backend)) by (split; split; reflexivity).
  split; [exact H | apply deliver_all_append_only; exact H].
Defined.

Lemma deliver_all_hours_valid_witness :
  hours_valid (database boundary_backend) /\
  hours_valid (database (deliver_all boundary_backend
    [(summary_topic, Utf8Json boundary_summary); (summary_topic, Utf8Json boundary_summary)])).
Proof.
  assert (H0 : hours_valid (database boundary_backend)) by (intros r Hr; inversion Hr).
  split; [exact H0 | apply deliver_all_hours_valid, H0].
Defined.

End Backend.
