(* ===== verification/Run.v ===== *)
(** * [ParkingSystem.run_simulation] as a step relation

    [run_simulation] publishes every status and a summary, prints the fleet
    and reads the start time, all before its [try]; inside it the
    [while True] loop ticks, sleeps and tests the duration; a
    [KeyboardInterrupt] can arrive between any two steps of the loop and is
    caught by [except KeyboardInterrupt]; [finally: self.cleanup()] runs on
    every exit from the [try]. The relation [run_step] has one rule per
    such step; the sensor loop advances one sensor per step, as the Python
    loop mutates one sensor object at a time. *)

From S2P Require Import Prelude PyModel Sensor Simulator.

Open Scope Z_scope.
Open Scope parking_scope.

Module Run.
Import Sensor Simulator.

(** The part of [run_simulation] before the [try]: one status per sensor
    (return codes ignored), [publish_summary()], [display_initial_state()]. *)
Definition initial_publish (sys : ParkingSystem) : PyResult ParkingSystem :=
  let sys1 := fold_left (fun sys s => snd (publish_status s sys)) (sensors sys) sys in
  let? sys2 := publish_summary sys1 in
  Ok (display_initial_state sys2).

(** [if changes > 0: self.publish_summary()] *)
Definition end_of_tick (changes : nat) (sys : ParkingSystem) : PyResult ParkingSystem :=
  if (0 <? changes)%nat then publish_summary sys else Ok sys.

(** Where [run_simulation] is: before the [try]; at the top of the
    [while]; in the sensor loop at index [i] with [changes]; in
    [time.sleep(2)]; leaving the [try] (with the exception that propagates,
    if any) before [finally]; after [cleanup()]; or ended by an exception
    raised before the [try]. *)
Inductive Phase :=
  | Starting
  | Looping
  | Ticking (i changes : nat)
  | Sleeping
  | Stopping (pending : option PyExc)
  | Stopped (pending : option PyExc)
  | Crashed (e : PyExc).

(** The phase, the system, [start_time], and the number of [cleanup()]
    calls made. *)
Record RunState := mkRunState {
  phase : Phase;
  system : ParkingSystem;
  start_time : Z;
  cleanups : nat
}.

(** Where a [KeyboardInterrupt] is caught by the [except] clause. *)
Definition in_try (ph : Phase) : bool :=
  match ph with Looping | Ticking _ _ | Sleeping => true | _ => false end.

Section Steps.
Variable duration : option Z.

Inductive run_step : RunState -> RunState -> Prop :=
  | step_start sys sys1 t c t0 n :
      initial_publish sys = Ok sys1 -> clock_read (clock sys1) = (t, c) ->
      run_step (mkRunState Starting sys t0 n) (mkRunState Looping (set_clock sys1 c) t n)
  | step_start_raise sys e t0 n :
      initial_publish sys = Raise e ->
      run_step (mkRunState Starting sys t0 n) (mkRunState (Crashed e) sys t0 n)
  | step_start_interrupt sys t0 n :
      run_step (mkRunState Starting sys t0 n) (mkRunState (Crashed KeyboardInterrupt) sys t0 n)
  | step_begin sys t n :
      run_step (mkRunState Looping sys t n) (mkRunState (Ticking 0 0) sys t n)
  | step_sensor i c sys t n :
      (i < length (sensors sys))%nat ->
      run_step (mkRunState (Ticking i c) sys t n)
               (mkRunState (Ticking (S i) (fst (tick_step (c, sys) i))) (snd (tick_step (c, sys) i)) t n)
  | step_end_tick i c sys sys' t n :
      i = length (sensors sys) -> end_of_tick c sys = Ok sys' ->
      run_step (mkRunState (Ticking i c) sys t n) (mkRunState Sleeping sys' t n)
  | step_end_tick_raise i c sys e t n :
      i = length (sensors sys) -> end_of_tick c sys = Raise e ->
      run_step (mkRunState (Ticking i c) sys t n) (mkRunState (Stopping (Some e)) sys t n)
  | step_wake sys t n :
      run_step (mkRunState Sleeping sys t n)
               (mkRunState (if fst (after_sleep duration t sys) then Stopping None else Looping)
                  (snd (after_sleep duration t sys)) t n)
  | step_interrupt ph sys t n :
      in_try ph = true ->
      run_step (mkRunState ph sys t n) (mkRunState (Stopping None) sys t n)
  | step_cleanup p sys t n :
      run_step (mkRunState (Stopping p) sys t n) (mkRunState (Stopped p) sys t (S n)).

End Steps.

(** The cleanups a state has made, as the code promises them: one once
    stopped, none before, none after a crash before the [try]. *)
Definition cleanups_expected (ph : Phase) : nat :=
  match ph with Stopped _ => 1 | _ => 0 end.

(** The [occupied] count of the last summary the client accepted. *)
Definition last_summary_occupied (out : list Message) : option PyVal :=
  match filter (fun m => msg_topic m = "parking/summary") (reverse out) with
  | m :: _ => match msg_payload m with VDict kvs => dict_lookup "occupied" kvs | _ => None end
  | [] => None
  end.

(** A fleet of one free sensor whose first draw flips it. *)
Definition demo_system : ParkingSystem :=
  mkParkingSystem [ParkingSensor_init 1 "Zone_A"] [] (mkClock 0 0 (fun _ => 0%N) 0)
    (mkRng (fun _ => 0) 0 (fun _ => false) 0) (mkLink (fun _ => true) 0).

(** ** Lemmas *)

Lemma run_step_cleanups duration a b :
  cleanups a = cleanups_expected (phase a) -> run_step duration a b ->
  cleanups b = cleanups_expected (phase b).
Proof.
  intros Ha Hs. destruct Hs; simpl in *; try done.
  - by destruct (fst (after_sleep duration t sys)).
  - rewrite Ha. by destruct ph.
  - by rewrite Ha.
Qed.

Lemma tick_step_length c sys i :
  length (sensors (snd (tick_step (c, sys) i))) = length (sensors sys).
Proof.
  unfold tick_step. destruct (sensors sys !! i) as [s|] eqn:Hi; [|done].
  destruct (detect_change s (rng sys)) as [[[|] s'] g'].
  - pose proof (publish_status_sensors s' (set_rng (set_sensors sys (<[i:=s']> (sensors sys))) g')) as Hp.
    destruct (publish_status _ _) as [[|] sys2]; simpl in *; rewrite Hp; apply length_insert.
  - apply length_insert.
Qed.

Lemma fold_tick_step_length l c sys :
  length (sensors (snd (fold_left tick_step l (c, sys)))) = length (sensors sys).
Proof.
  revert c sys. induction l as [|i l IH]; intros c sys; [done|]. cbn [fold_left].
  destruct (tick_step (c, sys) i) as [c1 sys1] eqn:Ht. rewrite IH.
  by rewrite <-(tick_step_length c sys i), Ht.
Qed.

(** The sensor loop, one sensor per step, computes the fold of [tick_step]. *)
Lemma ticking_run duration k i c sys t n :
  (i + k = length (sensors sys))%nat ->
  let '(c', sys') := fold_left tick_step (seq i k) (c, sys) in
  star (run_step duration) (mkRunState (Ticking i c) sys t n) (mkRunState (Ticking (i + k) c') sys' t n).
Proof.
  revert i c sys. induction k as [|k IH]; intros i c sys Hk; cbn [seq fold_left].
  - rewrite Nat.add_0_r. constructor.
  - pose proof (IH (S i) (fst (tick_step (c, sys) i)) (snd (tick_step (c, sys) i))) as IH'.
    rewrite <-surjective_pairing in IH'.
    destruct (fold_left tick_step (seq (S i) k) (tick_step (c, sys) i)) as [c' sys'].
    eapply star_step; [apply step_sensor; lia|].
    rewrite <-Nat.add_succ_comm. apply IH'. rewrite tick_step_length. lia.
Qed.

(** One uninterrupted iteration is a sequence of steps from the top of the
    loop to the sleep. *)
Lemma tick_run duration sys c sys1 t n :
  tick sys = Ok (c, sys1) ->
  star (run_step duration) (mkRunState Looping sys t n) (mkRunState Sleeping sys1 t n).
Proof.
  unfold tick, tick_sensors. intros Ht.
  pose proof (ticking_run duration (length (sensors sys)) 0 0 sys t n eq_refl) as Hr.
  destruct (fold_left tick_step _ _) as [c' sys'] eqn:Hf.
  eapply star_step; [apply step_begin|]. eapply star_trans; [exact Hr|].
  apply star_one. apply step_end_tick.
  - pose proof (fold_tick_step_length (seq 0 (length (sensors sys))) 0 sys) as Hlen.
    rewrite Hf in Hlen. simpl in Hlen. lia.
  - unfold end_of_tick. destruct (0 <? c')%nat; [|by injection Ht as -> ->].
    destruct (publish_summary sys') as [sys2|e]; simpl in Ht; [by injection Ht as -> -> | done].
Qed.

(** A run of the demo fleet that starts the loop and is interrupted in its
    first tick. *)
Lemma demo_trace :
  exists s1 s, star (run_step None) (mkRunState Starting demo_system 0 0) s1 /\ phase s1 = Looping /\
    star (run_step None) s1 s /\ phase s = Stopped None.
Proof.
  do 2 eexists. split_and!.
  - apply star_one. eapply step_start; reflexivity.
  - reflexivity.
  - eapply star_step; [apply step_begin|].
    eapply star_step; [apply step_sensor; simpl; lia|].
    eapply star_step; [by apply step_interrupt|].
    apply star_one, step_cleanup.
  - reflexivity.
Qed.

(** ** Properties *)

(** C10. [cleanup()] runs exactly once on every exit from the [try]: a
    run started before [run_simulation] has made one cleanup once stopped
    and none in every other phase, in particular none after an exception
    raised before the [try]. *)
Theorem cleanup_exactly_once duration sys t0 s :
  star (run_step duration) (mkRunState Starting sys t0 0) s ->
  cleanups s = cleanups_expected (phase s).
Proof.
  intros Hs. apply (star_invariant _ (fun a => cleanups a = cleanups_expected (phase a))
                      (run_step_cleanups duration) _ _ Hs). done.
Qed.

(** Once the loop has started, the run can always be stopped with its
    cleanup: from any reachable state past the initial phase, a stopped
    state with one cleanup is reachable. *)
Theorem run_can_stop duration sys t0 s :
  star (run_step duration) (mkRunState Starting sys t0 0) s ->
  phase s <> Starting -> (forall e, phase s <> Crashed e) ->
  exists s' p, star (run_step duration) s s' /\ phase s' = Stopped p /\ cleanups s' = 1%nat.
Proof.
  intros Hs H1 H2.
  pose proof (star_invariant _ (fun a => cleanups a = cleanups_expected (phase a))
                (run_step_cleanups duration) _ _ Hs eq_refl) as Hc.
  destruct s as [ph sys' t n]; simpl in *.
  destruct ph as [| | i c | | p | p | e]; try congruence; simpl in Hc; subst n.
  1-3: exists (mkRunState (Stopped None) sys' t 1), None; split_and!; try done;
       eapply star_step; [by apply step_interrupt|]; apply star_one, step_cleanup.
  - exists (mkRunState (Stopped p) sys' t 1), p. split_and!; try done. apply star_one, step_cleanup.
  - exists (mkRunState (Stopped p) sys' t 1), p. split_and!; try done. constructor.
Qed.

(** The uninterrupted loop refines the interruptible run: when
    [sim_loop] ends by the duration test, the step relation reaches the
    [finally] clause with the same system. *)
Theorem sim_loop_refined duration fuel t sys sys' n :
  sim_loop fuel duration t sys = (LoopDone, sys') ->
  star (run_step duration) (mkRunState Looping sys t n) (mkRunState (Stopping None) sys' t n).
Proof.
  revert sys. induction fuel as [|fuel IH]; intros sys H; simpl in H; [done|].
  destruct (tick sys) as [[c sys1]|e] eqn:Ht; [|done].
  eapply star_trans; [exact (tick_run duration sys c sys1 t n Ht)|].
  eapply star_step; [apply step_wake|].
  destruct (after_sleep duration t sys1) as [[|] sys2]; simpl.
  - injection H as <-. constructor.
  - by apply IH.
Qed.

(** A [KeyboardInterrupt] is not held until the end of the tick: a
    run can stop after a sensor flipped and its status went out but before
    the summary, leaving the last summary at 0 occupied places while the
    fleet has 1. *)
Theorem interrupt_mid_tick_stale_summary :
  exists s, star (run_step None) (mkRunState Starting demo_system 0 0) s /\
    phase s = Stopped None /\
    last_summary_occupied (outbox (system s)) = Some (VInt 0) /\
    count_occupied (sensors (system s)) = 1%nat.
Proof.
  eexists. split.
  - eapply star_step; [eapply step_start; reflexivity|].
    eapply star_step; [apply step_begin|].
    eapply star_step; [apply step_sensor; simpl; lia|].
    eapply star_step; [by apply step_interrupt|].
    apply star_one, step_cleanup.
  - vm_compute. split_and!; reflexivity.
Qed.

(** C19. An empty fleet never reaches the loop: the summary before the
    [try] raises [ZeroDivisionError] (or an interrupt arrives first) and
    [cleanup()] is never called. *)
Theorem empty_fleet_no_cleanup duration sys t0 s :
  sensors sys = [] ->
  star (run_step duration) (mkRunState Starting sys t0 0) s ->
  s = mkRunState Starting sys t0 0 \/
  exists e, s = mkRunState (Crashed e) sys t0 0.
Proof.
  intros He Hs.
  assert (Hi : initial_publish sys = Raise ZeroDivisionError)
    by (unfold initial_publish; rewrite He; cbn [fold_left]; unfold publish_summary; by rewrite He).
  remember (mkRunState Starting sys t0 0) as a eqn:Ha. revert Ha.
  induction Hs as [a|a b c Hab Hbc IH]; intros ->; [by left|].
  inversion Hab; subst; try congruence; try discriminate;
    (inversion Hbc as [|? ? ? Hstep]; subst; [right; eexists; reflexivity | inversion Hstep; discriminate]).
Qed.

(** ** Witnesses *)

Lemma cleanup_exactly_once_witness :
  exists s, star (run_step None) (mkRunState Starting demo_system 0 0) s /\ phase s = Stopped None /\
    cleanups s = cleanups_expected (phase s).
Proof.
  destruct demo_trace as (s1 & s & H1 & _ & H2 & Hp).
  exists s. split_and!; [exact (star_trans _ _ _ _ H1 H2) | exact Hp |].
  apply (cleanup_exactly_once None demo_system 0). exact (star_trans _ _ _ _ H1 H2).
Defined.

Lemma empty_fleet_no_cleanup_witness :
  let sys := mkParkingSystem [] [] (mkClock 0 0 (fun _ => 0%N) 0)
               (mkRng (fun _ => 0) 0 (fun _ => false) 0) (mkLink (fun _ => true) 0) in
  sensors sys = [] /\
  star (run_step None) (mkRunState Starting sys 0 0) (mkRunState (Crashed ZeroDivisionError) sys 0 0) /\
  (mkRunState (Crashed ZeroDivisionError) sys 0 0 = mkRunState Starting sys 0 0 \/
   exists e, mkRunState (Crashed ZeroDivisionError) sys 0 0 = mkRunState (Crashed e) sys 0 0).
Proof.
  intros sys.
  assert (H : star (run_step None) (mkRunState Starting sys 0 0) (mkRunState (Crashed ZeroDivisionError) sys 0 0))
    by (apply star_one, step_start_raise; reflexivity).
  split_and!; [reflexivity | exact H | exact (empty_fleet_no_cleanup None sys 0 _ eq_refl H)].
Defined.

End Run.
