(* ===== verification/Main.v ===== *)
(** * The sensor program's entry point

    The [__main__] block of [sensor_simulator.py] builds a
    [ParkingSystem] with an empty fleet, creates the lot of three zones
    (8, 6 and 10 places), calls [connect()] (which starts the client's
    network loop and sleeps one second) and then [run_simulation()] with
    no duration. [sensor_main] is the state in which [run_simulation]
    starts; the run itself is [Run.run_step] with duration [None]. A
    failing [client.connect] ends the process with [exit(1)]: the model
    takes the connection as established, its later failures being the
    [Link] return codes. *)

From stdpp Require Import strings.
From S2P Require Import Prelude PyModel Sensor Simulator Run.

Open Scope Z_scope.
Open Scope parking_scope.

Module Main.
Import Sensor Simulator Run.

(** [ParkingSystem.__init__]: [self.sensors = []]; the client with its
    callbacks is the environment (clock, generator, broker link). *)
Definition ParkingSystem_init (c : Clock) (g : Rng) (l : Link) : ParkingSystem :=
  mkParkingSystem [] [] c g l.

(** [connect()]: [client.connect], [loop_start()], then [time.sleep(1)]. *)
Definition connect (sys : ParkingSystem) : ParkingSystem :=
  set_clock sys (time_sleep 1 (clock sys)).

(** The [zones] dict of the [__main__] block, in insertion order. *)
Definition main_zones : list (string * Z) :=
  [("Zone_A", 8); ("Zone_B", 6); ("Zone_C", 10)].

(** The [__main__] block up to [parking.run_simulation()]. *)
Definition sensor_main (c : Clock) (g : Rng) (l : Link) : ParkingSystem :=
  connect (create_parking_lot main_zones (ParkingSystem_init c g l)).

(** The duration [run_simulation()] is called with. *)
Definition main_duration : option Z := None.

(** ** Lemmas *)

(** The topics of the fleet do not depend on the random initial states. *)
Lemma sensor_main_topics c g l :
  map topic (sensors (sensor_main c g l)) =
  map (fun '(z, i) => topic (ParkingSensor_init i z)) (lot_places main_zones).
Proof. vm_compute. reflexivity. Qed.

Lemma fold_publish_status_sensors l sys :
  sensors (fold_left (fun sys s => snd (publish_status s sys)) l sys) = sensors sys.
Proof.
  revert sys. induction l as [|s l IH]; intros sys; [done|]. cbn [fold_left].
  by rewrite IH, publish_status_sensors.
Qed.

(** [run_simulation]'s part before the [try] raises nothing on a
    non-empty fleet. *)
Lemma initial_publish_ok sys : sensors sys <> [] -> exists sys', initial_publish sys = Ok sys'.
Proof.
  intros Hne. unfold initial_publish.
  destruct (publish_summary _) as [sys2|e] eqn:Hps; [by eexists|].
  apply publish_summary_raise in Hps. by rewrite fold_publish_status_sensors in Hps.
Qed.

(** ** Properties *)

(** C33. The entry point starts [run_simulation()] with a fleet of 24
    sensors whose topics are pairwise distinct, so no two places share a
    retained status on the broker; the part of [run_simulation] before
    its [try] therefore raises nothing, and the duration is false, so
    only an interrupt ends the run. *)
Theorem sensor_main_fleet c g l :
  let sys := sensor_main c g l in
  length (sensors sys) = 24%nat /\ NoDup (map topic (sensors sys)) /\
  (exists sys', initial_publish sys = Ok sys') /\ duration_truthy main_duration = None.
Proof.
  intros sys. assert (Hl : length (sensors sys) = 24%nat).
  { rewrite <-(length_map topic). unfold sys. rewrite sensor_main_topics. vm_compute. reflexivity. }
  split_and!; [exact Hl | | apply initial_publish_ok | reflexivity].
  - unfold sys. rewrite sensor_main_topics. apply (bool_decide_unpack _). vm_compute. reflexivity.
  - intros Hs. rewrite Hs in Hl. discriminate Hl.
Qed.

End Main.
