(* ===== verification/Queries.v ===== *)
(** * The statistics queries of [ParkingDatabase]

    [get_statistics_by_hour]: [SELECT hour, AVG(occupancy_rate), COUNT( * )
    FROM hourly_stats GROUP BY hour ORDER BY hour], each average passed to
    [round(_, 2)] (which raises [TypeError] on the NULL average of a group
    without rates). [get_zone_statistics]: the events whose [timestamp] is
    greater than [datetime('now', '-1 day')], grouped by zone, with the
    counts of [status = 'occupied'], of [status = 'free'] and of all rows.
    The comparison is SQLite's comparison of two texts, byte by byte: the
    stored timestamps come from [isoformat] ([T] between date and time) and
    the cutoff from SQLite's [datetime] (a space there). The order of the
    groups of [get_zone_statistics] is left unspecified by the SQL, so the
    model lists them in order of last appearance and the theorems do not
    depend on it. *)

From stdpp Require Import sorting.
From S2P Require Import Prelude Float64 PyModel Database.

Open Scope Z_scope.
Open Scope parking_scope.

Module Queries.
Import Database.

#[export] Instance Q_eq_dec : EqDecision Q.
Proof. solve_decision. Defined.

#[export] Instance SqlValue_eq_dec : EqDecision SqlValue.
Proof. solve_decision. Defined.

(** SQLite's [datetime(...)] text: [YYYY-MM-DD HH:MM:SS]. *)
Definition sqlite_datetime (d : DateTime) : string :=
  String.concat "" [zpad 4 (dt_year d); "-"; zpad 2 (dt_month d); "-"; zpad 2 (dt_day d); " ";
    zpad 2 (dt_hour d); ":"; zpad 2 (dt_minute d); ":"; zpad 2 (dt_second d)].

(** [datetime('now', '-1 day')]: UTC, one day before the reading [now_us]. *)
Definition day_before (now_us : Z) : DateTime := datetime_of_us (now_us - us_per_day).

(** [timestamp > cutoff] for a text [cutoff]: NULL and numbers are never
    greater than a text; two texts compare byte by byte. *)
Definition after_cutoff (v : SqlValue) (cutoff : string) : bool :=
  match v with SText s => String.ltb cutoff s | _ => false end.

(** [status = 'occupied'] and the like. *)
Definition status_is (st : string) (v : SqlValue) : bool :=
  match v with SText s => String.eqb s st | _ => false end.

(** One group of [get_zone_statistics]. *)
Definition zone_row (rows : list EventRow) (z : SqlValue) : SqlValue * nat * nat * nat :=
  let g := filter (fun r => ev_zone r = z) rows in
  (z, length (filter (fun r => status_is "occupied" (ev_status r) = true) g),
   length (filter (fun r => status_is "free" (ev_status r) = true) g),
   length g).

(** The rows of [WHERE timestamp > datetime('now', '-1 day')] at the
    clock reading [now_us]. *)
Definition zone_window (db : ParkingDatabase) (now_us : Z) : list EventRow :=
  let cutoff := sqlite_datetime (day_before now_us) in
  filter (fun r => after_cutoff (ev_timestamp r) cutoff = true) (parking_events db).

(** [get_zone_statistics()] at the clock reading [now_us]. *)
Definition get_zone_statistics (db : ParkingDatabase) (now_us : Z) : list (SqlValue * nat * nat * nat) :=
  let rows := zone_window db now_us in
  map (zone_row rows) (remove_dups (map ev_zone rows)).

(** The [hour] of a snapshot, an integer in every row [insert_hourly_stat]
    writes. *)
Definition hour_of (r : HourlyRow) : option Z :=
  match hs_hour r with SInt h => Some h | _ => None end.

(** The value [AVG] takes from a stored rate: NULL is skipped, a text
    counts as 0. *)
Definition rate_value (v : SqlValue) : option Q :=
  match v with
  | SNull => None
  | SInt z => Some (inject_Z z)
  | SReal q => Some q
  | SText _ => Some 0%Q
  end.

(** [AVG]: NULL for no value, otherwise the float quotient of the sum by
    the count (the sum taken exactly). *)
Definition sql_avg (vals : list Q) : option Q :=
  match vals with
  | [] => None
  | _ => Some (Float64.fdiv (fold_right Qplus 0%Q vals) (inject_Z (Z.of_nat (length vals))))
  end.

(** One row of [get_statistics_by_hour]: [round(avg, 2)] raises
    [TypeError] on a NULL average. *)
Definition hour_row (rows : list HourlyRow) (h : Z) : PyResult (Z * Q * nat) :=
  let g := filter (fun r => hour_of r = Some h) rows in
  match sql_avg (omap (fun r => rate_value (hs_occupancy_rate r)) g) with
  | None => Raise TypeError
  | Some a => Ok (h, py_round2 a, length g)
  end.

(** [get_statistics_by_hour()]: the groups in increasing hour. *)
Definition get_statistics_by_hour (db : ParkingDatabase) : PyResult (list (Z * Q * nat)) :=
  let rows := hourly_stats db in
  py_map (hour_row rows) (merge_sort Z.le (remove_dups (omap hour_of rows))).

(** The calendar date of [a] is not after that of [b]. *)
Definition date_le (a b : DateTime) : Prop :=
  dt_year a < dt_year b \/
  (dt_year a = dt_year b /\ dt_month a < dt_month b) \/
  (dt_year a = dt_year b /\ dt_month a = dt_month b /\ dt_day a <= dt_day b).

(** ** Sample databases *)

(** 2024-01-03 23:00:00 UTC, as a clock reading. *)
Definition demo_now : Z := 19725 * us_per_day + 23 * us_per_hour.

(** The time of day 47 hours before [demo_now]: 2024-01-02 00:00:00. *)
Definition demo_event_time : DateTime := datetime_of_us (demo_now - 47 * us_per_hour).

Definition demo_event_row : EventRow :=
  mkEventRow 1 (SText (isoformat demo_event_time)) (SText "A") (SInt 1) (SText "occupied") (SReal (9#10)).

(** One event stored by [insert_event] with that timestamp. *)
Definition demo_events : PyResult ParkingDatabase :=
  insert_event init_database (VStr "A") (VInt 1) (VStr "occupied") (VFloat (9#10))
    (VStr (isoformat demo_event_time)).

(** Three snapshots, two of them at 14h. *)
Definition demo_snapshots : ParkingDatabase :=
  mkParkingDatabase [] 0
    [mkHourlyRow 1 (SText "2024-01-03T14:05:00") (SInt 14) (SInt 20) (SInt 10) (SInt 10) (SReal 50);
     mkHourlyRow 2 (SText "2024-01-04T09:05:00") (SInt 9) (SInt 20) (SInt 5) (SInt 15) (SReal 25);
     mkHourlyRow 3 (SText "2024-01-04T14:05:00") (SInt 14) (SInt 20) (SInt 15) (SInt 5) (SReal 75)] 3.

(** ** Lemmas *)

(** One fixed-width field followed by a separator: the number decides,
    then the separators. *)
Lemma field_compare w a b c1 c2 x y :
  0 <= a < 10 ^ Z.of_nat w -> 0 <= b < 10 ^ Z.of_nat w ->
  String.compare (String.append (zpad w a) (String c1 x)) (String.append (zpad w b) (String c2 y)) =
  match Z.compare a b with Eq => String.compare (String c1 x) (String c2 y) | o => o end.
Proof.
  intros Ha Hb. rewrite !zpad_digits by done.
  rewrite string_compare_app by (by rewrite !length_digits). by rewrite digits_compare.
Qed.

Lemma string_compare_cons c x y : String.compare (String c x) (String c y) = String.compare x y.
Proof. cbn [String.compare]. by rewrite ascii_compare_refl. Qed.

(** The SQLite cutoff against an ISO timestamp: the dates decide, and on
    the same date the space before the cutoff's time sorts before the [T]. *)
Lemma cutoff_compare dc de :
  date_fields_ok dc -> date_fields_ok de ->
  String.compare (sqlite_datetime dc) (isoformat de) =
  match Z.compare (dt_year dc) (dt_year de) with
  | Eq => match Z.compare (dt_month dc) (dt_month de) with
          | Eq => match Z.compare (dt_day dc) (dt_day de) with Eq => Lt | o => o end
          | o => o end
  | o => o end.
Proof.
  intros (?&?&?) (?&?&?). unfold sqlite_datetime, isoformat. cbn [String.concat]. autorewrite with parking.
  rewrite field_compare by done.
  destruct (Z.compare _ _); [|done..]. rewrite string_compare_cons, field_compare by done.
  destruct (Z.compare _ _); [|done..]. rewrite string_compare_cons, field_compare by done.
  by destruct (Z.compare _ _).
Qed.

(** An ISO timestamp passes the text comparison with an SQLite cutoff
    exactly when its date is not before the cutoff's. *)
Lemma iso_after_cutoff dc de :
  date_fields_ok dc -> date_fields_ok de ->
  after_cutoff (SText (isoformat de)) (sqlite_datetime dc) = true <-> date_le dc de.
Proof.
  intros Hc He. cbn [after_cutoff]. unfold String.ltb. rewrite cutoff_compare by done. unfold date_le.
  destruct (Z.compare_spec (dt_year dc) (dt_year de));
    [destruct (Z.compare_spec (dt_month dc) (dt_month de));
      [destruct (Z.compare_spec (dt_day dc) (dt_day de))|..]|..];
    split; intros; try done; lia.
Qed.

Lemma zone_row_fst rows z : (zone_row rows z).1.1.1 = z.
Proof. done. Qed.

Lemma sql_avg_none vals : sql_avg vals = None <-> vals = [].
Proof. by destruct vals. Qed.

Lemma hour_row_ok rows h row :
  hour_row rows h = Ok row -> row.1.1 = h /\ row.2 = length (filter (fun r => hour_of r = Some h) rows).
Proof. unfold hour_row. by destruct (sql_avg _); [intros [= <-] |]. Qed.

(** A group raises exactly when none of its rows has a rate. *)
Lemma hour_row_raise rows h e :
  hour_row rows h = Raise e <->
  e = TypeError /\ forall r, r ∈ rows -> hour_of r = Some h -> hs_occupancy_rate r = SNull.
Proof.
  unfold hour_row. destruct (sql_avg _) eqn:E.
  - split; [done|]. intros [_ Hn]. assert (Hs : sql_avg (omap (fun r => rate_value (hs_occupancy_rate r))
      (filter (fun r => hour_of r = Some h) rows)) = None); [|congruence].
    apply sql_avg_none. rewrite omap_nil_iff. intros r (Hh & Hr)%list_elem_of_filter. by rewrite Hn.
  - apply sql_avg_none in E. rewrite omap_nil_iff in E. split; [intros [= <-]; split; [done|] | by intros [-> _]].
    intros r Hr Hh. specialize (E r (proj2 (list_elem_of_filter _ _ _) (conj Hh Hr))).
    by destruct (hs_occupancy_rate r).
Qed.

(** The hours [get_statistics_by_hour] groups by are those of the rows. *)
Lemma elem_of_hours rows h :
  h ∈ merge_sort Z.le (remove_dups (omap hour_of rows)) <-> exists r, r ∈ rows /\ hour_of r = Some h.
Proof. by rewrite merge_sort_Permutation, elem_of_remove_dups, list_elem_of_omap. Qed.

Lemma StronglySorted_le_lt (l : list Z) : NoDup l -> StronglySorted Z.le l -> StronglySorted Z.lt l.
Proof.
  intros Hn Hs. induction Hs as [|x l Hs IH Hf]; constructor; apply NoDup_cons in Hn as [Hx Hn]; [by apply IH|].
  apply Forall_forall. intros y Hy. rewrite Forall_forall in Hf. specialize (Hf y Hy).
  assert (x <> y) by (intros ->; by apply Hx, list_elem_of_In). lia.
Qed.

(** ** Properties *)

(** C24. The window of [get_zone_statistics] is a whole calendar day, not
    24 hours: an event stored with an ISO timestamp is counted exactly when
    its date is on or after the date of [datetime('now', '-1 day')],
    whatever its time of day (and whatever time zone its local time is
    in). *)
Theorem zone_window_by_date db now_us r de :
  us_per_day <= now_us < 2786861 * us_per_day -> date_fields_ok de ->
  r ∈ parking_events db -> ev_timestamp r = SText (isoformat de) ->
  r ∈ zone_window db now_us <-> date_le (day_before now_us) de.
Proof.
  intros Hn Hde Hr Hts. unfold zone_window.
  rewrite list_elem_of_filter, Hts, iso_after_cutoff; [naive_solver| |done].
  apply datetime_of_us_date_ok. unfold us_per_day in *. lia.
Qed.

(** The "last 24 hours" of [get_zone_statistics] reach back to the
    start of the previous day: at 23:00 an event stored 47 hours earlier
    is still counted. *)
Theorem zone_statistics_counts_47h_old_event :
  isoformat demo_event_time = "2024-01-02T00:00:00" /\
  demo_events = Ok (mkParkingDatabase [demo_event_row] 1 [] 0) /\
  get_zone_statistics (mkParkingDatabase [demo_event_row] 1 [] 0) demo_now =
    [(SText "A", 1%nat, 0%nat, 1%nat)].
Proof. split_and!; vm_compute; reflexivity. Qed.

Lemma zone_window_by_date_witness :
  (demo_event_row ∈ zone_window (mkParkingDatabase [demo_event_row] 1 [] 0) demo_now <->
   date_le (day_before demo_now) demo_event_time).
Proof.
  apply zone_window_by_date.
  - unfold demo_now, us_per_day, us_per_hour. lia.
  - unfold date_fields_ok. vm_compute. split_and!; try reflexivity; discriminate.
  - apply list_elem_of_In. left. reflexivity.
  - reflexivity.
Defined.

(** C25. [get_zone_statistics] lists each zone of the window once, its
    occupied and free counts never exceed its total, every total is
    positive, and the totals add up to the events of the window. *)
Theorem zone_statistics_counts db now_us :
  let stats := get_zone_statistics db now_us in
  NoDup (map (fun row => row.1.1.1) stats) /\
  sum_list (map (fun row => row.2) stats) = length (zone_window db now_us) /\
  Forall (fun row => row.1.1.2 + row.1.2 <= row.2 /\ 0 < row.2)%nat stats.
Proof.
  cbn zeta. unfold get_zone_statistics. set (rows := zone_window db now_us).
  split; [|split]; rewrite ?map_map.
  - assert (Hm : forall K, map (fun z => (zone_row rows z).1.1.1) K = K)
      by (intros K; induction K as [|a K IH]; [done|]; cbn [map]; by rewrite zone_row_fst, IH).
    rewrite Hm. apply NoDup_remove_dups.
  - cbn [zone_row snd]. rewrite (sum_group_counts ev_zone) by apply NoDup_remove_dups.
    f_equal. apply filter_all. intros r Hr.
    apply elem_of_remove_dups, list_elem_of_In, in_map, list_elem_of_In, Hr.
  - apply Forall_forall. intros row Hrow. apply list_elem_of_In, in_map_iff in Hrow as (z & <- & Hz).
    apply list_elem_of_In, elem_of_remove_dups, list_elem_of_In, in_map_iff in Hz as (r & <- & Hr).
    cbn [zone_row fst snd]. split.
    + apply length_filter_disjoint. intros x.
      destruct (ev_status x); simpl; [done..|]. rewrite !String.eqb_eq. by intros ->.
    + apply (length_pos_elem_of _ r), list_elem_of_filter. by rewrite list_elem_of_In.
Qed.

(** [get_statistics_by_hour] raises [TypeError] (from [round(None, 2)])
    exactly when some hour has rows and none of them has an
    [occupancy_rate]; it raises nothing else. *)
Lemma hourly_statistics_type_error db :
  (forall e, get_statistics_by_hour db = Raise e -> e = TypeError) /\
  (get_statistics_by_hour db = Raise TypeError <->
   exists h, (exists r, r ∈ hourly_stats db /\ hour_of r = Some h) /\
     forall r, r ∈ hourly_stats db -> hour_of r = Some h -> hs_occupancy_rate r = SNull).
Proof.
  unfold get_statistics_by_hour.
  assert (He : forall e, py_map (hour_row (hourly_stats db))
      (merge_sort Z.le (remove_dups (omap hour_of (hourly_stats db)))) = Raise e -> e = TypeError).
  { intros e (h & _ & Hr%hour_row_raise)%py_map_raise. by destruct Hr. }
  split; [done|]. split.
  - intros (h & Hh%elem_of_hours & [_ Hn]%hour_row_raise)%py_map_raise. eauto.
  - intros (h & Hh & Hn). destruct (py_map_raise_2 (hour_row (hourly_stats db))
      (merge_sort Z.le (remove_dups (omap hour_of (hourly_stats db)))) h TypeError)
      as [e E]; [by apply elem_of_hours | by apply hour_row_raise |].
    by rewrite E, (He e E).
Qed.

(** C27. When every snapshot has an integer hour (as [insert_hourly_stat]
    writes them), a successful [get_statistics_by_hour] lists the hours in
    strictly increasing order and its sample counts add up to the number of
    snapshots. *)
Theorem hourly_statistics_ok db res :
  (forall r, r ∈ hourly_stats db -> exists h, hs_hour r = SInt h) ->
  get_statistics_by_hour db = Ok res ->
  StronglySorted Z.lt (map (fun row => row.1.1) res) /\
  sum_list (map (fun row => row.2) res) = length (hourly_stats db).
Proof.
  intros Hint E. unfold get_statistics_by_hour in E. apply py_map_ok in E.
  set (rows := hourly_stats db) in *. set (K := remove_dups (omap hour_of rows)) in *.
  assert (Hres : map (fun row => row.1.1) res = merge_sort Z.le K /\
    map (fun row => row.2) res = map (fun h => length (filter (fun r => hour_of r = Some h) rows))
                                     (merge_sort Z.le K)).
  { induction E as [|h row hs rs Hrow _ IH]; [done|].
    apply hour_row_ok in Hrow as [Hh Hl]. destruct IH as [IH1 IH2]. simpl. by rewrite Hh, Hl, IH1, IH2. }
  destruct Hres as [-> ->]. split.
  - apply StronglySorted_le_lt; [rewrite merge_sort_Permutation; apply NoDup_remove_dups|].
    apply StronglySorted_merge_sort; [intros x y z; lia | intros x y; lia].
  - rewrite (Permutation_map _ (merge_sort_Permutation Z.le K)).
    rewrite <-(map_map Some (fun z => length (filter (fun r => hour_of r = z) rows))).
    rewrite (sum_group_counts hour_of) by (apply NoDup_map_inj; [apply _ | apply NoDup_remove_dups]).
    f_equal. apply filter_all. intros r Hr. destruct (Hint r Hr) as [h Hh].
    assert (Hr' : hour_of r = Some h) by (unfold hour_of; by rewrite Hh). rewrite Hr'.
    apply list_elem_of_In, in_map, list_elem_of_In, elem_of_remove_dups, list_elem_of_omap. eauto.
Qed.

Lemma hourly_statistics_ok_witness :
  get_statistics_by_hour demo_snapshots = Ok [(9, 2500#100, 1%nat); (14, 6250#100, 2%nat)] /\
  StronglySorted Z.lt (map (fun row => row.1.1) [(9, 2500#100, 1%nat); (14, 6250#100, 2%nat)]) /\
  sum_list (map (fun row => row.2) [(9, 2500#100, 1%nat); (14, 6250#100, 2%nat)]) =
    length (hourly_stats demo_snapshots).
Proof.
  assert (E : get_statistics_by_hour demo_snapshots = Ok [(9, 2500#100, 1%nat); (14, 6250#100, 2%nat)])
    by (vm_compute; reflexivity).
  split; [exact E|]. apply (hourly_statistics_ok demo_snapshots _); [|exact E].
  intros r Hr. apply list_elem_of_In in Hr. destruct Hr as [<-|[<-|[<-|[]]]]; eexists; reflexivity.
Defined.

End Queries.
