(* ===== verification/Broker.v ===== *)
(** * The MQTT broker between the two programs, and the backend's
    [on_connect]

    The broker (not code of the repository) keeps, per topic, the last
    message published with [retain=True], and forwards every publish to
    the subscriptions whose filter matches the topic; a new subscription
    first receives the retained messages its filter matches. Topic filters
    follow MQTT: levels separated by [/], [+] for one level, [#] for the
    rest (and the parent level). The sensor publishes every status and
    summary with [retain=True]; the backend's [on_connect] subscribes to
    [parking/#] when the connection succeeded. One subscriber, the
    backend, is modelled, with the messages waiting for its network loop
    in [inbox]. A retained message with an empty payload (which clears
    the topic) never occurs, since every payload is a JSON dict; QoS 1
    redelivery is not modelled. *)

From Stdlib Require Import Ascii.
From stdpp Require Import gmap.
From S2P Require Import Prelude PyModel Sensor Simulator Database Backend.

Open Scope Z_scope.
Open Scope parking_scope.

Module Broker.
Import Sensor Simulator Database Backend.

(** The levels of a topic or filter. *)
Fixpoint split_levels_from (s : string) (cur : string) : list string :=
  match s with
  | EmptyString => [cur]
  | String c rest =>
      if Ascii.eqb c "/"%char then cur :: split_levels_from rest ""
      else split_levels_from rest (String.append cur (String c ""))
  end.

Definition split_levels (s : string) : list string := split_levels_from s "".

Fixpoint match_levels (f t : list string) : bool :=
  match f, t with
  | ["#"], _ => true
  | "+" :: f', _ :: t' => match_levels f' t'
  | x :: f', y :: t' => String.eqb x y && match_levels f' t'
  | [], [] => true
  | _, _ => false
  end.

(** An MQTT topic filter matches a topic name. *)
Definition topic_matches (filter topic : string) : bool :=
  match_levels (split_levels filter) (split_levels topic).

Record Broker := mkBroker {
  retained : gmap string PyVal;
  subscriptions : list string;
  inbox : list (string * Payload)
}.

Definition matches_any (subs : list string) (t : string) : bool :=
  existsb (fun f => topic_matches f t) subs.

(** A message the sensor's client handed over. *)
Definition broker_publish (br : Broker) (m : Message) : Broker :=
  mkBroker (if msg_retain m then <[msg_topic m := msg_payload m]> (retained br) else retained br)
    (subscriptions br)
    (if matches_any (subscriptions br) (msg_topic m)
     then inbox br ++ [(msg_topic m, Utf8Json (msg_payload m))] else inbox br).

Definition publish_all (br : Broker) (msgs : list Message) : Broker :=
  fold_left broker_publish msgs br.

(** [client.subscribe(filter)]: the retained messages the filter matches
    are sent first, in the broker's order. *)
Definition broker_subscribe (br : Broker) (flt : string) : Broker :=
  mkBroker (retained br) (subscriptions br ++ [flt])
    (inbox br ++ map (fun tv => (tv.1, Utf8Json tv.2))
                   (filter (fun tv => topic_matches flt tv.1 = true) (map_to_list (retained br)))).

(** [MQTTBackend.on_connect]: subscribe to [parking/#] when [rc == 0]. *)
Definition on_connect (rc : Z) (br : Broker) : Broker :=
  if rc =? 0 then broker_subscribe br "parking/#" else br.

(** The backend's network loop handing every waiting message to
    [on_message]. *)
Definition pump (b : MQTTBackend) (br : Broker) : MQTTBackend * Broker :=
  (deliver_all b (inbox br), mkBroker (retained br) (subscriptions br) []).

(** A backend process started over the database file: [__init__], then
    [connect()] with a successful connection, then its loop. *)
Definition backend_start (db : ParkingDatabase) (c : Clock) (br : Broker) : MQTTBackend * Broker :=
  pump (MQTTBackend_init db c) (on_connect 0 (mkBroker (retained br) [] [])).

(** The last payload retained for [t] by a sequence of publishes. *)
Definition last_retained (msgs : list Message) (t : string) : option PyVal :=
  fold_left (fun acc m => if msg_retain m && String.eqb (msg_topic m) t then Some (msg_payload m) else acc)
    msgs None.



(** ** Lemmas *)

Lemma split_levels_parking rest :
  split_levels (String.append "parking/" rest) = "parking" :: split_levels rest.
Proof. reflexivity. Qed.

Lemma topic_matches_parking rest : topic_matches "parking/#" (String.append "parking/" rest) = true.
Proof. unfold topic_matches. rewrite split_levels_parking. reflexivity. Qed.

Lemma sensor_topic i z b :
  topic (set_occupied (ParkingSensor_init i z) b) =
  String.append "parking/" (String.append z (String.append "/place_" (pretty i))).
Proof. unfold set_occupied, ParkingSensor_init. cbn [topic String.concat]. by rewrite !str_app_nil_l. Qed.

Lemma sensor_topic_not_summary i z b : topic (set_occupied (ParkingSensor_init i z) b) <> summary_topic.
Proof.
  rewrite sensor_topic. intros H. apply (f_equal String.length) in H.
  rewrite !string_length_append in H. pose proof (pretty_Z_nonempty i).
  destruct (pretty i); [done|]. simpl in H. lia.
Qed.


Lemma last_retained_from msgs t acc :
  fold_left (fun acc m => if msg_retain m && String.eqb (msg_topic m) t then Some (msg_payload m) else acc)
    msgs acc =
  match last_retained msgs t with Some v => Some v | None => acc end.
Proof.
  unfold last_retained. revert acc. induction msgs as [|m msgs IH]; intros acc; [done|]. simpl.
  destruct (_ && _); [rewrite (IH (Some (msg_payload m))) | rewrite (IH acc)];
    by destruct (fold_left _ msgs None).
Qed.

Lemma last_retained_cons m msgs t :
  last_retained (m :: msgs) t =
  match last_retained msgs t with
  | Some v => Some v
  | None => if msg_retain m && String.eqb (msg_topic m) t then Some (msg_payload m) else None
  end.
Proof. unfold last_retained at 1. simpl. by rewrite last_retained_from. Qed.

(** ** Topics and retained messages *)

(** The backend's subscription [parking/#] matches every topic the
    simulator publishes on, and a sensor's topic is never the summary
    topic, so every status reaches the event branch of [on_message]. *)
Theorem subscription_covers_simulator i z b :
  topic_matches "parking/#" (topic (set_occupied (ParkingSensor_init i z) b)) = true /\
  topic_matches "parking/#" summary_topic = true /\
  topic (set_occupied (ParkingSensor_init i z) b) <> summary_topic.
Proof.
  split_and!; [rewrite sensor_topic; apply topic_matches_parking | reflexivity | apply sensor_topic_not_summary].
Qed.

(** The broker retains, for each topic, the payload of the last message
    published on it with [retain=True], or what it retained before. *)
Lemma retained_last br msgs t :
  retained (publish_all br msgs) !! t =
  match last_retained msgs t with Some v => Some v | None => retained br !! t end.
Proof.
  unfold publish_all. revert br. induction msgs as [|m msgs IH]; intros br; [done|]. simpl.
  rewrite IH, last_retained_cons.
  destruct (last_retained msgs t); [done|]. unfold broker_publish. simpl.
  destruct (msg_retain m); simpl; [|done].
  destruct (String.eqb_spec (msg_topic m) t) as [<-|]; [by rewrite lookup_insert_eq | by rewrite lookup_insert_ne].
Qed.



End Broker.
