(* ===== verification/Api.v ===== *)
(** * The Flask REST API of [src/backend/backend_server.py]

    The five routes over the shared [ParkingDatabase]: each view calls one
    query and wraps its answer in [jsonify({"success": True, ...})]. An
    exception escaping a view becomes Flask's [500 Internal Server Error]
    page; a path without a rule is a [404]. [/api/events] reads its limit
    with werkzeug's [request.args.get('limit', 50, type=int)]: the first
    value of the argument, passed to Python's [int()], the default when
    the argument is missing or [int()] raises [ValueError]. [int()] on a
    string is modelled for ASCII: surrounding whitespace, an optional sign,
    decimal digits with single underscores between them, and CPython's
    limit of 4300 digits. *)

From Stdlib Require Import Ascii.
From S2P Require Import Prelude PyModel Sensor Database Backend Queries.

Open Scope Z_scope.
Open Scope parking_scope.

Module Api.
Import Sensor Database Backend Queries.

(** An HTTP answer: the status code and the JSON body, if any. *)
Record Response := mkResponse { status_code : Z; body : option PyVal }.

(** [jsonify(v)] *)
Definition jsonify (v : PyVal) : Response := mkResponse 200 (Some v).

(** A view that raises: Flask's HTML error page. *)
Definition internal_error : Response := mkResponse 500 None.

(** No rule matches the path. *)
Definition not_found : Response := mkResponse 404 None.

Definition handle (r : PyResult PyVal) : Response :=
  match r with Ok v => jsonify v | Raise _ => internal_error end.

(** A column value as [sqlite3] returns it to Python. *)
Definition sql_value_py (v : SqlValue) : PyVal :=
  match v with
  | SNull => VNone
  | SInt z => VInt z
  | SReal q => VFloat q
  | SText s => VStr s
  end.

(** ** [int()] on a string *)

(** The ASCII characters [str.isspace()] accepts. *)
Definition is_py_space (c : Ascii.ascii) : bool :=
  let n := Ascii.nat_of_ascii c in ((9 <=? n) && (n <=? 13))%nat || ((28 <=? n) && (n <=? 32))%nat.

Fixpoint lstrip (s : string) : string :=
  match s with
  | String c rest => if is_py_space c then lstrip rest else s
  | EmptyString => EmptyString
  end.

Fixpoint rstrip (s : string) : string :=
  match s with
  | String c rest =>
      let rest' := rstrip rest in
      if String.eqb rest' "" && is_py_space c then "" else String c rest'
  | EmptyString => EmptyString
  end.

Definition digit_value (c : Ascii.ascii) : option Z :=
  let n := Ascii.nat_of_ascii c in
  if ((48 <=? n) && (n <=? 57))%nat then Some (Z.of_nat n - 48) else None.

(** Decimal digits with single underscores between them, read from the
    left into [acc]; [n] counts the digits, [need] says that a digit must
    come next. *)
Fixpoint parse_digits (s : string) (acc : Z) (n : nat) (need : bool) : option (Z * nat) :=
  match s with
  | EmptyString => if need then None else Some (acc, n)
  | String c rest =>
      match digit_value c with
      | Some d => parse_digits rest (10 * acc + d) (S n) false
      | None => if Ascii.eqb c "_"%char && negb need then parse_digits rest acc n true else None
      end
  end.

(** CPython's [sys.get_int_max_str_digits()] default. *)
Definition max_str_digits : nat := 4300.

Definition parse_unsigned (s : string) : option Z :=
  match parse_digits s 0 0 true with
  | Some (v, n) => if (n <=? max_str_digits)%nat then Some v else None
  | None => None
  end.

(** [int(s)]: [None] is [ValueError]. *)
Definition py_int (s : string) : option Z :=
  match rstrip (lstrip s) with
  | String c rest =>
      if Ascii.eqb c "-" then option_map Z.opp (parse_unsigned rest)
      else if Ascii.eqb c "+" then parse_unsigned rest
      else parse_unsigned (String c rest)
  | EmptyString => parse_unsigned ""
  end.

(** [request.args.get(key, default, type=int)]: the first value given for
    [key]; the default when there is none or [int()] rejects it. *)
Definition args_get_int (args : list (string * string)) (key : string) (default : Z) : Z :=
  match List.find (fun kv => String.eqb kv.1 key) args with
  | None => default
  | Some (_, v) => match py_int v with Some z => z | None => default end
  end.

(** ** The views *)

(** [index()] *)
Definition index : Response :=
  jsonify (VDict [("message", VStr "🅿️ Parking IoT Backend API");
                  ("version", VStr "1.0");
                  ("endpoints", VDict [("/api/events", VStr "Recent parking events");
                                       ("/api/stats/hourly", VStr "Hourly statistics");
                                       ("/api/stats/zones", VStr "Statistics by zone");
                                       ("/api/health", VStr "Health check")])]).

(** The dict of one row of [get_recent_events]. *)
Definition event_py (row : SqlValue * SqlValue * SqlValue * SqlValue) : PyVal :=
  let '(ts, zone, place_id, status) := row in
  VDict [("timestamp", sql_value_py ts); ("zone", sql_value_py zone);
         ("place_id", sql_value_py place_id); ("status", sql_value_py status)].

(** [get_events()] *)
Definition get_events (db : ParkingDatabase) (args : list (string * string)) : Response :=
  handle (let limit := args_get_int args "limit" 50 in
          let? rows := get_recent_events db limit in
          let events := map event_py rows in
          Ok (VDict [("success", VBool true); ("count", VInt (Z.of_nat (length events)));
                     ("events", VList events)])).

(** The dict of one row of [get_statistics_by_hour]. *)
Definition hour_stat_py (row : Z * Q * nat) : PyVal :=
  let '(h, avg, n) := row in
  VDict [("hour", VInt h); ("avg_occupancy", VFloat avg); ("samples", VInt (Z.of_nat n))].

(** [get_hourly_stats()] *)
Definition get_hourly_stats (db : ParkingDatabase) : Response :=
  handle (let? stats := get_statistics_by_hour db in
          Ok (VDict [("success", VBool true); ("statistics", VList (map hour_stat_py stats))])).

(** The dict of one row of [get_zone_statistics]. *)
Definition zone_stat_py (row : SqlValue * nat * nat * nat) : PyVal :=
  let '(zone, o, f, t) := row in
  VDict [("zone", sql_value_py zone); ("occupied_events", VInt (Z.of_nat o));
         ("free_events", VInt (Z.of_nat f)); ("total_events", VInt (Z.of_nat t))].

(** [get_zone_stats()]: SQLite's ['now'] is the UTC clock. *)
Definition get_zone_stats (db : ParkingDatabase) (c : Clock) : Response * Clock :=
  let '(now_us, c') := clock_read c in
  (jsonify (VDict [("success", VBool true);
                   ("zones", VList (map zone_stat_py (get_zone_statistics db now_us)))]), c').

(** [health_check()] *)
Definition health_check (c : Clock) : Response * Clock :=
  let '(now, c') := datetime_now c in
  (jsonify (VDict [("success", VBool true); ("status", VStr "healthy");
                   ("database", VStr "connected"); ("mqtt", VStr "connected");
                   ("timestamp", VStr (isoformat now))]), c').

(** A [GET] request: its path and its query arguments, in order. *)
Record Request := mkRequest { req_path : string; req_args : list (string * string) }.

(** The URL map of [app]. *)
Definition dispatch (db : ParkingDatabase) (c : Clock) (r : Request) : Response * Clock :=
  if String.eqb (req_path r) "/" then (index, c)
  else if String.eqb (req_path r) "/api/events" then (get_events db (req_args r), c)
  else if String.eqb (req_path r) "/api/stats/hourly" then (get_hourly_stats db, c)
  else if String.eqb (req_path r) "/api/stats/zones" then get_zone_stats db c
  else if String.eqb (req_path r) "/api/health" then health_check c
  else (not_found, c).


(** ** Lemmas *)









(** ** Properties *)


(** The answer of [get_events] for the limit that [args.get] read. *)
Lemma get_events_limit db args limit :
  args_get_int args "limit" 50 = limit ->
  get_events db args =
  if (int64_min <=? limit) && (limit <=? int64_max) then
    jsonify (VDict [("success", VBool true);
                    ("count", VInt (Z.of_nat (if limit <? 0 then length (parking_events db)
                                              else Nat.min (Z.to_nat limit) (length (parking_events db)))));
                    ("events", VList (map event_py (select_recent db limit)))])
  else internal_error.
Proof.
  intros Hl. unfold get_events. rewrite Hl.
  pose proof (get_recent_events_spec db limit) as Hs.
  destruct (get_recent_events db limit) as [rows|e] eqn:E; simpl.
  - destruct Hs as [Hr Hlen]. unfold get_recent_events, bind_param, py_bind in E.
    destruct (Z.leb_spec int64_min limit), (Z.leb_spec limit int64_max); try lia. simpl in *.
    injection E as <-. by rewrite length_map, Hlen.
  - destruct Hs as [_ Hr]. by destruct (Z.leb_spec int64_min limit), (Z.leb_spec limit int64_max); try lia.
Qed.

(** C23. [GET /api/events]: the limit is the first [limit] argument read by
    [int()], 50 when it is missing or not an integer; a limit beyond 64 bits
    is a [500] (the [OverflowError] of the parameter binding); otherwise the
    answer lists the newest [min(limit, n)] events, or all [n] for a
    negative limit, and its [count] is their number. *)
Theorem get_events_spec db args :
  let limit := args_get_int args "limit" 50 in
  get_events db args =
  if (int64_min <=? limit) && (limit <=? int64_max) then
    jsonify (VDict [("success", VBool true);
                    ("count", VInt (Z.of_nat (if limit <? 0 then length (parking_events db)
                                              else Nat.min (Z.to_nat limit) (length (parking_events db)))));
                    ("events", VList (map event_py (select_recent db limit)))])
  else internal_error.
Proof. intros limit. by apply get_events_limit. Qed.


(** C26. [GET /api/stats/hourly] fails with a [500] exactly when some hour
    has snapshots and none of them has an [occupancy_rate] ([round(None,
    2)] raises [TypeError]); otherwise it answers [200]. *)
Theorem get_hourly_stats_error db :
  (status_code (get_hourly_stats db) = 500 <->
   exists h, (exists r, r ∈ hourly_stats db /\ hour_of r = Some h) /\
     forall r, r ∈ hourly_stats db -> hour_of r = Some h -> hs_occupancy_rate r = SNull) /\
  (status_code (get_hourly_stats db) = 500 \/ status_code (get_hourly_stats db) = 200).
Proof.
  destruct (hourly_statistics_type_error db) as [Ht Hiff]. unfold get_hourly_stats.
  destruct (get_statistics_by_hour db) as [stats|e] eqn:E; simpl.
  - split; [|by right]. rewrite <-Hiff. split; [done | congruence].
  - split; [|by left]. rewrite <-Hiff. rewrite (Ht e eq_refl). done.
Qed.

(** C29. End to end: the status [get_status] builds for a sensor,
    published on the sensor's topic and delivered to a running backend, is
    what [GET /api/events?limit=1] answers next: one event, with the
    sensor's timestamp, zone, id as [place_id] and status. *)
Theorem status_reaches_api s c g b :
  topic s <> summary_topic -> loop_running b = true -> int64_min <= sensor_id s <= int64_max ->
  let '(payload, _, _) := get_status s c g in
  let b' := deliver b (topic s, Utf8Json payload) in
  fst (dispatch (database b') (Backend.clock b') (mkRequest "/api/events" [("limit", "1")])) =
  jsonify (VDict [("success", VBool true); ("count", VInt 1);
    ("events", VList [VDict [("timestamp", VStr (isoformat (fst (datetime_now c))));
                             ("zone", VStr (zone s)); ("place_id", VInt (sensor_id s));
                             ("status", VStr (status_str (is_occupied s)))]])]).
Proof.
  intros Ht Hr Hid. unfold get_status.
  destruct (datetime_now c) as [now c'] eqn:Ec. destruct (confidence_draw g) as [conf g'].
  unfold deliver. rewrite Hr. simpl fst. simpl snd.
  rewrite (on_message_event _ _ _ (zone s) (sensor_id s) (status_str (is_occupied s)) (isoformat now)
             (VFloat (py_round2 conf)) (SReal (py_round2 conf))) by done.
  unfold dispatch. simpl. unfold get_events, get_recent_events, select_recent, bind_param, py_bind. simpl.
  rewrite reverse_snoc. reflexivity.
Qed.


(** [/api/health] reports ["mqtt": "connected"] whatever the state of
    the client: after a payload that is not UTF-8 has ended the network
    loop, the backend no longer ingests anything, yet the health check
    still answers [connected]. *)
Theorem health_ignores_stopped_loop b t c :
  loop_running b = true ->
  let b' := deliver b (t, NonUtf8) in
  loop_running b' = false /\
  fst (dispatch (database b') c (mkRequest "/api/health" [])) =
  jsonify (VDict [("success", VBool true); ("status", VStr "healthy");
                  ("database", VStr "connected"); ("mqtt", VStr "connected");
                  ("timestamp", VStr (isoformat (fst (datetime_now c))))]).
Proof.
  intros Hr. unfold deliver. rewrite Hr. simpl. split; [done|].
  unfold dispatch, health_check. simpl. by destruct (datetime_now c).
Qed.

(** Every answer of the URL map is well formed: [200] with a JSON
    body, or a [404] or [500] without one; a [404] only for a path that has
    no rule. *)
Theorem dispatch_response_wf db c r :
  let resp := fst (dispatch db c r) in
  (status_code resp = 200 /\ is_Some (body resp)) \/
  (status_code resp = 500 /\ body resp = None) \/
  (status_code resp = 404 /\ body resp = None /\
   ~ req_path r ∈ ["/"; "/api/events"; "/api/stats/hourly"; "/api/stats/zones"; "/api/health"]).
Proof.
  assert (Hh : forall x, let resp := handle x in
    (status_code resp = 200 /\ is_Some (body resp)) \/ (status_code resp = 500 /\ body resp = None))
    by (intros [v|e]; simpl; [left; eauto | right; auto]).
  unfold dispatch, get_events, get_hourly_stats, get_zone_stats, health_check.
  repeat match goal with |- context [String.eqb ?a ?b] => destruct (String.eqb_spec a b) end;
    try match goal with |- context [handle ?x] => destruct (Hh x); by auto end;
    try (destruct (clock_read c)); try (destruct (datetime_now c));
    try (left; split; [reflexivity | eexists; reflexivity]).
  right; right. simpl. split_and!; [done..|]. rewrite !elem_of_cons, elem_of_nil. naive_solver.
Qed.

(** ** Witnesses *)


Lemma status_reaches_api_witness :
  let s := ParkingSensor_init 1 "Zone_A" in
  let c := mkClock 1704067200000000 0 (fun _ => 0%N) 0 in
  let g := mkRng (fun _ => 0) 0 (fun _ => true) 0 in
  topic s <> summary_topic /\ loop_running boundary_backend = true /\
  int64_min <= sensor_id s <= int64_max /\
  let '(payload, _, _) := get_status s c g in
  let b' := deliver boundary_backend (topic s, Utf8Json payload) in
  fst (dispatch (database b') (Backend.clock b') (mkRequest "/api/events" [("limit", "1")])) =
  jsonify (VDict [("success", VBool true); ("count", VInt 1);
    ("events", VList [VDict [("timestamp", VStr (isoformat (fst (datetime_now c))));
                             ("zone", VStr (zone s)); ("place_id", VInt (sensor_id s));
                             ("status", VStr (status_str (is_occupied s)))]])]).
Proof.
  intros s c g. split_and!; [vm_compute; discriminate | reflexivity | unfold int64_min; simpl; lia | unfold int64_max; simpl; lia |].
  apply status_reaches_api; [vm_compute; discriminate | reflexivity | unfold int64_min, int64_max; simpl; lia].
Defined.


End Api.
