(* ===== verification/System.v ===== *)
(** * The two programs and the broker together

    The sensor process, the broker and the backend process run
    concurrently; the only links are the broker and the database file. A
    [World] holds the state of each: the [ParkingSystem] of the sensor
    process (its client's [outbox] is every message [client.publish]
    accepted, in order), how many of them the broker has received, the
    [Broker], and the [MQTTBackend] with its database. [sys_step] is one
    step of one of them, in any interleaving: an iteration of the
    simulator's [while True] loop ([tick], then [time.sleep(2)]; the
    duration test of [run_simulation()] never breaks), the broker
    receiving the next message of the sensor's client, or the backend's
    network loop handing the first waiting message to [on_message].
    [sys_step_r] adds a restart of the backend process:
    [start_backend] over the same database file, whose
    [MQTTBackend.connect] may raise (the loop is then never started) or
    get any return code from the broker. [world_step] is the same
    relation as an interpreter over [Action]s. *)

From stdpp Require Import gmap.
From S2P Require Import Prelude PyModel Sensor Simulator Database Backend Broker Api.

Open Scope Z_scope.
Open Scope parking_scope.

Module System.
Import Sensor Simulator Database Backend Broker Api.

(** [MQTTBackend.connect()]: [client.connect] raises, and the exception
    is printed before [loop_start] ([None]); or it returns, the network
    loop starts and calls [on_connect] with the broker's return code. *)
Definition connect (res : option Z) (b : MQTTBackend) (br : Broker) : MQTTBackend * Broker :=
  match res with
  | None => (mkMQTTBackend (database b) (last_hourly_save b) (Backend.clock b) false, br)
  | Some rc => (b, on_connect rc br)
  end.

(** [start_backend()] in a new process: the module-level
    [db = ParkingDatabase(DB_NAME)] (the tables exist already or are
    created empty) and [mqtt_backend = MQTTBackend(db)], then
    [mqtt_backend.connect()]. The broker forgets the session of an
    earlier backend process (a clean session): its subscription and the
    messages still waiting for it. [app.run] then answers requests with
    [Api.dispatch] over the same database. *)
Definition start_backend (res : option Z) (db : ParkingDatabase) (c : Clock) (br : Broker)
  : MQTTBackend * Broker :=
  connect res (MQTTBackend_init db c) (mkBroker (retained br) [] []).

Record World := mkWorld {
  sim : ParkingSystem;
  forwarded : nat;
  broker : Broker;
  backend : MQTTBackend
}.

(** One iteration of [while True] in [run_simulation()], as the
    [__main__] block calls it: [tick], [time.sleep(2)], and the duration
    test, false for [duration_seconds=None]. *)
Definition sim_iteration (sys : ParkingSystem) : PyResult ParkingSystem :=
  match tick sys with
  | Ok (_, sys1) => Ok (snd (after_sleep None 0 sys1))
  | Raise e => Raise e
  end.

Inductive sys_step : World -> World -> Prop :=
  | step_tick w sim' :
      sim_iteration (sim w) = Ok sim' ->
      sys_step w (mkWorld sim' (forwarded w) (broker w) (backend w))
  | step_forward w m :
      outbox (sim w) !! forwarded w = Some m ->
      sys_step w (mkWorld (sim w) (S (forwarded w)) (broker_publish (broker w) m) (backend w))
  | step_deliver w m rest :
      loop_running (backend w) = true -> inbox (broker w) = m :: rest ->
      sys_step w (mkWorld (sim w) (forwarded w)
                    (mkBroker (retained (broker w)) (subscriptions (broker w)) rest)
                    (deliver (backend w) m)).

(** A restart of the backend process with the connection result [res]
    and a clock [c]. *)
Definition restart (res : option Z) (c : Clock) (w : World) : World :=
  let '(b, br) := start_backend res (database (backend w)) c (broker w) in
  mkWorld (sim w) (forwarded w) br b.

Inductive sys_step_r : World -> World -> Prop :=
  | step_run w w' : sys_step w w' -> sys_step_r w w'
  | step_restart w res c : sys_step_r w (restart res c w).

(** Both processes started: the backend first, over the database file
    [db], with an empty broker; the sensor process in the state [sim0]. *)
Definition world_init (res : option Z) (sim0 : ParkingSystem) (db : ParkingDatabase) (c : Clock)
  : World :=
  let '(b, br) := start_backend res db c (mkBroker ∅ [] []) in mkWorld sim0 0 br b.

(** ** The same steps as an interpreter *)

Inductive Action := ATick | AForward | ADeliver | ARestart (res : option Z) (c : Clock).

Definition world_step (a : Action) (w : World) : option World :=
  match a with
  | ATick =>
      match sim_iteration (sim w) with
      | Ok sim' => Some (mkWorld sim' (forwarded w) (broker w) (backend w))
      | Raise _ => None
      end
  | AForward =>
      match outbox (sim w) !! forwarded w with
      | Some m => Some (mkWorld (sim w) (S (forwarded w)) (broker_publish (broker w) m) (backend w))
      | None => None
      end
  | ADeliver =>
      match inbox (broker w) with
      | m :: rest =>
          if loop_running (backend w)
          then Some (mkWorld (sim w) (forwarded w)
                       (mkBroker (retained (broker w)) (subscriptions (broker w)) rest)
                       (deliver (backend w) m))
          else None
      | [] => None
      end
  | ARestart res c => Some (restart res c w)
  end.

Fixpoint run_actions (acts : list Action) (w : World) : option World :=
  match acts with
  | [] => Some w
  | a :: rest => match world_step a w with Some w' => run_actions rest w' | None => None end
  end.

Definition no_restart (a : Action) : bool :=
  match a with ARestart _ _ => false | _ => true end.

(** ** What the messages and rows say *)

Definition place (s : ParkingSensor) : Z * string := (sensor_id s, zone s).

(** Sensors built by [ParkingSensor.__init__]: the topic is that of the
    place. *)
Definition fleet_ok (l : list ParkingSensor) : Prop :=
  Forall (fun s => topic s = topic (ParkingSensor_init (sensor_id s) (zone s))) l.

(** The dict [get_status] builds. *)
Definition status_payload (i : Z) (z st ts : string) (conf : Q) : PyVal :=
  VDict [("sensor_id", VInt i); ("zone", VStr z); ("status", VStr st);
         ("timestamp", VStr ts); ("confidence", VFloat conf)].

(** The [(zone, place_id, status)] a stored event should have for a
    message: the fields of a dict on a topic other than the summary's. *)
Definition event_key (t : string) (v : PyVal) : option (SqlValue * SqlValue * SqlValue) :=
  if String.eqb t summary_topic then None
  else match v with
       | VDict kvs =>
           match dict_lookup "zone" kvs, dict_lookup "sensor_id" kvs, dict_lookup "status" kvs with
           | Some (VStr z), Some (VInt i), Some (VStr st) => Some (SText z, SInt i, SText st)
           | _, _, _ => None
           end
       | _ => None
       end.

Definition inbox_key (m : string * Payload) : option (SqlValue * SqlValue * SqlValue) :=
  match m.2 with Utf8Json v => event_key m.1 v | _ => None end.

Definition msg_key (m : Message) : option (SqlValue * SqlValue * SqlValue) :=
  event_key (msg_topic m) (msg_payload m).

Definition row_key (r : EventRow) : SqlValue * SqlValue * SqlValue :=
  (ev_zone r, ev_place_id r, ev_status r).

Section Invariants.
(** The places of the fleet, which no step changes. *)
Variable P : list (Z * string).

(** A message the simulator publishes: a status of one of its places on
    that place's topic, or a summary with the fleet's size. *)
Definition msg_ok (t : string) (v : PyVal) : Prop :=
  (exists i z b ts conf, (i, z) ∈ P /\ t = topic (ParkingSensor_init i z) /\
     v = status_payload i z (status_str b) ts conf) \/
  (t = summary_topic /\ exists o now, (o <= length P)%nat /\ v = summary_payload (length P) o now).

Definition sim_inv (sys : ParkingSystem) : Prop :=
  map place (sensors sys) = P /\ fleet_ok (sensors sys) /\
  Forall (fun m => msg_ok (msg_topic m) (msg_payload m)) (outbox sys).

Definition inbox_ok (l : list (string * Payload)) : Prop :=
  Forall (fun m => exists v, m.2 = Utf8Json v /\ msg_ok m.1 v) l.

Definition retained_ok (br : Broker) : Prop :=
  forall t v, retained br !! t = Some v -> msg_ok t v.

(** An event of one of the places, with a status the sensor sends. *)
Definition row_ok (r : EventRow) : Prop :=
  exists i z b, ev_zone r = SText z /\ ev_place_id r = SInt i /\
    ev_status r = SText (status_str b) /\ (i, z) ∈ P.

(** A snapshot of the whole fleet. *)
Definition hrow_ok (r : HourlyRow) : Prop :=
  exists o, (o <= length P)%nat /\ hs_total_places r = SInt (Z.of_nat (length P)) /\
    hs_occupied r = SInt (Z.of_nat o) /\ hs_free r = SInt (Z.of_nat (length P - o)).

Definition db_ok (db : ParkingDatabase) : Prop :=
  Forall row_ok (parking_events db) /\ Forall hrow_ok (hourly_stats db).

(** What every reachable world satisfies, restarts included. *)
Definition safe_inv (w : World) : Prop :=
  sim_inv (sim w) /\ retained_ok (broker w) /\ inbox_ok (inbox (broker w)) /\
  db_ok (database (backend w)).

(** What every world reachable without a restart satisfies, for a
    database that held the events [ev0] at the start: the backend's new
    events, then the events still waiting in its inbox, are those of the
    messages the broker received, in order. *)
Definition order_inv (ev0 : list EventRow) (w : World) : Prop :=
  sim_inv (sim w) /\ (forwarded w <= length (outbox (sim w)))%nat /\
  subscriptions (broker w) = ["parking/#"] /\ loop_running (backend w) = true /\
  inbox_ok (inbox (broker w)) /\
  exists new, parking_events (database (backend w)) = ev0 ++ new /\
    map row_key new ++ omap inbox_key (inbox (broker w)) =
    omap msg_key (take (forwarded w) (outbox (sim w))).

End Invariants.

(** ** Lemmas *)

(** The interpreter takes the steps of the relation. *)
Lemma world_step_sys a w w' : no_restart a = true -> world_step a w = Some w' -> sys_step w w'.
Proof.
  destruct a as [| | |res c]; simpl; intros Ha; [..|done].
  - destruct (sim_iteration (sim w)) eqn:E; [|done]. intros [= <-]. by constructor.
  - destruct (outbox (sim w) !! forwarded w) eqn:E; [|done]. intros [= <-]. by constructor.
  - destruct (inbox (broker w)) as [|m rest] eqn:E; [done|].
    destruct (loop_running (backend w)) eqn:Er; [|done]. intros [= <-]. by econstructor.
Qed.

Lemma world_step_sys_r a w w' : world_step a w = Some w' -> sys_step_r w w'.
Proof.
  intros H. destruct (no_restart a) eqn:Ha.
  - apply step_run. exact (world_step_sys a w w' Ha H).
  - destruct a; simpl in Ha; try discriminate Ha. injection H as <-. apply step_restart.
Qed.

Lemma run_actions_sys acts w w' :
  forallb no_restart acts = true -> run_actions acts w = Some w' -> star sys_step w w'.
Proof.
  revert w. induction acts as [|a acts IH]; intros w; simpl; [intros _ [= <-]; constructor|].
  intros [Ha Hs]%andb_true_iff. destruct (world_step a w) as [w1|] eqn:E; [|done].
  intros Hr. eapply star_step; [by apply (world_step_sys a) | by apply IH].
Qed.

Lemma run_actions_sys_r acts w w' : run_actions acts w = Some w' -> star sys_step_r w w'.
Proof.
  revert w. induction acts as [|a acts IH]; intros w; simpl; [intros [= <-]; constructor|].
  destruct (world_step a w) as [w1|] eqn:E; [|done].
  intros Hr. eapply star_step; [by apply (world_step_sys_r a) | by apply IH].
Qed.

(** Every step of the relation is a step of the interpreter. *)
Lemma world_step_complete w w' : sys_step_r w w' -> exists a, world_step a w = Some w'.
Proof.
  destruct 1 as [w w' Hs | w res c]; [|by exists (ARestart res c)].
  destruct Hs as [w sim' Hit | w m Hm | w m rest Hr Hib].
  - exists ATick. simpl. by rewrite Hit.
  - exists AForward. simpl. by rewrite Hm.
  - exists ADeliver. simpl. by rewrite Hib, Hr.
Qed.

(** A tick keeps the places and the topics of the fleet. *)
Lemma ticked_places l l' :
  Forall2 ticked l l' -> map place l' = map place l /\ (fleet_ok l -> fleet_ok l').
Proof.
  unfold fleet_ok. induction 1 as [|s s' l l' [(Hid & Hz & Ht) _] _ [IH1 IH2]]; [done|].
  simpl. unfold place at 1 3. rewrite Hid, Hz, IH1. split; [done|].
  intros [Hs Hl]%Forall_cons. constructor; [by rewrite Ht, Hid, Hz | by apply IH2].
Qed.

Lemma status_msg_ok l s m :
  fleet_ok l -> s ∈ l -> status_msg_of s m -> msg_ok (map place l) (msg_topic m) (msg_payload m).
Proof.
  intros Hf Hs (Ht & _ & _ & ts & conf & Hp). left.
  exists (sensor_id s), (zone s), (is_occupied s), ts, conf. split_and!.
  - by apply (elem_of_map_2 place).
  - rewrite Ht. unfold fleet_ok in Hf. rewrite Forall_forall in Hf. by apply Hf.
  - exact Hp.
Qed.

(** A tick appends to the outbox messages of the fleet's places only. *)
Lemma tick_outbox sys c sys' :
  fleet_ok (sensors sys) -> tick sys = Ok (c, sys') ->
  map place (sensors sys') = map place (sensors sys) /\ fleet_ok (sensors sys') /\
  exists new, outbox sys' = outbox sys ++ new /\
    Forall (fun m => msg_ok (map place (sensors sys)) (msg_topic m) (msg_payload m)) new.
Proof.
  intros Hf. unfold tick. rewrite tick_sensors_list.
  pose proof (tick_list_spec (sensors sys) sys) as Hl.
  destruct (tick_list _ _) as [[l' k] sys1].
  destruct Hl as (HF & _ & pub & msgs & Hsub & _ & Hmsgs & _ & Ho).
  destruct (ticked_places _ _ HF) as [Hp Hf'%(fun H => H Hf)].
  assert (Hm : Forall (fun m => msg_ok (map place (sensors sys)) (msg_topic m) (msg_payload m)) msgs).
  { rewrite <-Hp. eapply Forall2_Forall_r; [|exact Hmsgs]. intros [s0 s1] m Hin Hm.
    apply (status_msg_ok l' s1); [done | |done]. eapply elem_of_zip_r, elem_of_sublist; done. }
  simpl. destruct (0 <? k)%nat.
  - destruct (publish_summary _) as [sys2|e] eqn:Hps; [|done]. intros [= _ <-].
    apply publish_summary_ok_frame in Hps as [Hs2 Ho2]. simpl in Hs2, Ho2.
    rewrite Hs2. split_and!; [done..|]. rewrite Ho2, Ho, <-app_assoc. eexists; split; [done|].
    apply Forall_app; split; [done|]. destruct (link_ok _ _); constructor; [|constructor].
    right. split; [done|]. rewrite <-Hp, length_map. eexists _, _. split; [apply count_occupied_le|done].
  - intros [= _ <-]. simpl. split_and!; [done..|]. eauto.
Qed.

Lemma sim_iteration_inv P sys sys' :
  sim_inv P sys -> sim_iteration sys = Ok sys' ->
  sim_inv P sys' /\ exists new, outbox sys' = outbox sys ++ new.
Proof.
  intros (Hp & Hf & Ho). unfold sim_iteration.
  destruct (tick sys) as [[c sys1]|e] eqn:Ht; [|done]. intros [= <-].
  destruct (tick_outbox _ _ _ Hf Ht) as (Hp1 & Hf1 & new & Ho1 & Hnew).
  unfold after_sleep, sim_inv. simpl. subst P.
  split_and!; [done | done | rewrite Ho1; by apply Forall_app | by exists new].
Qed.

(** What [on_message] does with a JSON payload on an event topic and on
    the summary topic, under a running loop. *)
Lemma deliver_event b t v :
  loop_running b = true -> t <> summary_topic ->
  deliver b (t, Utf8Json v) =
  match store_event (database b) v with
  | Ok db' => mkMQTTBackend db' (last_hourly_save b) (Backend.clock b) true
  | Raise _ => b
  end.
Proof.
  intros Hr Ht. unfold deliver, on_message. rewrite Hr. simpl.
  apply String.eqb_neq in Ht. rewrite Ht. by destruct (store_event _ _).
Qed.

Lemma deliver_summary b v :
  loop_running b = true ->
  let b' := deliver b (summary_topic, Utf8Json v) in
  loop_running b' = true /\ parking_events (database b') = parking_events (database b) /\
  (hourly_stats (database b') = hourly_stats (database b) \/
   exists h ts, insert_hourly_stat (database b) h ts v = Ok (database b')).
Proof.
  intros Hr. unfold deliver, on_message. rewrite Hr. simpl.
  destruct (datetime_now (Backend.clock b)) as [now c1].
  destruct (_ =? _); [simpl; auto|].
  destruct (datetime_now c1) as [now2 c2]. destruct (datetime_now c2) as [now3 c3].
  destruct (insert_hourly_stat _ _ _ _) as [db'|e] eqn:Hi; simpl; [|auto].
  split_and!; [done | by apply insert_hourly_stat_tables in Hi as [-> _] | eauto].
Qed.

Lemma store_event_status db i z st ts conf db' :
  store_event db (status_payload i z st ts conf) = Ok db' ->
  hourly_stats db' = hourly_stats db /\
  exists r, parking_events db' = parking_events db ++ [r] /\ row_key r = (SText z, SInt i, SText st).
Proof.
  unfold store_event, status_payload, py_get, py_bind. simpl.
  intros (? & ? & ? & ? & ? & Hts & Hz & Hp & Hst & _ & _ & _ & _ & _ & ->)%insert_event_inv.
  simpl in *. injection Hts as <-. injection Hz as <-. injection Hst as <-.
  destruct (_ && _); [injection Hp as <-|done]. split; [done|]. by eexists.
Qed.

Lemma store_event_status_ok db i z st ts conf :
  int64_min <= i <= int64_max -> exists db', store_event db (status_payload i z st ts conf) = Ok db'.
Proof.
  intros Hi. unfold store_event, status_payload, py_get, py_bind. simpl.
  unfold insert_event, py_bind. simpl.
  destruct (Z.leb_spec int64_min i); [|lia]. destruct (Z.leb_spec i int64_max); [|lia]. by eexists.
Qed.

(** A summary is no event: its [zone] is missing, so the NOT NULL
    constraint rejects it; a status is no snapshot: [data['total_places']]
    raises [KeyError]. *)
Lemma store_event_summary db n o now : exists e, store_event db (summary_payload n o now) = Raise e.
Proof. eexists. reflexivity. Qed.

Lemma insert_hourly_stat_status db h ts i z st ts' conf :
  exists e, insert_hourly_stat db h ts (status_payload i z st ts' conf) = Raise e.
Proof. eexists. reflexivity. Qed.

Lemma insert_hourly_stat_summary db h ts n o now db' :
  insert_hourly_stat db h ts (summary_payload n o now) = Ok db' ->
  parking_events db' = parking_events db /\
  exists r, hourly_stats db' = hourly_stats db ++ [r] /\ hs_total_places r = SInt (Z.of_nat n) /\
    hs_occupied r = SInt (Z.of_nat o) /\ hs_free r = SInt (Z.of_nat (n - o)).
Proof.
  unfold insert_hourly_stat, summary_payload, py_getitem, py_bind. simpl.
  repeat match goal with |- context [if ?c then _ else _] => destruct c end; try done.
  simpl. intros [= <-]. simpl. split; [done|]. by eexists.
Qed.

Lemma status_topic_not_summary i z : topic (ParkingSensor_init i z) <> summary_topic.
Proof. exact (sensor_topic_not_summary i z false). Qed.

Lemma event_key_status i z st ts conf :
  event_key (topic (ParkingSensor_init i z)) (status_payload i z st ts conf) = Some (SText z, SInt i, SText st).
Proof.
  unfold event_key. pose proof (status_topic_not_summary i z) as H. apply String.eqb_neq in H.
  rewrite H. reflexivity.
Qed.

Lemma inbox_key_json t v :
  omap inbox_key [(t, Utf8Json v)] = match event_key t v with Some k => [k] | None => [] end.
Proof. reflexivity. Qed.

Lemma msg_ok_matches P t v : msg_ok P t v -> matches_any ["parking/#"] t = true.
Proof.
  unfold matches_any. simpl. rewrite orb_false_r.
  intros [(i & z & b & ts & conf & _ & -> & _) | (-> & _)]; [|reflexivity].
  change (topic (ParkingSensor_init i z)) with (topic (set_occupied (ParkingSensor_init i z) false)).
  rewrite sensor_topic. apply topic_matches_parking.
Qed.

(** One delivery of a message of the fleet: the loop keeps running, the
    tables keep naming the fleet's places, and the events table grows by
    the message's event when the places' ids fit in 64 bits. *)
Lemma deliver_msg_ok P b t v :
  loop_running b = true -> msg_ok P t v ->
  let b' := deliver b (t, Utf8Json v) in
  loop_running b' = true /\ (db_ok P (database b) -> db_ok P (database b')) /\
  (Forall (fun '(i, _) => int64_min <= i <= int64_max) P ->
   exists rows, parking_events (database b') = parking_events (database b) ++ rows /\
     map row_key rows = omap inbox_key [(t, Utf8Json v)]).
Proof.
  intros Hr [(i & z & st & ts & conf & Hin & -> & ->) | (-> & o & now & Ho & ->)]; cbv zeta;
    rewrite inbox_key_json.
  - rewrite deliver_event by (done || apply status_topic_not_summary).
    rewrite event_key_status.
    destruct (store_event _ _) as [db'|e] eqn:E.
    + apply store_event_status in E as (Hh & r & He & Hk). simpl. split_and!; [done| |].
      * intros [Hev Hhs]. split; [|by rewrite Hh]. rewrite He. apply Forall_app; split; [done|].
        constructor; [|constructor]. unfold row_key in Hk. injection Hk as Hz Hi Hs.
        by exists i, z, st.
      * intros _. exists [r]. by rewrite He, <-Hk.
    + split_and!; [done..|]. intros HP.
      apply (Forall_forall _ _) with (x := (i, z)) in HP as Hi; [|done].
      destruct (store_event_status_ok (database b) i z (status_str st) ts conf Hi) as [db' E'].
      congruence.
  - destruct (deliver_summary b (summary_payload (length P) o now) Hr) as (Hr' & He & Hh).
    split_and!; [done| |].
    + intros [Hev Hhs]. split; [by rewrite He|].
      destruct Hh as [-> | (h & ts & Hi)]; [done|].
      apply insert_hourly_stat_summary in Hi as (_ & r & -> & Ht & Hoc & Hf).
      apply Forall_app; split; [done|]. constructor; [|constructor]. by exists o.
    + intros _. exists []. by rewrite He, app_nil_r.
Qed.

Lemma inbox_ok_publish P br m :
  inbox_ok P (inbox br) -> msg_ok P (msg_topic m) (msg_payload m) ->
  inbox_ok P (inbox (broker_publish br m)).
Proof.
  intros Hi Hm. simpl. destruct (matches_any _ _); [|done].
  apply Forall_app; split; [done|]. constructor; [|constructor]. by exists (msg_payload m).
Qed.

Lemma retained_ok_publish P br m :
  retained_ok P br -> msg_ok P (msg_topic m) (msg_payload m) -> retained_ok P (broker_publish br m).
Proof.
  intros Hr Hm t v. simpl. destruct (msg_retain m); [|apply Hr].
  rewrite lookup_insert_Some. intros [[<- <-] | [_ Hl]]; [done | by apply Hr].
Qed.

(** A backend process started over a database keeps it; it is
    subscribed, if at all, with the retained messages waiting. *)
Lemma start_backend_spec res db c br :
  let '(b, br') := start_backend res db c br in
  database b = db /\ retained br' = retained br /\
  ((loop_running b = true /\ res = Some 0 /\ subscriptions br' = ["parking/#"] /\
    inbox br' = map (fun tv => (tv.1, Utf8Json tv.2))
                  (filter (fun tv => topic_matches "parking/#" tv.1 = true) (map_to_list (retained br)))) \/
   inbox br' = []).
Proof.
  unfold start_backend, connect, MQTTBackend_init. destruct (datetime_now c) as [now c'].
  destruct res as [rc|]; simpl; [|split_and!; auto].
  unfold on_connect. destruct (Z.eqb_spec rc 0) as [->|]; simpl; split_and!; auto.
Qed.

Lemma safe_inv_restart P res c w : safe_inv P w -> safe_inv P (restart res c w).
Proof.
  unfold restart, safe_inv, retained_ok.
  pose proof (start_backend_spec res (database (backend w)) c (broker w)) as Hs.
  destruct (start_backend _ _ _ _) as [b br']. intros (Hsim & Hret & _ & Hdb). cbn [sim broker backend].
  destruct Hs as (-> & -> & Hinb). split_and!; [done..| |done].
  destruct Hinb as [(_ & _ & _ & ->) | ->]; [|constructor].
  apply Forall_forall. intros m Hm. apply list_elem_of_In, in_map_iff in Hm as ([t v] & <- & Hin).
  apply list_elem_of_In, list_elem_of_filter in Hin as [_ Hin]. apply elem_of_map_to_list in Hin.
  exists v. split; [done | by apply Hret].
Qed.

Lemma safe_inv_step P w w' : safe_inv P w -> sys_step_r w w' -> safe_inv P w'.
Proof.
  intros Hw Hs. revert Hw. destruct Hs as [w1 w2 Hst | w1 res c]; [|apply safe_inv_restart].
  destruct Hst as [w sim' Hit | w m Hm | w m rest Hr Hib]; intros (Hsim & Hret & Hin & Hdb); simpl in *.
  - by destruct (sim_iteration_inv _ _ _ Hsim Hit) as [? _].
  - pose proof Hsim as (_ & _ & Ho). pose proof (Forall_lookup_1 _ _ _ _ Ho Hm) as Hok.
    split_and!; [done | by apply retained_ok_publish | by apply inbox_ok_publish | done].
  - rewrite Hib in Hin. destruct m as [t p].
    apply Forall_cons in Hin as [(v & Hp & Hok) Hin]. simpl in Hp, Hok. subst p.
    destruct (deliver_msg_ok P _ t v Hr Hok) as (_ & Hd & _). by split_and!; [..|apply Hd].
Qed.

Lemma order_inv_step P ev0 w w' :
  Forall (fun '(i, _) => int64_min <= i <= int64_max) P ->
  order_inv P ev0 w -> sys_step w w' -> order_inv P ev0 w'.
Proof.
  intros HP Hw Hs. revert Hw. unfold order_inv.
  destruct Hs as [w sim' Hit | w m Hm | w m rest Hr' Hib];
    intros (Hsim & Hf & Hsub & Hr & Hin & new & He & Hk); simpl in *.
  - destruct (sim_iteration_inv _ _ _ Hsim Hit) as [Hsim' [out Ho]].
    rewrite Ho, length_app, take_app_le by done. split_and!; [done | lia | done..| by exists new].
  - pose proof Hsim as (Hp & Hfl & Ho). pose proof (Forall_lookup_1 _ _ _ _ Ho Hm) as Hok.
    assert (Hlt : (forwarded w < length (outbox (sim w)))%nat) by (apply lookup_lt_Some in Hm; done).
    rewrite Hsub, (msg_ok_matches _ _ _ Hok). split_and!; [done | lia | done | done | |].
    + apply Forall_app; split; [done|]. constructor; [|constructor]. by exists (msg_payload m).
    + exists new. split; [done|]. rewrite (take_S_r _ _ m Hm), !omap_app, <-Hk, app_assoc. done.
  - rewrite Hib in Hin, Hk. destruct m as [t p].
    apply Forall_cons in Hin as [(v & Hp & Hok) Hin]. simpl in Hp, Hok. subst p.
    destruct (deliver_msg_ok P _ t v Hr' Hok) as (Hr1 & _ & Hrows). destruct (Hrows HP) as (rows & Hrw & Hkr).
    split_and!; [done..|]. exists (new ++ rows). rewrite Hrw, He, app_assoc. split; [done|].
    rewrite map_app, <-app_assoc, Hkr, <-omap_app. done.
Qed.

Lemma world_init_safe P res sim0 db c :
  sim_inv P sim0 -> db_ok P db -> safe_inv P (world_init res sim0 db c).
Proof.
  unfold world_init, safe_inv, retained_ok.
  pose proof (start_backend_spec res db c (mkBroker ∅ [] [])) as Hs.
  destruct (start_backend _ _ _ _) as [b br]. cbn [sim broker backend].
  destruct Hs as (-> & Hr & Hinb). intros Hsim Hdb. split_and!; [done | | | done].
  - intros t v. rewrite Hr. simpl. by rewrite lookup_empty.
  - destruct Hinb as [(_ & _ & _ & ->) | ->]; [|constructor]. simpl. rewrite map_to_list_empty. constructor.
Qed.

Lemma world_init_order P sim0 db c :
  sim_inv P sim0 -> order_inv P (parking_events db) (world_init (Some 0) sim0 db c).
Proof.
  intros Hsim. unfold world_init, start_backend, connect, MQTTBackend_init.
  destruct (datetime_now c) as [now c']. unfold on_connect, broker_subscribe, order_inv. simpl.
  rewrite map_to_list_empty. simpl. split_and!; [done | lia | done | done | constructor |].
  exists []. by rewrite app_nil_r.
Qed.

(** Every world reachable with restarts keeps the safety invariant. *)
Lemma reachable_safe P res sim0 db c w :
  sim_inv P sim0 -> db_ok P db -> star sys_step_r (world_init res sim0 db c) w -> safe_inv P w.
Proof.
  intros Hsim Hdb Hst. eapply (star_invariant sys_step_r); [ | exact Hst | by apply world_init_safe].
  intros a b Ha Hab. by eapply safe_inv_step.
Qed.

(** The rows [SELECT ... ORDER BY id DESC LIMIT ?] returns are rows of
    the table. *)
Lemma select_recent_sub db limit x :
  x ∈ select_recent db limit -> exists r, r ∈ parking_events db /\ x = event_view r.
Proof.
  unfold select_recent. intros Hx. apply list_elem_of_In, in_map_iff in Hx as (r & <- & Hr).
  exists r. split; [|done]. apply list_elem_of_In in Hr. apply elem_of_reverse.
  destruct (limit <? 0); [done|]. apply elem_of_take in Hr as (i & Hi & _).
  by eapply list_elem_of_lookup_2.
Qed.

(** Delivering, in order, messages of the fleet to a running backend:
    it keeps running and the events table grows by their events. *)
Lemma deliver_all_msgs_ok P b msgs :
  Forall (fun '(i, _) => int64_min <= i <= int64_max) P ->
  loop_running b = true -> inbox_ok P msgs ->
  loop_running (deliver_all b msgs) = true /\
  exists new, parking_events (database (deliver_all b msgs)) = parking_events (database b) ++ new /\
    map row_key new = omap inbox_key msgs.
Proof.
  intros HP. unfold deliver_all. revert b. induction msgs as [|[t p] msgs IH]; intros b Hr Hm; simpl.
  - split; [done|]. exists []. by rewrite app_nil_r.
  - apply Forall_cons in Hm as [(v & Hp & Hok) Hm]. simpl in Hp, Hok. subst p.
    destruct (deliver_msg_ok P b t v Hr Hok) as (Hr1 & _ & Hrows). destruct (Hrows HP) as (rows & Hrw & Hkr).
    destruct (IH _ Hr1 Hm) as [Hr2 (new & He & Hk)]. split; [done|].
    exists (rows ++ new). rewrite He, Hrw, app_assoc. split; [done|].
    rewrite map_app, Hkr, Hk, <-omap_app. reflexivity.
Qed.

(** A message of the fleet has an event exactly when it is not on the
    summary topic. *)
Lemma msg_ok_event_key P t v : msg_ok P t v -> is_Some (event_key t v) <-> t <> summary_topic.
Proof.
  intros [(i & z & b & ts & conf & _ & -> & ->) | (-> & _)].
  - rewrite event_key_status. split; [intros _; apply status_topic_not_summary | by eexists].
  - split; [by intros [? ?] | done].
Qed.

Lemma length_omap_event_key P (l : list (string * PyVal)) :
  Forall (fun tv => msg_ok P tv.1 tv.2) l ->
  length (omap (fun tv => event_key tv.1 tv.2) l) = length (filter (fun tv => tv.1 <> summary_topic) l).
Proof.
  induction 1 as [|[t v] l Hok _ IH]; [done|].
  assert (Hc : omap (fun tv => event_key tv.1 tv.2) ((t, v) :: l) =
               match event_key t v with
               | Some k => k :: omap (fun tv => event_key tv.1 tv.2) l
               | None => omap (fun tv => event_key tv.1 tv.2) l
               end) by reflexivity.
  rewrite Hc, filter_cons. pose proof (msg_ok_event_key P t v Hok) as He. simpl in He.
  destruct (event_key t v) as [k|]; case_decide as Ht; simpl in *.
  - by rewrite IH.
  - exfalso. destruct He as [He _]. by apply He; [eexists|].
  - exfalso. apply He in Ht as [? ?]. done.
  - done.
Qed.

Lemma omap_inbox_key_json (l : list (string * PyVal)) :
  omap inbox_key (map (fun tv => (tv.1, Utf8Json tv.2)) l) = omap (fun tv => event_key tv.1 tv.2) l.
Proof.
  apply list_omap_ext. induction l as [|[t v] l IH]; simpl; constructor; [reflexivity | exact IH].
Qed.

(** ** A run of the whole system *)

Definition demo_clock : Clock := mkClock 0 0 (fun _ => 0%N) 0.

(** One sensor whose first draw flips it, and a broker that accepts
    every publish. *)
Definition demo_sim : ParkingSystem :=
  mkParkingSystem [ParkingSensor_init 1 "Zone_A"] [] demo_clock
    (mkRng (fun _ => 0) 0 (fun _ => true) 0) (mkLink (fun _ => true) 0).

Definition demo_trace : list Action := [ATick; AForward; AForward; ADeliver; ADeliver].

(** The same, then a restart of the backend that replays both retained
    messages. *)
Definition demo_trace_restart : list Action :=
  demo_trace ++ [ARestart (Some 0) demo_clock; ADeliver; ADeliver].

Definition demo_world (res : option Z) (acts : list Action) : World :=
  let w0 := world_init res demo_sim init_database demo_clock in default w0 (run_actions acts w0).

(** ** Properties *)

(** C1. Without a restart of the backend, and when every place id fits
    in 64 bits, the database keeps its earlier events and its new events,
    followed by those of the messages still waiting in the backend's
    inbox, are exactly the [(zone, place_id, status)] of the status
    messages the broker has received from the sensor process, in the
    order [client.publish] accepted them: every published status becomes
    one event, none is stored twice, summaries become none, whatever the
    interleaving of the two programs and the broker. *)
Theorem events_follow_publishes sim0 db c w :
  let P := map place (sensors sim0) in
  sim_inv P sim0 -> Forall (fun '(i, _) => int64_min <= i <= int64_max) P ->
  star sys_step (world_init (Some 0) sim0 db c) w ->
  exists new, parking_events (database (backend w)) = parking_events db ++ new /\
    map row_key new ++ omap inbox_key (inbox (broker w)) =
    omap msg_key (take (forwarded w) (outbox (sim w))).
Proof.
  intros P Hsim HP Hst.
  assert (H : order_inv P (parking_events db) w).
  { eapply (star_invariant sys_step); [ | exact Hst | by apply world_init_order].
    intros a b Ha Hab. by eapply order_inv_step. }
  by destruct H as (_ & _ & _ & _ & _ & H).
Qed.

(** C2. Whatever the interleaving, across restarts of the backend
    (with a failing connect or any return code) that replay the retained
    messages, a database whose rows describe the fleet keeps describing
    it: every event row names one of the fleet's places with the status
    [occupied] or [free], and every snapshot has the fleet's size as
    [total_places], an [occupied] count of at most that, and [free] the
    difference. *)
Theorem stored_rows_name_fleet_places res sim0 db c w :
  let P := map place (sensors sim0) in
  sim_inv P sim0 -> db_ok P db -> star sys_step_r (world_init res sim0 db c) w ->
  Forall (row_ok P) (parking_events (database (backend w))) /\
  Forall (hrow_ok P) (hourly_stats (database (backend w))).
Proof. intros P Hsim Hdb Hst. by destruct (reachable_safe P res sim0 db c w Hsim Hdb Hst) as (_ & _ & _ & H). Qed.

(** C3. In every such world, [GET /api/events] answers 500 (a limit
    beyond 64 bits) or a list of events each of which is a place of the
    fleet with the status [occupied] or [free]. *)
Theorem api_events_name_fleet_places res sim0 db c w args :
  let P := map place (sensors sim0) in
  sim_inv P sim0 -> db_ok P db -> star sys_step_r (world_init res sim0 db c) w ->
  get_events (database (backend w)) args = internal_error \/
  exists evs,
    get_events (database (backend w)) args =
      jsonify (VDict [("success", VBool true); ("count", VInt (Z.of_nat (length evs)));
                      ("events", VList evs)]) /\
    Forall (fun e => exists ts i z b, (i, z) ∈ P /\
              e = VDict [("timestamp", ts); ("zone", VStr z); ("place_id", VInt i);
                         ("status", VStr (status_str b))]) evs.
Proof.
  intros P Hsim Hdb Hst. destruct (reachable_safe P res sim0 db c w Hsim Hdb Hst) as (_ & _ & _ & [Hev _]).
  unfold get_events, handle, get_recent_events, py_bind.
  destruct (bind_param _); [right | by left]. eexists. split; [reflexivity|].
  apply Forall_forall. intros e He. apply list_elem_of_In, in_map_iff in He as (x & <- & Hx).
  apply list_elem_of_In, select_recent_sub in Hx as (r & Hr & ->).
  rewrite Forall_forall in Hev. destruct (Hev r Hr) as (i & z & b & Hz & Hi & Hs & Hin).
  exists (sql_value_py (ev_timestamp r)), i, z, b. unfold event_view, event_py. by rewrite Hz, Hi, Hs.
Qed.

(** C31. A backend process started over an existing database, with a
    successful connect, while the broker retains the simulator's
    messages (one per sensor topic that ever published, and the last
    summary): on subscribing it receives them all again and stores one
    new event per retained status, with the status's place and state, in
    the broker's order, and none for the retained summary, although no
    sensor changed. *)
Theorem restart_replays_retained P db c br :
  Forall (fun '(i, _) => int64_min <= i <= int64_max) P -> retained_ok P br ->
  let '(b', _) := backend_start db c br in
  loop_running b' = true /\
  exists new, parking_events (database b') = parking_events db ++ new /\
    map row_key new = omap (fun tv => event_key tv.1 tv.2) (map_to_list (retained br)) /\
    length new = length (filter (fun tv => tv.1 <> summary_topic) (map_to_list (retained br))).
Proof.
  intros HP Hret. unfold backend_start, on_connect, pump, broker_subscribe. simpl.
  rewrite filter_all.
  2: { intros [t v] Htv%elem_of_map_to_list. pose proof (msg_ok_matches P t v (Hret t v Htv)) as Hm.
        unfold matches_any in Hm. simpl in *. by rewrite orb_false_r in Hm. }
  assert (Hok : Forall (fun tv => msg_ok P tv.1 tv.2) (map_to_list (retained br))).
  { apply Forall_forall. intros [t v] Htv%elem_of_map_to_list. exact (Hret t v Htv). }
  assert (Hin : inbox_ok P (map (fun tv => (tv.1, Utf8Json tv.2)) (map_to_list (retained br)))).
  { apply Forall_forall. intros m Hm. apply list_elem_of_In, in_map_iff in Hm as ([t v] & <- & Htv).
    apply list_elem_of_In in Htv. rewrite Forall_forall in Hok. by exists v; split; [|apply (Hok (t, v))]. }
  assert (Hr0 : loop_running (MQTTBackend_init db c) = true /\ database (MQTTBackend_init db c) = db)
    by (unfold MQTTBackend_init; by destruct (datetime_now c)).
  destruct Hr0 as [Hr0 Hdb0].
  destruct (deliver_all_msgs_ok P _ _ HP Hr0 Hin) as [Hr (new & He & Hk)]. rewrite Hdb0 in He.
  split; [done|]. exists new. split_and!; [done | |].
  - by rewrite Hk, omap_inbox_key_json.
  - by rewrite <-(length_map row_key), Hk, omap_inbox_key_json, (length_omap_event_key P).
Qed.

(** ** Witnesses *)

Lemma events_follow_publishes_witness :
  let P := map place (sensors demo_sim) in
  let w := demo_world (Some 0) demo_trace in
  sim_inv P demo_sim /\ Forall (fun '(i, _) => int64_min <= i <= int64_max) P /\
  star sys_step (world_init (Some 0) demo_sim init_database demo_clock) w /\
  exists new, parking_events (database (backend w)) = parking_events init_database ++ new /\
    map row_key new ++ omap inbox_key (inbox (broker w)) =
    omap msg_key (take (forwarded w) (outbox (sim w))).
Proof.
  intros P w.
  assert (H1 : sim_inv P demo_sim) by (split_and!; [reflexivity | repeat constructor | constructor]).
  assert (H2 : Forall (fun '(i, _) => int64_min <= i <= int64_max) P)
    by (constructor; [unfold int64_min, int64_max; simpl; lia | constructor]).
  assert (H3 : star sys_step (world_init (Some 0) demo_sim init_database demo_clock) w)
    by (apply (run_actions_sys demo_trace); [reflexivity | vm_compute; reflexivity]).
  split_and!; [exact H1 | exact H2 | exact H3 | exact (events_follow_publishes demo_sim init_database demo_clock w H1 H2 H3)].
Defined.

Lemma stored_rows_name_fleet_places_witness :
  let P := map place (sensors demo_sim) in
  let w := demo_world (Some 0) demo_trace_restart in
  sim_inv P demo_sim /\ db_ok P init_database /\
  star sys_step_r (world_init (Some 0) demo_sim init_database demo_clock) w /\
  Forall (row_ok P) (parking_events (database (backend w))) /\
  Forall (hrow_ok P) (hourly_stats (database (backend w))).
Proof.
  intros P w.
  assert (H1 : sim_inv P demo_sim) by (split_and!; [reflexivity | repeat constructor | constructor]).
  assert (H2 : db_ok P init_database) by (split; constructor).
  assert (H3 : star sys_step_r (world_init (Some 0) demo_sim init_database demo_clock) w)
    by (apply (run_actions_sys_r demo_trace_restart); vm_compute; reflexivity).
  split_and!; [exact H1 | exact H2 | exact H3 | ..];
    apply (stored_rows_name_fleet_places (Some 0) demo_sim init_database demo_clock w H1 H2 H3).
Defined.

Lemma api_events_name_fleet_places_witness :
  let P := map place (sensors demo_sim) in
  let w := demo_world (Some 0) demo_trace_restart in
  sim_inv P demo_sim /\ db_ok P init_database /\
  star sys_step_r (world_init (Some 0) demo_sim init_database demo_clock) w /\
  (get_events (database (backend w)) [] = internal_error \/
   exists evs,
     get_events (database (backend w)) [] =
       jsonify (VDict [("success", VBool true); ("count", VInt (Z.of_nat (length evs)));
                       ("events", VList evs)]) /\
     Forall (fun e => exists ts i z b, (i, z) ∈ P /\
               e = VDict [("timestamp", ts); ("zone", VStr z); ("place_id", VInt i);
                          ("status", VStr (status_str b))]) evs).
Proof.
  intros P w.
  assert (H1 : sim_inv P demo_sim) by (split_and!; [reflexivity | repeat constructor | constructor]).
  assert (H2 : db_ok P init_database) by (split; constructor).
  assert (H3 : star sys_step_r (world_init (Some 0) demo_sim init_database demo_clock) w)
    by (apply (run_actions_sys_r demo_trace_restart); vm_compute; reflexivity).
  split_and!; [exact H1 | exact H2 | exact H3 | exact (api_events_name_fleet_places (Some 0) demo_sim init_database demo_clock w [] H1 H2 H3)].
Defined.

Definition demo_retained : gmap string PyVal :=
  <["parking/summary" := summary_payload 1 1 (datetime_of_us 0)]>
    {["parking/Zone_A/place_1" := status_payload 1 "Zone_A" "occupied" "2024-01-03T10:00:00" (9 # 10)]}.

Lemma restart_replays_retained_witness :
  let P := [(1, "Zone_A")] in
  let br := mkBroker demo_retained [] [] in
  Forall (fun '(i, _) => int64_min <= i <= int64_max) P /\ retained_ok P br /\
  let '(b', _) := backend_start init_database demo_clock br in
  loop_running b' = true /\
  exists new, parking_events (database b') = parking_events init_database ++ new /\
    map row_key new = omap (fun tv => event_key tv.1 tv.2) (map_to_list (retained br)) /\
    length new = length (filter (fun tv => tv.1 <> summary_topic) (map_to_list (retained br))).
Proof.
  intros P br.
  assert (H1 : Forall (fun '(i, _) => int64_min <= i <= int64_max) P)
    by (constructor; [unfold int64_min, int64_max; simpl; lia | constructor]).
  assert (H2 : retained_ok P br).
  { intros t v Hl. unfold br, demo_retained in Hl. cbn [retained] in Hl.
    apply lookup_insert_Some in Hl as [[<- <-] | [_ Hl]].
    - right. split; [reflexivity|]. exists 1%nat, (datetime_of_us 0). split; [simpl; lia | reflexivity].
    - apply lookup_singleton_Some in Hl as [<- <-]. left.
      exists 1, "Zone_A", true, "2024-01-03T10:00:00", (9 # 10). split_and!; [by left | reflexivity..]. }
  split_and!; [exact H1 | exact H2 | exact (restart_replays_retained P init_database demo_clock br H1 H2)].
Defined.

End System.
